(** * Shift4 payment platform: refunds, confirmation, webhooks and terminal polling

    A shallow embedding of the TypeScript sources:
    - [payments/errors.ts]                      (module [Errors])
    - [payments/adapters/skytab-adapter.ts]     (module [SkyTabAdapter])
    - [payments/adapters/shift4-adapter.ts]     (module [Shift4Adapter])
    - [app/api/v1/refunds/route.ts]             (module [RefundsRoute])
    - [app/api/v1/checkout/online/confirm/route.ts] (module [ConfirmRoute])
    - [app/api/v1/webhooks/shift4/route.ts]     (module [WebhookRoute])
    - [payments/adapters/utg-adapter.ts]        (module [UTGAdapter])
    - [app/api/v1/terminals/route.ts]           (module [TerminalsRoute])
    - [app/api/v1/terminals/[terminalId]/ping/route.ts] (module [PingRoute])
    - [app/api/v1/checkout/terminal/pay/route.ts] (module [TerminalPayRoute])
    - [app/api/v1/checkout/terminal/status/[transactionId]/route.ts]
                                                (module [TerminalStatusRoute])
    - [app/api/v1/checkout/online/intent/route.ts] (module [IntentRoute])

    Conventions.  Amounts are integers in minor currency units ([Z]).
    Prisma tables are finite maps from the primary key to the row.  Every
    call that leaves the process (the gateway's HTTP API, the terminal's HTTP
    API) is an argument of the model: the answer the remote side gives, or
    the exception the call raises.  [new Date()] and [nanoid()] are read from
    an environment record. *)

From stdpp Require Import base numbers option list strings pretty gmap fin_maps.
From Stdlib Require Import ZArith Lia Ascii String.

Local Open Scope string_scope.
Local Open Scope Z_scope.

(** ** JavaScript helpers *)

Module Js.

(** Truthiness of the values the sources test with [||], [&&], [!] and [if]. *)
Definition truthy_string (s : string) : bool :=
  if decide (s = "") then false else true.

Definition truthy_Z (n : Z) : bool :=
  if decide (n = 0) then false else true.

(** [a || b] on a possibly-undefined field, by the truthiness of its type. *)
Definition or_else {A} (truthy : A → bool) (a b : option A) : option A :=
  match a with
  | Some x => if truthy x then Some x else b
  | None => b
  end.

Definition is_truthy {A} (truthy : A → bool) (a : option A) : bool :=
  match a with
  | Some x => truthy x
  | None => false
  end.

(** [s.includes(needle)] *)
Definition includes (needle s : string) : bool :=
  match String.index 0 needle s with
  | Some _ => true
  | None => false
  end.

Definition upper_ascii (c : ascii) : ascii :=
  let n := nat_of_ascii c in
  if (97 <=? n)%nat && (n <=? 122)%nat then ascii_of_nat (n - 32) else c.

Definition lower_ascii (c : ascii) : ascii :=
  let n := nat_of_ascii c in
  if (65 <=? n)%nat && (n <=? 90)%nat then ascii_of_nat (n + 32) else c.

Fixpoint map_string (f : ascii → ascii) (s : string) : string :=
  match s with
  | EmptyString => EmptyString
  | String c r => String (f c) (map_string f r)
  end.

(** Strings are the ASCII texts the sources exchange (ids, status words,
    codes, currencies); on them [toUpperCase] and [toLowerCase] convert the
    letters a to z. *)
Definition toUpperCase : string → string := map_string upper_ascii.
Definition toLowerCase : string → string := map_string lower_ascii.

(** The property names every object literal inherits from
    [Object.prototype].  A lookup [map[key]] on a literal finds, for one of
    these keys, the inherited value (a function; for [__proto__] the
    prototype itself), which is truthy. *)
Definition object_prototype_keys : list string :=
  ["constructor"; "__defineGetter__"; "__defineSetter__"; "hasOwnProperty";
   "__lookupGetter__"; "__lookupSetter__"; "isPrototypeOf"; "propertyIsEnumerable";
   "toString"; "valueOf"; "__proto__"; "toLocaleString"].

(** How an [async] function (or a [try] block) ends. *)
Inductive Completion (E A : Type) : Type :=
| Returned (a : A)
| Threw (e : E).
Global Arguments Returned {E A} a.
Global Arguments Threw {E A} e.

End Js.

(** ** payments/errors.ts *)

Module Errors.

(** An instance of [PaymentError] or of one of its subclasses.  [name] is
    the class; [terminalId] is the field [TerminalError] adds.  The fields
    [declineCode] and [retryAfter] of [CardError] and [RateLimitError] are
    read nowhere in the modelled code and are left out. *)
Record PaymentError := mkError {
  name : string;
  message : string;
  code : string;
  statusCode : Z;
  retryable : bool;
  terminalId : option string
}.

Definition newPaymentError (message : string) (code : option string)
    (statusCode : option Z) (retryable : option bool) : PaymentError :=
  {| name := "PaymentError"; message := message;
     code := default "PAYMENT_ERROR" code;
     statusCode := default 500 statusCode;
     retryable := default false retryable;
     terminalId := None |}.

Definition NetworkError (message : string) (retryable : option bool) : PaymentError :=
  {| name := "NetworkError"; message := message; code := "NETWORK_ERROR";
     statusCode := 503; retryable := default true retryable; terminalId := None |}.

Definition InvalidRequestError (message : string) : PaymentError :=
  {| name := "InvalidRequestError"; message := message; code := "INVALID_REQUEST";
     statusCode := 400; retryable := false; terminalId := None |}.

Definition AuthenticationError (message : string) : PaymentError :=
  {| name := "AuthenticationError"; message := message; code := "AUTHENTICATION_ERROR";
     statusCode := 401; retryable := false; terminalId := None |}.

Definition CardError (message : string) : PaymentError :=
  {| name := "CardError"; message := message; code := "CARD_ERROR";
     statusCode := 402; retryable := false; terminalId := None |}.

Definition TerminalError (message : string) (terminalId : option string)
    (retryable : option bool) : PaymentError :=
  {| name := "TerminalError"; message := message; code := "TERMINAL_ERROR";
     statusCode := 500; retryable := default false retryable;
     terminalId := terminalId |}.

(** [super(...)], then [this.name] and [this.code] are overwritten. *)
Definition TerminalOfflineError (terminalId : string) : PaymentError :=
  let e := TerminalError ("Terminal " +:+ terminalId +:+ " is offline")
                         (Some terminalId) (Some true) in
  {| name := "TerminalOfflineError"; message := message e; code := "TERMINAL_OFFLINE";
     statusCode := statusCode e; retryable := retryable e; terminalId := Errors.terminalId e |}.

Definition TerminalTimeoutError (terminalId : string) : PaymentError :=
  let e := TerminalError ("Terminal " +:+ terminalId +:+ " timed out")
                         (Some terminalId) (Some true) in
  {| name := "TerminalTimeoutError"; message := message e; code := "TERMINAL_TIMEOUT";
     statusCode := statusCode e; retryable := retryable e; terminalId := Errors.terminalId e |}.

Definition IdempotencyError (message : string) : PaymentError :=
  {| name := "IdempotencyError"; message := message; code := "IDEMPOTENCY_ERROR";
     statusCode := 409; retryable := false; terminalId := None |}.

Definition RateLimitError (message : string) : PaymentError :=
  {| name := "RateLimitError"; message := message; code := "RATE_LIMIT_ERROR";
     statusCode := 429; retryable := true; terminalId := None |}.

(** A value that reaches a [catch]. *)
Inductive JsError :=
| PaymentErr (e : PaymentError)                   (* instanceof PaymentError *)
| AxiosErr (code : option string) (msg : string)  (* axios.isAxiosError(error) *)
| PlainErr (msg : string)                         (* any other Error *)
| NotAnError.                                     (* a thrown non-Error value *)

Definition isAxiosError (e : JsError) : bool :=
  match e with AxiosErr _ _ => true | _ => false end.

Definition axios_code (e : JsError) : option string :=
  match e with AxiosErr c _ => c | _ => None end.

(** [error instanceof Error ? error.message : 'Unknown error'] *)
Definition message_or_unknown (e : JsError) : string :=
  match e with
  | PaymentErr p => message p
  | AxiosErr _ m => m
  | PlainErr m => m
  | NotAnError => "Unknown error"
  end.

(** [isRetryableError(error: Error)]; the argument is an [Error], so the
    [NotAnError] case reads the message of nothing and is taken as [false]. *)
Definition isRetryableError (e : JsError) : bool :=
  match e with
  | PaymentErr p => retryable p
  | AxiosErr _ m | PlainErr m =>
      Js.includes "ECONNREFUSED" m || Js.includes "ETIMEDOUT" m || Js.includes "ENOTFOUND" m
  | NotAnError => false
  end.

Definition toPaymentError (e : JsError) : PaymentError :=
  match e with
  | PaymentErr p => p
  | AxiosErr _ m | PlainErr m => newPaymentError m (Some "UNKNOWN_ERROR") (Some 500) (Some false)
  | NotAnError => newPaymentError "An unknown error occurred" (Some "UNKNOWN_ERROR") (Some 500) (Some false)
  end.

End Errors.

(** ** payments/adapters/skytab-adapter.ts *)

Module SkyTabAdapter.
Import Js Errors.

(** What [TransactionStatus.status] holds: one of the six strings of its
    declared type or, out of [mapStatus] of the SkyTab adapter, a value
    inherited from [Object.prototype], found under [key]; such a value is
    no string and equals none of the six. *)
Inductive Status :=
| pending | approved | declined | cancelled | timeout | error
| inherited (key : string).

(** The string a status is.  An inherited value is not a string; the text
    given for it is read by no definition: [completed_result], the one
    reader in the SkyTab adapter, is reached for a status that ends the
    loop, which an inherited value does not. *)
Definition status_string (s : Status) : string :=
  match s with
  | pending => "pending" | approved => "approved" | declined => "declined"
  | cancelled => "cancelled" | timeout => "timeout" | error => "error"
  | inherited _ => ""
  end.

(** What [PaymentResult.entryMode] holds: one of the five strings of its
    declared type or, out of [mapEntryMode], a value inherited from
    [Object.prototype]. *)
Inductive EntryMode :=
| chip | swipe | contactless | keyed | fallback
| inherited_mode (key : string).

(** [response.data] of [GET /api/v1/transactions/:id]. *)
Record DeviceData := {
  d_status : string;
  d_amount : option Z;
  d_tip_amount : option Z;
  d_total_amount : option Z;
  d_card_token : option string;
  d_card_brand : option string;
  d_card_last4 : option string;
  d_auth_code : option string;
  d_entry_mode : option string;
  d_response_code : option string;
  d_response_message : option string
}.

(** [emvData] is an opaque blob copied through and is left out. *)
Record PaymentResult := {
  transactionId : string;
  r_approved : bool;
  amount : option Z;
  tipAmount : option Z;
  totalAmount : option Z;
  token : option string;
  cardBrand : option string;
  cardLast4 : option string;
  authCode : option string;
  entryMode : option EntryMode;
  responseCode : option string;
  responseMessage : option string;
  r_error : option string;
  errorCode : option string
}.

Record TransactionStatus := {
  ts_transactionId : string;
  ts_status : Status;
  ts_approved : option bool;
  ts_result : option PaymentResult;
  ts_error : option string
}.

(** [statusMap[status] || 'error'], [statusMap] being an object literal
    with the six keys of [SkyTabStatus]: an own key gives its status, a key
    of [Object.prototype] gives the inherited value, which is truthy, and
    any other string gives [undefined] and so 'error'. *)
Definition mapStatus (status : string) : Status :=
  if decide (status = "pending") then pending
  else if decide (status = "processing") then pending
  else if decide (status = "approved") then approved
  else if decide (status = "declined") then declined
  else if decide (status = "cancelled") then cancelled
  else if decide (status = "error") then error
  else if decide (status ∈ object_prototype_keys) then inherited status
  else error.

(** [modeMap[mode?.toLowerCase()] || undefined], [modeMap] being an object
    literal: the lower-cased mode is looked up among its own keys and then
    among those of [Object.prototype] (of which "constructor" and
    "__proto__" have no upper-case letter). *)
Definition mapEntryMode (mode : option string) : option EntryMode :=
  match mode with
  | None => None
  | Some m =>
      let k := toLowerCase m in
      if decide (k = "chip") then Some chip
      else if decide (k = "emv") then Some chip
      else if decide (k = "swipe") then Some swipe
      else if decide (k = "mag") then Some swipe
      else if decide (k = "contactless") then Some contactless
      else if decide (k = "nfc") then Some contactless
      else if decide (k = "tap") then Some contactless
      else if decide (k = "manual") then Some keyed
      else if decide (k = "keyed") then Some keyed
      else if decide (k = "fallback") then Some fallback
      else if decide (k ∈ object_prototype_keys) then Some (inherited_mode k)
      else None
  end.

Definition parseTransactionData (data : DeviceData) (transactionId : string) : PaymentResult :=
  let approved := bool_decide (d_status data = "approved") in
  {| transactionId := transactionId;
     r_approved := approved;
     amount := d_amount data;
     tipAmount := d_tip_amount data;
     totalAmount := or_else truthy_Z (d_total_amount data) (d_amount data);
     token := d_card_token data;
     cardBrand := d_card_brand data;
     cardLast4 := d_card_last4 data;
     authCode := d_auth_code data;
     entryMode := mapEntryMode (d_entry_mode data);
     responseCode := d_response_code data;
     responseMessage := d_response_message data;
     r_error := if approved then None else d_response_message data;
     errorCode := if approved then None else d_response_code data |}.

(** What one HTTP call of the axios client does: it rejects or it resolves
    with [response.data]. *)
Definition Http (A : Type) : Type := Completion JsError A.

(** [getStatus]: never throws; a failed call is reported as status [error]. *)
Definition getStatus (get : Http DeviceData) (transactionId : string) : TransactionStatus :=
  match get with
  | Returned data =>
      {| ts_transactionId := transactionId;
         ts_status := mapStatus (d_status data);
         ts_approved := Some (bool_decide (d_status data = "approved"));
         ts_result := if decide (d_status data = "approved")
                      then Some (parseTransactionData data transactionId) else None;
         ts_error := None |}
  | Threw e =>
      {| ts_transactionId := transactionId;
         ts_status := error;
         ts_approved := None;
         ts_result := None;
         ts_error := Some (message_or_unknown e) |}
  end.

(** The test that ends the loop of [pollTransactionStatus]. *)
Definition is_complete (s : Status) : bool :=
  match s with
  | approved | declined | cancelled | error => true
  | pending | timeout | inherited _ => false
  end.

(** What the loop does that the outside can observe. *)
Inductive PollEvent :=
| Sleep (ms : nat)
| GetStatus (transactionId : string).

(** The result the loop returns on a complete status. *)
Definition completed_result (status : TransactionStatus) (transactionId : string)
    (expectedAmount : Z) : PaymentResult :=
  match ts_result status with
  | Some r => r
  | None =>
      {| transactionId := transactionId;
         r_approved := false;
         amount := Some expectedAmount;
         tipAmount := None;
         totalAmount := Some expectedAmount;
         token := None; cardBrand := None; cardLast4 := None;
         authCode := None; entryMode := None;
         responseCode := None; responseMessage := None;
         r_error := or_else truthy_string (ts_error status)
                            (Some "Transaction was not approved");
         errorCode := Some (toUpperCase (status_string (ts_status status))) |}
  end.

Section Poll.
(** The adapter's [terminalId], and the device: [device k] is what the
    [k]-th status query of this loop (from 0) gets back. *)
Variable terminalId : string.
Variable device : nat → Http DeviceData.
Variable transactionId : string.
Variable expectedAmount : Z.
Variable intervalMs : nat.

(** [for (let attempt = 0; attempt < maxAttempts; attempt++)], by the
    number of iterations left. *)
Fixpoint poll_from (left attempt : nat)
    : list PollEvent * Completion JsError PaymentResult :=
  match left with
  | O => ([], Threw (PaymentErr (TerminalTimeoutError terminalId)))
  | S left' =>
      let status := getStatus (device attempt) transactionId in
      if is_complete (ts_status status)
      then ([Sleep intervalMs; GetStatus transactionId],
            Returned (completed_result status transactionId expectedAmount))
      else
        let '(evs, res) := poll_from left' (S attempt) in
        (Sleep intervalMs :: GetStatus transactionId :: evs, res)
  end.
End Poll.

Definition DEFAULT_MAX_ATTEMPTS : nat := 60.
Definition DEFAULT_INTERVAL_MS : nat := 2000.

(** [pollTransactionStatus(transactionId, expectedAmount, maxAttempts = 60,
    intervalMs = 2000)]; an argument left out is [None].  Both are counts;
    the method is private and its one caller, [startPayment], leaves both
    out. *)
Definition pollTransactionStatus (terminalId : string) (device : nat → Http DeviceData)
    (transactionId : string) (expectedAmount : Z)
    (maxAttempts intervalMs : option nat)
    : list PollEvent * Completion JsError PaymentResult :=
  poll_from terminalId device transactionId expectedAmount
            (default DEFAULT_INTERVAL_MS intervalMs)
            (default DEFAULT_MAX_ATTEMPTS maxAttempts) 0.

(** [response.data] of [POST /api/v1/transactions]. *)
Record TransactionData := { transaction_id : option string }.

Record StartPaymentRequest := {
  sp_amount : Z;
  sp_currency : string;
  sp_orderId : string
}.

(** The [catch] of [startPayment] (the UTG adapter's is the same but for
    the prefix of the message). *)
Definition startPayment_catch (prefix terminalId : string) (e : JsError) : PaymentError :=
  if isAxiosError e
     && (bool_decide (axios_code e = Some "ECONNREFUSED")
         || bool_decide (axios_code e = Some "ETIMEDOUT"))
  then TerminalOfflineError terminalId
  else if isAxiosError e && bool_decide (axios_code e = Some "ECONNABORTED")
  then TerminalTimeoutError terminalId
  else TerminalError (prefix +:+ " payment failed: " +:+ message_or_unknown e)
                     (Some terminalId) None.

(** [startPayment]: [nano] is the id [nanoid()] draws, [post] the outcome of
    [POST /api/v1/transactions], [device] the status queries after it.
    Every exception of the [try] block, the poll's own timeout included,
    goes through [startPayment_catch]. *)
Definition startPayment (terminalId nano : string) (post : Http TransactionData)
    (device : nat → Http DeviceData) (request : StartPaymentRequest)
    : list PollEvent * Completion JsError PaymentResult :=
  match post with
  | Threw e => ([], Threw (PaymentErr (startPayment_catch "SkyTab" terminalId e)))
  | Returned transactionData =>
      let tid := default nano (or_else truthy_string (transaction_id transactionData) (Some nano)) in
      match pollTransactionStatus terminalId device tid (sp_amount request) None None with
      | (evs, Returned r) => (evs, Returned r)
      | (evs, Threw e) =>
          (evs, Threw (PaymentErr (startPayment_catch "SkyTab" terminalId e)))
      end
  end.

End SkyTabAdapter.

(** ** The Prisma store *)

Module Db.
Import Js.

Definition Id := nat.
Definition Time := Z.

(** Modelled from the spec: the Prisma schema is not among the sources.
    Each enum lists the literals the routes and the seed script write to
    the column, and the payment states the specification names besides. *)
Module OrderStatus.
Inductive t := DRAFT | PENDING_PAYMENT | PAID | PARTIALLY_REFUNDED | REFUNDED.
End OrderStatus.
Module PaymentStatus.
Inductive t := PENDING | AUTHORIZED | CAPTURED | FAILED | PARTIALLY_REFUNDED | REFUNDED.
End PaymentStatus.
Module MethodType.
Inductive t := CARD_ONLINE | SAVED_CARD | CARD_TERMINAL.
End MethodType.
Module RefundStatus.
Inductive t := PENDING | SUCCEEDED | FAILED.
End RefundStatus.
Module DisputeStatus.
Inductive t := NEEDS_RESPONSE | WON | LOST.
End DisputeStatus.
Module PayoutStatus.
Inductive t := PENDING | PAID.
End PayoutStatus.

Global Instance order_status_eq_dec : EqDecision OrderStatus.t.
Proof. solve_decision. Defined.
Global Instance payment_status_eq_dec : EqDecision PaymentStatus.t.
Proof. solve_decision. Defined.
Global Instance method_type_eq_dec : EqDecision MethodType.t.
Proof. solve_decision. Defined.
Global Instance refund_status_eq_dec : EqDecision RefundStatus.t.
Proof. solve_decision. Defined.

Record Order := {
  orderNumber : string;
  o_status : OrderStatus.t;
  total : Z;
  o_currency : string;
  refundedTotal : Z
}.

(** The card columns ([cardBrand], [cardLast4], [cardExpMonth],
    [cardExpYear]) are copied through and decide nothing; they are left out. *)
Record Payment := {
  p_orderId : Id;
  p_customerId : option string;
  shift4ChargeId : option string;
  p_amount : Z;
  p_currency : string;
  p_status : PaymentStatus.t;
  methodType : MethodType.t;
  p_idempotencyKey : string;
  capturedAt : option Time;
  failureCode : option string;
  p_failureMessage : option string
}.

Record Refund := {
  r_orderId : Id;
  r_paymentId : Id;
  shift4RefundId : option string;
  r_amount : Z;
  r_currency : string;
  r_status : RefundStatus.t;
  r_reason : option string;
  r_idempotencyKey : string;
  r_processedAt : option Time;
  r_failureMessage : option string
}.

Record Dispute := {
  d_orderId : Id;
  shift4DisputeId : option string;
  d_shift4ChargeId : option string;
  d_amount : Z;
  d_currency : string;
  d_status : DisputeStatus.t;
  d_reason : string;
  evidenceDeadline : option Time;
  resolvedAt : option Time;
  resolution : option string
}.

Record Payout := {
  shift4PayoutId : string;
  po_amount : Z;
  po_currency : string;
  po_status : PayoutStatus.t;
  arrivalDate : option Time;
  po_description : option string
}.

(** The JSON body of a webhook delivery, by the fields the receiver and
    the handlers read: [id], [eventId], [type], and under [data]: [id],
    [chargeId], [refunds[0].id], [status], [amount], [currency], [reason],
    [failureMessage], [evidenceDeadline], [outcome], [arrivalDate],
    [description]. *)
Record PayloadData := {
  pd_id : option string;
  pd_chargeId : option string;
  pd_refund0_id : option string;
  pd_status : option string;
  pd_amount : option Z;
  pd_currency : option string;
  pd_reason : option string;
  pd_failureMessage : option string;
  pd_evidenceDeadline : option Z;
  pd_outcome : option string;
  pd_arrivalDate : option Z;
  pd_description : option string
}.

Record Payload := {
  pl_id : option string;
  pl_eventId : option string;
  pl_type : option string;
  pl_data : option PayloadData
}.

Record WebhookEvent := {
  eventId : string;
  eventType : string;
  payload : Payload;
  processed : bool;
  receivedAt : Time;
  w_processedAt : option Time;
  processingError : option string;
  retryCount : Z
}.

Record DB := {
  orders : gmap Id Order;
  payments : gmap Id Payment;
  refunds : gmap Id Refund;
  disputes : gmap Id Dispute;
  payouts : gmap Id Payout;
  webhookEvents : gmap Id WebhookEvent
}.

Definition set_orders (v : gmap Id Order) (db : DB) : DB :=
  {| orders := v; payments := payments db; refunds := refunds db;
     disputes := disputes db; payouts := payouts db; webhookEvents := webhookEvents db |}.
Definition set_payments (v : gmap Id Payment) (db : DB) : DB :=
  {| orders := orders db; payments := v; refunds := refunds db;
     disputes := disputes db; payouts := payouts db; webhookEvents := webhookEvents db |}.
Definition set_refunds (v : gmap Id Refund) (db : DB) : DB :=
  {| orders := orders db; payments := payments db; refunds := v;
     disputes := disputes db; payouts := payouts db; webhookEvents := webhookEvents db |}.
Definition set_disputes (v : gmap Id Dispute) (db : DB) : DB :=
  {| orders := orders db; payments := payments db; refunds := refunds db;
     disputes := v; payouts := payouts db; webhookEvents := webhookEvents db |}.
Definition set_payouts (v : gmap Id Payout) (db : DB) : DB :=
  {| orders := orders db; payments := payments db; refunds := refunds db;
     disputes := disputes db; payouts := v; webhookEvents := webhookEvents db |}.
Definition set_webhookEvents (v : gmap Id WebhookEvent) (db : DB) : DB :=
  {| orders := orders db; payments := payments db; refunds := refunds db;
     disputes := disputes db; payouts := payouts db; webhookEvents := v |}.

(** [data: { status }] and [data: { status, capturedAt }] on a payment. *)
Definition set_payment_status (s : PaymentStatus.t) (p : Payment) : Payment :=
  {| p_orderId := p_orderId p; p_customerId := p_customerId p;
     shift4ChargeId := shift4ChargeId p; p_amount := p_amount p;
     p_currency := p_currency p; p_status := s; methodType := methodType p;
     p_idempotencyKey := p_idempotencyKey p; capturedAt := capturedAt p;
     failureCode := failureCode p; p_failureMessage := p_failureMessage p |}.

Definition set_payment_captured (t : Time) (p : Payment) : Payment :=
  {| p_orderId := p_orderId p; p_customerId := p_customerId p;
     shift4ChargeId := shift4ChargeId p; p_amount := p_amount p;
     p_currency := p_currency p; p_status := PaymentStatus.CAPTURED;
     methodType := methodType p;
     p_idempotencyKey := p_idempotencyKey p; capturedAt := Some t;
     failureCode := failureCode p; p_failureMessage := p_failureMessage p |}.

(** *** Prisma's table operations *)

Section Table.
Context {V : Type}.
Implicit Types (m : gmap Id V) (f : V → V) (P : V → bool).

(** [create]: the row gets a primary key no row of the table has. *)
Definition create m (row : V) : Id * gmap Id V :=
  let k := fresh (dom m) in (k, <[k := row]> m).

(** [findMany({ where })] *)
Definition findMany P m : list (Id * V) :=
  List.filter (λ kv, P kv.2) (map_to_list m).

(** [findFirst({ where })], and [findUnique] on a unique column. *)
Definition findFirst P m : option (Id * V) :=
  head (findMany P m).

(** [update({ where: { id } })]: raises when no row has the key. *)
Definition update (id : Id) f m : option (gmap Id V) :=
  match m !! id with
  | Some _ => Some (alter f id m)
  | None => None
  end.

(** [updateMany({ where, data })] *)
Definition updateMany P f m : gmap Id V :=
  (λ row, if P row then f row else row) <$> m.
End Table.

(** A [where: { column: value }] clause.  Prisma drops a clause whose value
    is [undefined], so the filter then matches every row. *)
Definition where_eq (value column : option string) : bool :=
  match value with
  | None => true
  | Some v => bool_decide (column = Some v)
  end.

(** What a Prisma call raises; the sources read only [message] of it. *)
Definition prisma_not_found : string := "Record to update not found.".
Definition prisma_validation : string := "Argument `where` needs at least one argument.".

End Db.

(** ** lib/api-utils.ts *)

Module Api.
Import Js Errors Db.

Inductive Body :=
| JsonError (code message : string)
| JsonRefund (id : Id) (refund : Refund)
| JsonPayment (paymentId : Id) (orderId : Id) (payment : Payment)
| Text (s : string).

Record Response := { status : Z; body : Body }.

(** [errorResponse(error, status = 500)] *)
Definition errorResponse (e : JsError) (status : option Z) : Response :=
  match e with
  | PaymentErr p =>
      {| status := statusCode p; body := JsonError (code p) (message p) |}
  | AxiosErr _ m | PlainErr m =>
      {| status := default 500 status; body := JsonError "INTERNAL_ERROR" m |}
  | NotAnError =>
      {| status := default 500 status;
         body := JsonError "UNKNOWN_ERROR" "An unknown error occurred" |}
  end.

(** [generateIdempotencyKey(prefix = 'idem')]; [nano] is what [nanoid(24)] draws. *)
Definition generateIdempotencyKey (prefix : option string) (nano : string) : string :=
  default "idem" prefix +:+ "_" +:+ nano.

(** What a route handler reads from outside the request and the store. *)
Record Env := { now : Time; nanoid : string }.

End Api.

(** ** payments/adapters/shift4-adapter.ts *)

Module Shift4Adapter.
Import Js Errors.

Definition Http (A : Type) : Type := Completion JsError A.

(** The requests the adapter sends to [https://api.shift4.com], by the
    fields of their payloads; the [metadata] object is left out. *)
Inductive HttpRequest :=
| PostCharges (amount : Z) (currency : string) (captured : bool) (description : string)
              (card customerId : option string)
| PostRefunds (chargeId : option string) (amount : option Z) (reason : option string).

Inductive ChargeStatus := succeeded | pending | failed.
Inductive RefundResultStatus := r_succeeded | r_pending.

Record CreateChargeRequest := {
  cc_amount : Z;
  cc_currency : string;
  cc_token : option string;
  cc_customerId : option string;
  cc_description : string;
  cc_capture : option bool
}.

(** [response.data] of [POST /charges]; the card is left out as in [Db.Payment]. *)
Record ChargeData := {
  ch_id : string;
  ch_amount : Z;
  ch_currency : string;
  ch_status : string;
  ch_captured : bool;
  ch_failureCode : option string;
  ch_failureMessage : option string
}.

Record CreateChargeResponse := {
  chargeId : string;
  cr_amount : Z;
  cr_currency : string;
  cr_status : ChargeStatus;
  cr_captured : bool;
  cr_failureCode : option string;
  cr_failureMessage : option string
}.

Definition mapChargeStatus (charge : ChargeData) : ChargeStatus :=
  if decide (ch_status charge = "successful") then succeeded
  else if decide (ch_status charge = "failed") then failed
  else pending.

(** [createCharge]: the request it sends, if any, and how it ends.  [http]
    is what the gateway does with the request (after the response
    interceptor has turned a failure into an error of [Errors]). *)
Definition createCharge (http : Http ChargeData) (request : CreateChargeRequest)
    : list HttpRequest * Completion JsError CreateChargeResponse :=
  let captured := default true (cc_capture request) in
  let send card customerId :=
    let sent := [PostCharges (cc_amount request) (cc_currency request) captured
                             (cc_description request) card customerId] in
    match http with
    | Threw e => (sent, Threw e)
    | Returned charge =>
        (sent, Returned {| chargeId := ch_id charge;
                           cr_amount := ch_amount charge;
                           cr_currency := ch_currency charge;
                           cr_status := mapChargeStatus charge;
                           cr_captured := ch_captured charge;
                           cr_failureCode := ch_failureCode charge;
                           cr_failureMessage := ch_failureMessage charge |})
    end in
  if is_truthy truthy_string (cc_token request) then send (cc_token request) None
  else if is_truthy truthy_string (cc_customerId request) then send None (cc_customerId request)
  else ([], Threw (PaymentErr (InvalidRequestError "Either token or customerId is required"))).

Record CreateRefundRequest := {
  rf_chargeId : option string;
  rf_amount : Z;
  rf_reason : option string
}.

Record RefundData := {
  rd_id : string;
  rd_chargeId : string;
  rd_amount : Z;
  rd_status : string
}.

Record CreateRefundResponse := {
  refundId : string;
  rr_chargeId : string;
  rr_amount : Z;
  rr_status : RefundResultStatus
}.

(** [createRefund]: [amount] and [reason] enter the payload when truthy. *)
Definition createRefund (http : Http RefundData) (request : CreateRefundRequest)
    : list HttpRequest * Completion JsError CreateRefundResponse :=
  let sent := [PostRefunds (rf_chargeId request)
                 (if truthy_Z (rf_amount request) then Some (rf_amount request) else None)
                 (or_else truthy_string (rf_reason request) None)] in
  match http with
  | Threw e => (sent, Threw e)
  | Returned data =>
      (sent, Returned {| refundId := rd_id data;
                         rr_chargeId := rd_chargeId data;
                         rr_amount := rd_amount data;
                         rr_status := if decide (rd_status data = "successful")
                                      then r_succeeded else r_pending |})
  end.

End Shift4Adapter.

(** ** app/api/v1/refunds/route.ts *)

Module RefundsRoute.
Import Js Errors Db Api.

Record CreateRefundRequest := {
  paymentId : Id;
  amount : option Z;
  reason : option string
}.

(** What one request does: the response, the store it leaves, and the
    requests it sent to the gateway. *)
Record Outcome := {
  resp : Response;
  db' : DB;
  calls : list Shift4Adapter.HttpRequest
}.

(** [body.amount || payment.amount] *)
Definition refundAmount (body : CreateRefundRequest) (payment : Payment) : Z :=
  match amount body with
  | Some a => if truthy_Z a then a else p_amount payment
  | None => p_amount payment
  end.

(** [prisma.refund.findMany({ where: { paymentId, status: 'SUCCEEDED' } })] *)
Definition existingRefunds (db : DB) (pid : Id) : list (Id * Refund) :=
  findMany (λ r, bool_decide (r_paymentId r = pid)
                 && bool_decide (r_status r = RefundStatus.SUCCEEDED)) (refunds db).

(** [existingRefunds.reduce((sum, r) => sum + r.amount, 0)] *)
Definition totalRefunded (db : DB) (pid : Id) : Z :=
  foldl (λ sum kr, sum + r_amount kr.2) 0 (existingRefunds db pid).

Definition availableToRefund (db : DB) (pid : Id) (payment : Payment) : Z :=
  p_amount payment - totalRefunded db pid.

(** [data: { refundedTotal: { increment }, status }] of the order update. *)
Definition refund_order (by_amount : Z) (s : OrderStatus.t) (o : Order) : Order :=
  {| orderNumber := orderNumber o; o_status := s; total := total o;
     o_currency := o_currency o; refundedTotal := refundedTotal o + by_amount |}.

(** The writes after a successful [createRefund], in the order of the
    source.  [payment.order] is the order read with the payment; reading
    [total] of a missing one raises a [TypeError] before the order update. *)
Definition record_refund (db : DB) (env : Env) (body : CreateRefundRequest)
    (pid : Id) (payment : Payment) (amt total_before : Z)
    (refundResult : Shift4Adapter.CreateRefundResponse) : Response * DB :=
  let ok := match Shift4Adapter.rr_status refundResult with
            | Shift4Adapter.r_succeeded => true
            | Shift4Adapter.r_pending => false
            end in
  let row := {| r_orderId := p_orderId payment;
                r_paymentId := pid;
                shift4RefundId := Some (Shift4Adapter.refundId refundResult);
                r_amount := amt;
                r_currency := p_currency payment;
                r_status := if ok then RefundStatus.SUCCEEDED else RefundStatus.PENDING;
                r_reason := reason body;
                r_idempotencyKey := generateIdempotencyKey (Some "ref") (nanoid env);
                r_processedAt := if ok then Some (now env) else None;
                r_failureMessage := None |} in
  let '(rid, refunds1) := create (refunds db) row in
  let db1 := set_refunds refunds1 db in
  let newTotalRefunded := total_before + amt in
  let db2 := set_payments
               (alter (set_payment_status
                         (if bool_decide (newTotalRefunded >= p_amount payment)
                          then PaymentStatus.REFUNDED
                          else PaymentStatus.PARTIALLY_REFUNDED)) pid (payments db1)) db1 in
  match orders db !! p_orderId payment with
  | None =>
      (errorResponse (PlainErr "Cannot read properties of null (reading 'total')") None, db2)
  | Some order =>
      let db3 := set_orders
                   (alter (refund_order amt
                             (if bool_decide (newTotalRefunded >= total order)
                              then OrderStatus.REFUNDED
                              else OrderStatus.PARTIALLY_REFUNDED))
                          (p_orderId payment) (orders db2)) db2 in
      ({| status := 200; body := JsonRefund rid row |}, db3)
  end.

(** [POST /api/v1/refunds].  [gateway] is what Shift4 answers to the
    [createRefund] call, should the handler make it.  The request body is
    taken as parsed, and the store as answering each query. *)
Definition POST (db : DB) (env : Env) (body : CreateRefundRequest)
    (gateway : Shift4Adapter.Http Shift4Adapter.RefundData) : Outcome :=
  match payments db !! paymentId body with
  | None =>
      {| resp := errorResponse (PlainErr "Payment not found") (Some 404);
         db' := db; calls := [] |}
  | Some payment =>
      if decide (p_status payment = PaymentStatus.REFUNDED)
      then {| resp := errorResponse (PlainErr "Payment already refunded") (Some 400);
              db' := db; calls := [] |}
      else
        let amt := refundAmount body payment in
        let total_before := totalRefunded db (paymentId body) in
        let available := p_amount payment - total_before in
        if bool_decide (amt > available)
        then {| resp := errorResponse
                          (PlainErr ("Cannot refund more than " +:+ pretty available +:+ " cents"))
                          (Some 400);
                db' := db; calls := [] |}
        else if bool_decide (methodType payment = MethodType.CARD_ONLINE)
                || bool_decide (methodType payment = MethodType.SAVED_CARD)
        then
          match Shift4Adapter.createRefund gateway
                  {| Shift4Adapter.rf_chargeId := shift4ChargeId payment;
                     Shift4Adapter.rf_amount := amt;
                     Shift4Adapter.rf_reason := reason body |} with
          | (sent, Threw e) =>
              {| resp := errorResponse e None; db' := db; calls := sent |}
          | (sent, Returned refundResult) =>
              let '(r, d) := record_refund db env body (paymentId body) payment
                                           amt total_before refundResult in
              {| resp := r; db' := d; calls := sent |}
          end
        else {| resp := errorResponse (PlainErr "Terminal refunds not yet implemented") (Some 501);
                db' := db; calls := [] |}
  end.

(** A sequence of refund requests, each with its environment and the
    gateway's answer, served one after the other: each request runs to its
    end before the next starts, and nothing else writes to the store in
    between. *)
Record Call := {
  c_env : Env;
  c_body : CreateRefundRequest;
  c_gateway : Shift4Adapter.Http Shift4Adapter.RefundData
}.

Definition serve (db : DB) (c : Call) : DB :=
  db' (POST db (c_env c) (c_body c) (c_gateway c)).

Definition serve_all (db : DB) (cs : list Call) : DB := foldl serve db cs.

(** The ledger invariant: for every payment, the refunds recorded as
    SUCCEEDED add up to at most the payment's amount. *)
Definition ledger_ok (db : DB) : Prop :=
  ∀ pid payment, payments db !! pid = Some payment →
                 (totalRefunded db pid ≤ p_amount payment)%Z.

End RefundsRoute.

(** ** app/api/v1/checkout/online/confirm/route.ts *)

Module ConfirmRoute.
Import Js Errors Db Api.

Record ConfirmRequest := {
  orderId : Id;
  token : option string;
  customerId : option string;
  saveMethod : option bool
}.

Record Outcome := {
  resp : Response;
  db' : DB;
  calls : list Shift4Adapter.HttpRequest
}.

Definition set_order_status (s : OrderStatus.t) (o : Order) : Order :=
  {| orderNumber := orderNumber o; o_status := s; total := total o;
     o_currency := o_currency o; refundedTotal := refundedTotal o |}.

(** [POST /api/v1/checkout/online/confirm].  The key drawn by
    [generateIdempotencyKey('pay')] is written to the payment row; it is
    not part of the [createCharge] request and no table is searched for it.
    The request body is taken as parsed, the adapter as configured
    ([createShift4Adapter] finds its keys) and the store as answering. *)
Definition POST (db : DB) (env : Env) (body : ConfirmRequest)
    (gateway : Shift4Adapter.Http Shift4Adapter.ChargeData) : Outcome :=
  match orders db !! orderId body with
  | None =>
      {| resp := errorResponse (PlainErr "Order not found") (Some 404);
         db' := db; calls := [] |}
  | Some order =>
      if negb (bool_decide (o_status order = OrderStatus.DRAFT))
         && negb (bool_decide (o_status order = OrderStatus.PENDING_PAYMENT))
      then {| resp := errorResponse (PlainErr "Order cannot be paid") (Some 400);
              db' := db; calls := [] |}
      else
        let idempotencyKey := generateIdempotencyKey (Some "pay") (nanoid env) in
        match Shift4Adapter.createCharge gateway
                {| Shift4Adapter.cc_amount := total order;
                   Shift4Adapter.cc_currency := o_currency order;
                   Shift4Adapter.cc_token := token body;
                   Shift4Adapter.cc_customerId := customerId body;
                   Shift4Adapter.cc_description := "Payment for " +:+ orderNumber order;
                   Shift4Adapter.cc_capture := Some true |} with
        | (sent, Threw e) =>
            {| resp := errorResponse e None; db' := db; calls := sent |}
        | (sent, Returned chargeResult) =>
            let ok := match Shift4Adapter.cr_status chargeResult with
                      | Shift4Adapter.succeeded => true
                      | _ => false
                      end in
            let row := {| p_orderId := orderId body;
                          p_customerId := customerId body;
                          shift4ChargeId := Some (Shift4Adapter.chargeId chargeResult);
                          p_amount := Shift4Adapter.cr_amount chargeResult;
                          p_currency := Shift4Adapter.cr_currency chargeResult;
                          p_status := if ok then PaymentStatus.CAPTURED
                                      else PaymentStatus.FAILED;
                          methodType := MethodType.CARD_ONLINE;
                          p_idempotencyKey := idempotencyKey;
                          capturedAt := if Shift4Adapter.cr_captured chargeResult
                                        then Some (now env) else None;
                          failureCode := Shift4Adapter.cr_failureCode chargeResult;
                          p_failureMessage := Shift4Adapter.cr_failureMessage chargeResult |} in
            let '(pid, payments1) := create (payments db) row in
            let db1 := set_payments payments1 db in
            let db2 := set_orders
                         (alter (set_order_status
                                   (if ok then OrderStatus.PAID
                                    else OrderStatus.PENDING_PAYMENT))
                                (orderId body) (orders db1)) db1 in
            {| resp := {| status := 200; body := JsonPayment pid (orderId body) row |};
               db' := db2; calls := sent |}
        end
  end.

End ConfirmRoute.

(** ** app/api/v1/webhooks/shift4/route.ts *)

Module WebhookRoute.
Import Js Errors Db Api.

(** The arguments of one call of [processWebhookEvent]. *)
Record Task := {
  webhookEventId : Id;
  t_eventId : string;
  t_eventType : string
}.

(** What the receiver does with one delivery: the response, the store it
    leaves, and the processing run it started without awaiting it. *)
Record Delivery := {
  resp : Response;
  db' : DB;
  spawned : option Task
}.

(** [data.data?.id || data.id] *)
Definition data_id (data : Payload) : option string :=
  or_else truthy_string (pl_data data ≫= pd_id) (pl_id data).

(** *** Awaited calls of the store

    A processing run awaits the store at each [await prisma...], and the
    store can reject any of these calls (a lost connection, a timeout).  A
    [Script] says what the store does to the calls of one run, taken in the
    order in which the run makes them: [None] answers the call, [Some e]
    rejects it with [e]; the calls beyond the script are answered.  A
    computation of a run is given what is left of the script and the store;
    it gives back what it leaves of both, and how it ends. *)
Definition Script := list (option JsError).

Definition Run (A : Type) : Type := Script → DB → Script * DB * Completion JsError A.

#[global] Instance run_ret : MRet Run :=
  λ A a script db, (script, db, Returned a).

#[global] Instance run_bind : MBind Run :=
  λ A B f m script db,
    match m script db with
    | (script1, db1, Returned a) => f a script1 db1
    | (script1, db1, Threw e) => (script1, db1, Threw e)
    end.

Definition throw {A} (e : JsError) : Run A :=
  λ script db, (script, db, Threw e).

(** [try { body } catch (error) { handler }] *)
Definition try_catch {A} (body : Run A) (handler : JsError → Run A) : Run A :=
  λ script db,
    match body script db with
    | (script1, db1, Threw e) => handler e script1 db1
    | settled => settled
    end.

(** [await prisma.<table>.<call>(...)].  [call] is the call as the store
    answers it: the store it leaves and its result, or the error of the
    call itself (a row that is not there, a violated constraint), which
    leaves the store as it is. *)
Definition await {A} (call : DB → Completion JsError (DB * A)) : Run A :=
  λ script db,
    match script with
    | Some e :: script1 => (script1, db, Threw e)
    | _ =>
        match call db with
        | Returned (db1, a) => (tail script, db1, Returned a)
        | Threw e => (tail script, db, Threw e)
        end
    end.

(** A call that only writes, and one that only reads. *)
Definition writes (f : DB → DB) : DB → Completion JsError (DB * unit) :=
  λ db, Returned (f db, ()).

Definition reads {A} (f : DB → A) : DB → Completion JsError (DB * A) :=
  λ db, Returned (db, f db).

(** The store a computation leaves when every call is answered, and the
    store it leaves or the error it throws. *)
Definition written {A} (m : Run A) (db : DB) : DB := (m [] db).1.2.

Definition answered {A} (m : Run A) (db : DB) : Completion JsError DB :=
  match m [] db with
  | (_, db1, Returned _) => Returned db1
  | (_, _, Threw e) => Threw e
  end.

(** *** Event handlers *)

Definition handleChargeSucceeded (data : Payload) : Run unit :=
  let chargeId := data_id data in
  await (writes (λ db,
    set_payments (updateMany (λ p, where_eq chargeId (shift4ChargeId p))
                             (set_payment_status PaymentStatus.CAPTURED) (payments db)) db)).

Definition handleChargeFailed (data : Payload) : Run unit :=
  let chargeId := data_id data in
  await (writes (λ db,
    set_payments (updateMany (λ p, where_eq chargeId (shift4ChargeId p))
                             (set_payment_status PaymentStatus.FAILED) (payments db)) db)).

Definition handleChargeCaptured (data : Payload) (t : Time) : Run unit :=
  let chargeId := data_id data in
  await (writes (λ db,
    set_payments (updateMany (λ p, where_eq chargeId (shift4ChargeId p))
                             (set_payment_captured t) (payments db)) db)).

Definition refund_succeeded (t : Time) (r : Refund) : Refund :=
  {| r_orderId := r_orderId r; r_paymentId := r_paymentId r;
     shift4RefundId := shift4RefundId r; r_amount := r_amount r;
     r_currency := r_currency r; r_status := RefundStatus.SUCCEEDED;
     r_reason := r_reason r; r_idempotencyKey := r_idempotencyKey r;
     r_processedAt := Some t; r_failureMessage := r_failureMessage r |}.

(** An [undefined] in [data] leaves the column as it is. *)
Definition refund_failed (failureMessage : option string) (r : Refund) : Refund :=
  {| r_orderId := r_orderId r; r_paymentId := r_paymentId r;
     shift4RefundId := shift4RefundId r; r_amount := r_amount r;
     r_currency := r_currency r; r_status := RefundStatus.FAILED;
     r_reason := r_reason r; r_idempotencyKey := r_idempotencyKey r;
     r_processedAt := r_processedAt r;
     r_failureMessage := match failureMessage with
                         | Some m => Some m
                         | None => r_failureMessage r
                         end |}.

(** Two calls: the payments of the charge, then the refund of the event
    when it names one. *)
Definition handleChargeRefunded (data : Payload) (t : Time) : Run unit :=
  let chargeId := data_id data in
  let refundId := pl_data data ≫= pd_refund0_id in
  _ ← await (writes (λ db,
        set_payments (updateMany (λ p, where_eq chargeId (shift4ChargeId p))
                        (set_payment_status PaymentStatus.REFUNDED) (payments db)) db));
  if is_truthy truthy_string refundId
  then await (writes (λ db,
         set_refunds (updateMany (λ r, where_eq refundId (shift4RefundId r))
                                 (refund_succeeded t) (refunds db)) db))
  else mret ().

Definition handleRefundSucceeded (data : Payload) (t : Time) : Run unit :=
  let refundId := data_id data in
  await (writes (λ db,
    set_refunds (updateMany (λ r, where_eq refundId (shift4RefundId r))
                            (refund_succeeded t) (refunds db)) db)).

Definition handleRefundFailed (data : Payload) : Run unit :=
  let refundId := data_id data in
  await (writes (λ db,
    set_refunds (updateMany (λ r, where_eq refundId (shift4RefundId r))
                            (refund_failed (pl_data data ≫= pd_failureMessage))
                            (refunds db)) db)).

(** What [prisma.dispute.create] raises: the order of the row must exist
    (the foreign key [orderId] of the ER diagram) and no other dispute may
    bear its [shift4DisputeId] (the unique key of the ER diagram). *)
Definition prisma_foreign_key : string :=
  "Foreign key constraint failed on the field: `orderId`".
Definition prisma_unique_dispute : string :=
  "Unique constraint failed on the fields: (`shift4DisputeId`)".

(** Whether a dispute bears the id already.  An [undefined] id leaves the
    column empty, and empty columns do not collide. *)
Definition dispute_id_taken (id : option string) (db : DB) : bool :=
  match id with
  | None => false
  | Some i =>
      bool_decide (is_Some (findFirst (λ d, bool_decide (shift4DisputeId d = Some i))
                                      (disputes db)))
  end.

(** [prisma.dispute.create({ data })] *)
Definition dispute_create (row : Dispute) : DB → Completion JsError (DB * unit) :=
  λ db,
    match orders db !! d_orderId row with
    | None => Threw (PlainErr prisma_foreign_key)
    | Some _ =>
        if dispute_id_taken (shift4DisputeId row) db
        then Threw (PlainErr prisma_unique_dispute)
        else Returned (set_disputes (create (disputes db) row).2 db, ())
    end.

Definition handleDisputeCreated (data : Payload) : Run unit :=
  let disputeId := data_id data in
  let chargeId := pl_data data ≫= pd_chargeId in
  payment ← await (reads (λ db,
              findFirst (λ p, where_eq chargeId (shift4ChargeId p)) (payments db)));
  match payment with
  | None => mret ()
  | Some (_, payment) =>
      await (dispute_create
        {| d_orderId := p_orderId payment;
           shift4DisputeId := disputeId;
           d_shift4ChargeId := chargeId;
           d_amount := default (p_amount payment)
                         (or_else truthy_Z (pl_data data ≫= pd_amount) None);
           d_currency := default (p_currency payment)
                           (or_else truthy_string (pl_data data ≫= pd_currency) None);
           d_status := DisputeStatus.NEEDS_RESPONSE;
           d_reason := default "unknown"
                         (or_else truthy_string (pl_data data ≫= pd_reason) None);
           evidenceDeadline :=
             match pl_data data ≫= pd_evidenceDeadline with
             | Some d => if truthy_Z d then Some (d * 1000) else None
             | None => None
             end;
           resolvedAt := None;
           resolution := None |})
  end.

Definition dispute_closed (won : bool) (t : Time) (outcome : option string)
    (d : Dispute) : Dispute :=
  {| d_orderId := d_orderId d; shift4DisputeId := shift4DisputeId d;
     d_shift4ChargeId := d_shift4ChargeId d; d_amount := d_amount d;
     d_currency := d_currency d;
     d_status := if won then DisputeStatus.WON else DisputeStatus.LOST;
     d_reason := d_reason d; evidenceDeadline := evidenceDeadline d;
     resolvedAt := Some t;
     resolution := match outcome with Some o => Some o | None => resolution d end |}.

Definition handleDisputeClosed (data : Payload) (t : Time) : Run unit :=
  let disputeId := data_id data in
  let status := pl_data data ≫= pd_status in
  await (writes (λ db,
    set_disputes (updateMany (λ d, where_eq disputeId (shift4DisputeId d))
                             (dispute_closed (bool_decide (status = Some "won")) t
                                             (pl_data data ≫= pd_outcome))
                             (disputes db)) db)).

Definition set_payout_status (s : PayoutStatus.t) (p : Payout) : Payout :=
  {| shift4PayoutId := shift4PayoutId p; po_amount := po_amount p;
     po_currency := po_currency p; po_status := s;
     arrivalDate := arrivalDate p; po_description := po_description p |}.

(** [prisma.payout.upsert({ where: { shift4PayoutId }, create, update })] *)
Definition payout_upsert (payoutId : string) (data : Payload)
    : DB → Completion JsError (DB * unit) :=
  λ db,
    let status := if bool_decide (pl_type data = Some "payout.paid")
                  then PayoutStatus.PAID else PayoutStatus.PENDING in
    match findFirst (λ p, bool_decide (shift4PayoutId p = payoutId)) (payouts db) with
    | Some (k, _) =>
        Returned (set_payouts (alter (set_payout_status status) k (payouts db)) db, ())
    | None =>
        let row := {| shift4PayoutId := payoutId;
                      po_amount := default 0
                                     (or_else truthy_Z (pl_data data ≫= pd_amount) None);
                      po_currency := default "usd"
                                       (or_else truthy_string (pl_data data ≫= pd_currency)
                                                None);
                      po_status := status;
                      arrivalDate :=
                        match pl_data data ≫= pd_arrivalDate with
                        | Some d => if truthy_Z d then Some (d * 1000) else None
                        | None => None
                        end;
                      po_description := pl_data data ≫= pd_description |} in
        Returned (set_payouts (create (payouts db) row).2 db, ())
    end.

(** The [where] of an upsert needs its unique column: for a delivery that
    carries no payout id the client raises before any call leaves for the
    store. *)
Definition handlePayout (data : Payload) : Run unit :=
  match data_id data with
  | None => throw (PlainErr prisma_validation)
  | Some payoutId => await (payout_upsert payoutId data)
  end.

(** The [switch (eventType)] of [processWebhookEvent]. *)
Definition handler (eventType : string) (data : Payload) (t : Time) : Run unit :=
  if decide (eventType = "charge.succeeded") then handleChargeSucceeded data
  else if decide (eventType = "charge.failed") then handleChargeFailed data
  else if decide (eventType = "charge.captured") then handleChargeCaptured data t
  else if decide (eventType = "charge.refunded") then handleChargeRefunded data t
  else if decide (eventType = "charge.dispute.created") then handleDisputeCreated data
  else if decide (eventType = "charge.dispute.closed") then handleDisputeClosed data t
  else if decide (eventType = "refund.succeeded") then handleRefundSucceeded data t
  else if decide (eventType = "refund.failed") then handleRefundFailed data
  else if decide (eventType = "payout.created") then handlePayout data
  else if decide (eventType = "payout.paid") then handlePayout data
  else mret ().

(** The [switch] with every call of the store answered: the store the
    handler leaves, or the error it throws. *)
Definition dispatch (eventType : string) (data : Payload) (t : Time) (db : DB)
    : Completion JsError DB :=
  answered (handler eventType data t) db.

Definition mark_processed (t : Time) (w : WebhookEvent) : WebhookEvent :=
  {| eventId := eventId w; eventType := eventType w; payload := payload w;
     processed := true; receivedAt := receivedAt w; w_processedAt := Some t;
     processingError := processingError w; retryCount := retryCount w |}.

Definition mark_error (msg : string) (w : WebhookEvent) : WebhookEvent :=
  {| eventId := eventId w; eventType := eventType w; payload := payload w;
     processed := processed w; receivedAt := receivedAt w;
     w_processedAt := w_processedAt w;
     processingError := Some msg; retryCount := retryCount w |}.

Definition increment_retry (w : WebhookEvent) : WebhookEvent :=
  {| eventId := eventId w; eventType := eventType w; payload := payload w;
     processed := processed w; receivedAt := receivedAt w;
     w_processedAt := w_processedAt w;
     processingError := processingError w; retryCount := retryCount w + 1 |}.

(** [prisma.webhookEvent.update({ where: { id }, data })]: raises when the
    row is gone. *)
Definition webhookEvent_update (id : Id) (f : WebhookEvent → WebhookEvent)
    : DB → Completion JsError (DB * unit) :=
  λ db,
    match update id f (webhookEvents db) with
    | Some events => Returned (set_webhookEvents events db, ())
    | None => Threw (PlainErr prisma_not_found)
    end.

(** [processWebhookEvent].  [fault] is the script of the store for this
    run; [None] when the store answers every call.  The [catch] writes the
    message to the event row and throws the error again; when its own
    update is rejected, the run ends with the error of the update. *)
Definition processWebhookEvent (db : DB) (t : Time) (fault : option Script)
    (task : Task) : DB * Completion JsError unit :=
  let id := webhookEventId task in
  let run : Run unit :=
    try_catch
      (webhookEvent ← await (reads (λ db, webhookEvents db !! id));
       match webhookEvent with
       | None => throw (PlainErr "Webhook event not found")
       | Some webhookEvent =>
           _ ← handler (t_eventType task) (payload webhookEvent) t;
           await (webhookEvent_update id (mark_processed t))
       end)
      (λ error,
         _ ← await (webhookEvent_update id (mark_error (message_or_unknown error)));
         throw error) in
  let '(_, db1, res) := run (default [] fault) db in
  (db1, res).

Definition OK : Response := {| status := 200; body := Text "OK" |}.

(** [POST /api/v1/webhooks/shift4].  [request] is what [req.json()] gives.
    The lookup and the upsert are taken to be answered by the store; were
    one of them to raise, the [catch] of the receiver would answer with
    [errorResponse(error)]. *)
Definition POST (db : DB) (t : Time) (request : Completion JsError Payload) : Delivery :=
  match request with
  | Threw e => {| resp := errorResponse e None; db' := db; spawned := None |}
  | Returned body =>
      match or_else truthy_string (pl_id body) (pl_eventId body), pl_type body with
      | Some eid, Some etype =>
          if negb (truthy_string eid) || negb (truthy_string etype)
          then {| resp := errorResponse (PlainErr "Invalid webhook payload") (Some 400);
                  db' := db; spawned := None |}
          else
            match findFirst (λ w, bool_decide (eventId w = eid)) (webhookEvents db) with
            | Some (k, existing) =>
                if processed existing
                then {| resp := OK; db' := db; spawned := None |}
                else {| resp := OK;
                        db' := set_webhookEvents
                                 (alter increment_retry k (webhookEvents db)) db;
                        spawned := Some {| webhookEventId := k; t_eventId := eid;
                                           t_eventType := etype |} |}
            | None =>
                let row := {| eventId := eid; eventType := etype; payload := body;
                              processed := false; receivedAt := t;
                              w_processedAt := None; processingError := None;
                              retryCount := 0 |} in
                let '(k, events) := create (webhookEvents db) row in
                {| resp := OK; db' := set_webhookEvents events db;
                   spawned := Some {| webhookEventId := k; t_eventId := eid;
                                      t_eventType := etype |} |}
            end
      | _, _ =>
          {| resp := errorResponse (PlainErr "Invalid webhook payload") (Some 400);
             db' := db; spawned := None |}
      end
  end.

(** *** The receiver and its background runs as a machine

    A delivery is served at once; the run it starts is queued and executes
    later, as one step.  A run that throws reaches only the [.catch] of the
    receiver, which logs it. *)
Record Sys := {
  s_db : DB;
  s_queue : list Task;
  s_acks : list Response;
  s_logged : list JsError
}.

Inductive Action :=
| Deliver (t : Time) (request : Completion JsError Payload)
| Process (t : Time) (fault : option Script).

Definition step (s : Sys) (a : Action) : Sys :=
  match a with
  | Deliver t request =>
      let d := POST (s_db s) t request in
      {| s_db := db' d;
         s_queue := s_queue s ++ option_list (spawned d);
         s_acks := s_acks s ++ [resp d];
         s_logged := s_logged s |}
  | Process t fault =>
      match s_queue s with
      | [] => s
      | task :: rest =>
          let '(db1, res) := processWebhookEvent (s_db s) t fault task in
          {| s_db := db1;
             s_queue := rest;
             s_acks := s_acks s;
             s_logged := match res with
                         | Threw e => s_logged s ++ [e]
                         | Returned _ => s_logged s
                         end |}
      end
  end.

Definition run (s : Sys) (acts : list Action) : Sys := foldl step s acts.

Definition boot (db : DB) : Sys :=
  {| s_db := db; s_queue := []; s_acks := []; s_logged := [] |}.

End WebhookRoute.

(** ** Observations and scenarios used by the statements below *)

Module Observe.
Import Js Errors SkyTabAdapter.

(** The number of status queries in a trace of the poll loop. *)
Definition queries (evs : list PollEvent) : nat :=
  List.length (List.filter (λ ev, match ev with GetStatus _ => true | Sleep _ => false end) evs).

(** [q] rounds of the loop body: sleep [ms], then query [tid]. *)
Fixpoint rounds (ms : nat) (tid : string) (q : nat) : list PollEvent :=
  match q with
  | O => []
  | S q' => Sleep ms :: GetStatus tid :: rounds ms tid q'
  end.

(** The status the [k]-th query observes. *)
Definition observed (device : nat → Http DeviceData) (tid : string) (k : nat) : Status :=
  ts_status (getStatus (device k) tid).

(** A device that reports pending to nine queries and declined from the
    tenth on. *)
Definition reading (status : string) : DeviceData :=
  {| d_status := status; d_amount := None; d_tip_amount := None;
     d_total_amount := None; d_card_token := None; d_card_brand := None;
     d_card_last4 := None; d_auth_code := None; d_entry_mode := None;
     d_response_code := Some "05"; d_response_message := Some "Do not honor" |}.

Definition nine_pending_then_declined (k : nat) : Http DeviceData :=
  Returned (reading (if (k <? 9)%nat then "pending" else "declined")).

End Observe.

Module Ledger.
Import Db Api RefundsRoute.

(** What a refund row adds to the SUCCEEDED total of payment [pid]. *)
Definition credit (pid : Id) (r : Refund) : Z :=
  if bool_decide (r_paymentId r = pid) && bool_decide (r_status r = RefundStatus.SUCCEEDED)
  then r_amount r else 0.

(** The refund row [record_refund] writes. *)
Definition refund_row (env : Env) (body : CreateRefundRequest) (pid : Id)
    (payment : Payment) (amt : Z) (ok : bool)
    (refundResult : Shift4Adapter.CreateRefundResponse) : Refund :=
  {| r_orderId := p_orderId payment;
     r_paymentId := pid;
     shift4RefundId := Some (Shift4Adapter.refundId refundResult);
     r_amount := amt;
     r_currency := p_currency payment;
     r_status := if ok then RefundStatus.SUCCEEDED else RefundStatus.PENDING;
     r_reason := reason body;
     r_idempotencyKey := generateIdempotencyKey (Some "ref") (nanoid env);
     r_processedAt := if ok then Some (now env) else None;
     r_failureMessage := None |}.

Definition gateway_ok (refundResult : Shift4Adapter.CreateRefundResponse) : bool :=
  match Shift4Adapter.rr_status refundResult with
  | Shift4Adapter.r_succeeded => true
  | Shift4Adapter.r_pending => false
  end.


End Ledger.

(** A store with one paid order of 5000 and its captured card payment, as
    the seed script creates them, and the answers of a gateway that accepts
    every refund. *)
Module Scenario.
Import Js Errors Db Api.

Definition order1 : Order :=
  {| orderNumber := "ORD-2024-0001"; o_status := OrderStatus.PAID; total := 5000;
     o_currency := "usd"; refundedTotal := 0 |}.

Definition payment1 : Payment :=
  {| p_orderId := 0%nat; p_customerId := None; shift4ChargeId := Some "ch_1";
     p_amount := 5000; p_currency := "usd"; p_status := PaymentStatus.CAPTURED;
     methodType := MethodType.CARD_ONLINE; p_idempotencyKey := "pay_k1";
     capturedAt := Some 1000; failureCode := None; p_failureMessage := None |}.

Definition db1 : DB :=
  {| orders := {[ 0%nat := order1 ]}; payments := {[ 0%nat := payment1 ]};
     refunds := ∅; disputes := ∅; payouts := ∅; webhookEvents := ∅ |}.

Definition env1 : Env := {| now := 2000; nanoid := "n1" |}.
Definition env2 : Env := {| now := 3000; nanoid := "n2" |}.
Definition env3 : Env := {| now := 4000; nanoid := "n3" |}.

Definition refund_of (amt : option Z) : RefundsRoute.CreateRefundRequest :=
  {| RefundsRoute.paymentId := 0%nat; RefundsRoute.amount := amt;
     RefundsRoute.reason := Some "requested_by_customer" |}.

Definition successful (id : string) (amt : Z) : Shift4Adapter.RefundData :=
  {| Shift4Adapter.rd_id := id; Shift4Adapter.rd_chargeId := "ch_1";
     Shift4Adapter.rd_amount := amt; Shift4Adapter.rd_status := "successful" |}.

Definition call (env : Env) (amt : option Z) (id : string) : RefundsRoute.Call :=
  {| RefundsRoute.c_env := env; RefundsRoute.c_body := refund_of amt;
     RefundsRoute.c_gateway := Returned (successful id (default 5000 amt)) |}.

(** The store after a successful refund of 2000. *)
Definition db1_after_2000 : DB :=
  RefundsRoute.serve db1 (call env1 (Some 2000) "re_1").

End Scenario.

(** An order waiting for payment, a confirm request for it, and two answers
    of the gateway to the charge: one still pending, one successful. *)
Module ConfirmScenario.
Import Js Errors Db Api.

Definition order_draft : Order :=
  {| orderNumber := "ORD-2024-0007"; o_status := OrderStatus.DRAFT; total := 5000;
     o_currency := "usd"; refundedTotal := 0 |}.

Definition db_draft : DB :=
  {| orders := {[ 0%nat := order_draft ]}; payments := ∅;
     refunds := ∅; disputes := ∅; payouts := ∅; webhookEvents := ∅ |}.

Definition confirm : ConfirmRoute.ConfirmRequest :=
  {| ConfirmRoute.orderId := 0%nat; ConfirmRoute.token := Some "tok_visa";
     ConfirmRoute.customerId := None; ConfirmRoute.saveMethod := None |}.

Definition charge (id status : string) : Shift4Adapter.ChargeData :=
  {| Shift4Adapter.ch_id := id; Shift4Adapter.ch_amount := 5000;
     Shift4Adapter.ch_currency := "usd"; Shift4Adapter.ch_status := status;
     Shift4Adapter.ch_captured := bool_decide (status = "successful");
     Shift4Adapter.ch_failureCode := None; Shift4Adapter.ch_failureMessage := None |}.

(** The same request served twice; each request has its own clock reading
    and its own draw of [nanoid]. *)
Definition env : Env := {| now := 100; nanoid := "V1StGXR8_Z5jdHi6B-myTabc" |}.
Definition env_again : Env := {| now := 160; nanoid := "q7Lk2mXw9RtY-4pZs_0aBcde" |}.

Definition first : ConfirmRoute.Outcome :=
  ConfirmRoute.POST db_draft env confirm (Returned (charge "ch_1" "pending")).

Definition second : ConfirmRoute.Outcome :=
  ConfirmRoute.POST (ConfirmRoute.db' first) env_again confirm
                    (Returned (charge "ch_2" "successful")).

End ConfirmScenario.

(** Observations on the webhook machine, and deliveries for the store of
    [Scenario]: a dispute opened on the charge, the capture of the charge,
    and the two outcomes of the charge itself. *)
Module WebhookScenario.
Import Js Errors Db Api WebhookRoute.

(** A delivery the receiver accepts: it carries an event id and a type. *)
Definition carries (body : Payload) (eid etype : string) : Prop :=
  or_else truthy_string (pl_id body) (pl_eventId body) = Some eid
  ∧ truthy_string eid = true
  ∧ pl_type body = Some etype
  ∧ truthy_string etype = true.




(** The status a charge event writes to the payments of its charge. *)
Definition target (eventType : string) : option PaymentStatus.t :=
  if decide (eventType = "charge.succeeded") then Some PaymentStatus.CAPTURED
  else if decide (eventType = "charge.failed") then Some PaymentStatus.FAILED
  else if decide (eventType = "charge.captured") then Some PaymentStatus.CAPTURED
  else if decide (eventType = "charge.refunded") then Some PaymentStatus.REFUNDED
  else None.

(** The tables the event handlers write. *)
Definition business (db : DB)
    : gmap Id Order * gmap Id Payment * gmap Id Refund * gmap Id Dispute * gmap Id Payout :=
  (orders db, payments db, refunds db, disputes db, payouts db).

Definition event_data (id : string) (chargeId : option string) : PayloadData :=
  {| pd_id := Some id; pd_chargeId := chargeId; pd_refund0_id := None;
     pd_status := None; pd_amount := None; pd_currency := None; pd_reason := None;
     pd_failureMessage := None; pd_evidenceDeadline := None; pd_outcome := None;
     pd_arrivalDate := None; pd_description := None |}.

Definition event (eid etype : string) (data : PayloadData) : Payload :=
  {| pl_id := Some eid; pl_eventId := None; pl_type := Some etype; pl_data := Some data |}.

Definition dispute_created : Payload :=
  event "evt_d1" "charge.dispute.created" (event_data "dp_1" (Some "ch_1")).

Definition charge_succeeded : Payload :=
  event "evt_s2" "charge.succeeded" (event_data "ch_1" None).

Definition charge_failed : Payload :=
  event "evt_f1" "charge.failed" (event_data "ch_1" None).





(** The failure of a charge, issued before its success and processed
    after it. *)
Definition late_failure : Sys :=
  run (boot Scenario.db1)
      [Deliver 20 (Returned charge_succeeded);
       Process 21 None;
       Deliver 22 (Returned charge_failed);
       Process 23 None].

(** A failure notification for a captured payment. *)
Definition failure_after_capture : Sys :=
  run (boot Scenario.db1)
      [Deliver 30 (Returned charge_failed);
       Process 31 None].

End WebhookScenario.

(** Further devices for the poll loop: one whose third status query fails
    on the wire, one that approves at the second query, and one that never
    leaves pending. *)
Module Devices.
Import Js Errors SkyTabAdapter.

Definition reset : JsError := AxiosErr (Some "ECONNRESET") "socket hang up".

Definition two_pending_then_reset (k : nat) : Http DeviceData :=
  if (k <? 2)%nat then Returned (Observe.reading "pending") else Threw reset.

Definition approval : DeviceData :=
  {| d_status := "approved"; d_amount := Some 5000; d_tip_amount := Some 500;
     d_total_amount := Some 5500; d_card_token := Some "tok_term_1";
     d_card_brand := Some "Visa"; d_card_last4 := Some "4242";
     d_auth_code := Some "AUTH123"; d_entry_mode := Some "EMV";
     d_response_code := Some "00"; d_response_message := Some "Approved" |}.

Definition processing_then_approved (k : nat) : Http DeviceData :=
  if (k <? 1)%nat then Returned (Observe.reading "processing") else Returned approval.

Definition always_pending (k : nat) : Http DeviceData :=
  Returned (Observe.reading "pending").

(** A device whose status is the string "constructor". *)
Definition always_constructor (k : nat) : Http DeviceData :=
  Returned (Observe.reading "constructor").

Definition sale : StartPaymentRequest :=
  {| sp_amount := 5000; sp_currency := "usd"; sp_orderId := "order-123" |}.

End Devices.

(** The event types of the [switch] in [processWebhookEvent], those among
    them whose handler only rewrites rows it selects, and further deliveries
    for the store of [Scenario]. *)
Module WebhookFacts.
Import Js Errors Db Api WebhookRoute.

Definition handled : list string :=
  ["charge.succeeded"; "charge.failed"; "charge.captured"; "charge.refunded";
   "charge.dispute.created"; "charge.dispute.closed";
   "refund.succeeded"; "refund.failed"; "payout.created"; "payout.paid"].

Definition rewriting : list string :=
  ["charge.succeeded"; "charge.failed"; "charge.captured"; "charge.refunded";
   "charge.dispute.closed"; "refund.succeeded"; "refund.failed"].

(** A delivery with a type but neither [id] nor [eventId]. *)
Definition anonymous : Payload :=
  {| pl_id := None; pl_eventId := Some ""; pl_type := Some "charge.failed";
     pl_data := None |}.

Definition customer_created : Payload :=
  WebhookScenario.event "evt_c1" "customer.created"
                        (WebhookScenario.event_data "cust_1" None).



End WebhookFacts.

(** ** payments/adapters/shift4-adapter.ts: the response interceptor *)

Module Shift4Interceptor.
Import Js Errors.

(** [error.response] of an [AxiosError], by what [handleError] reads of it:
    the HTTP status and, of the body, [error.code], [code], [error.message]
    and [message].  The [retry-after] header only feeds the [retryAfter]
    field, which [Errors.PaymentError] leaves out. *)
Record ErrorResponse := {
  er_status : Z;
  er_error_code : option string;
  er_code : option string;
  er_error_message : option string;
  er_message : option string
}.

Record AxiosError := {
  ax_message : option string;
  ax_response : option ErrorResponse
}.

(** [handleError] *)
Definition handleError (error : AxiosError) : PaymentError :=
  match ax_response error with
  | None =>
      NetworkError (default "Network error connecting to Shift4"
                            (or_else truthy_string (ax_message error) None))
                   (Some true)
  | Some r =>
      let status := er_status r in
      let errorCode := or_else truthy_string (er_error_code r) (er_code r) in
      let errorMessage :=
        default "Unknown Shift4 error"
                (or_else truthy_string (er_error_message r)
                         (or_else truthy_string (er_message r) None)) in
      if decide (status = 400) then InvalidRequestError errorMessage
      else if decide (status = 401)
      then AuthenticationError "Invalid Shift4 API credentials. Check your secret key."
      else if decide (status = 402) then CardError errorMessage
      else if decide (status = 429) then RateLimitError "Shift4 rate limit exceeded"
      else if decide (status = 500) then NetworkError "Shift4 API is temporarily unavailable" (Some true)
      else if decide (status = 502) then NetworkError "Shift4 API is temporarily unavailable" (Some true)
      else if decide (status = 503) then NetworkError "Shift4 API is temporarily unavailable" (Some true)
      else if decide (status = 504) then NetworkError "Shift4 API is temporarily unavailable" (Some true)
      else newPaymentError errorMessage
             (Some (default "SHIFT4_ERROR" (or_else truthy_string errorCode None)))
             (Some status) None
  end.

(** What a call through the adapter's axios instance gives when the HTTP
    exchange fails: the interceptor rejects with [handleError(error)]. *)
Definition rejected {A} (error : AxiosError) : Shift4Adapter.Http A :=
  Threw (PaymentErr (handleError error)).

(** The statuses [handleError] turns into a retryable error. *)
Definition retried : list Z := [429; 500; 502; 503; 504].

(** The statuses it reports as 503. *)
Definition unavailable : list Z := [500; 502; 503; 504].

(** A card declined with HTTP 402, as in the adapter's test. *)
Definition card_declined : AxiosError :=
  {| ax_message := Some "Request failed with status code 402";
     ax_response := Some {| er_status := 402; er_error_code := Some "card_declined";
                            er_code := None;
                            er_error_message := Some "Your card was declined";
                            er_message := None |} |}.

Definition bad_gateway : AxiosError :=
  {| ax_message := Some "Request failed with status code 502";
     ax_response := Some {| er_status := 502; er_error_code := None; er_code := None;
                            er_error_message := None; er_message := None |} |}.

End Shift4Interceptor.

(** Further requests for the stores of [Scenario] and [ConfirmScenario]. *)
Module MoreRequests.
Import Js Errors Db Api.

(** A confirm request whose token is the empty string and that names no
    customer. *)
Definition confirm_without_token : ConfirmRoute.ConfirmRequest :=
  {| ConfirmRoute.orderId := 0%nat; ConfirmRoute.token := Some "";
     ConfirmRoute.customerId := None; ConfirmRoute.saveMethod := None |}.

(** The store of [Scenario] with the payment taken at a terminal. *)
Definition terminal_payment : Payment :=
  {| p_orderId := 0%nat; p_customerId := None; shift4ChargeId := Some "tok_term_1";
     p_amount := 5000; p_currency := "usd"; p_status := PaymentStatus.CAPTURED;
     methodType := MethodType.CARD_TERMINAL; p_idempotencyKey := "term_k1";
     capturedAt := Some 1000; failureCode := None; p_failureMessage := None |}.

Definition db_terminal : DB :=
  {| orders := {[ 0%nat := Scenario.order1 ]}; payments := {[ 0%nat := terminal_payment ]};
     refunds := ∅; disputes := ∅; payouts := ∅; webhookEvents := ∅ |}.

(** A refund the gateway accepts but has not settled. *)
Definition unsettled (id : string) (amt : Z) : Shift4Adapter.RefundData :=
  {| Shift4Adapter.rd_id := id; Shift4Adapter.rd_chargeId := "ch_1";
     Shift4Adapter.rd_amount := amt; Shift4Adapter.rd_status := "pending" |}.

End MoreRequests.

(** What the [refund.succeeded] handler moves into the SUCCEEDED total of a
    payment: the amounts of its refund rows that are not SUCCEEDED yet and
    that the handler's [where] selects. *)
Module Settlement.
Import Js Errors Db Api RefundsRoute.

Definition awaiting (refundId : option string) (pid : Id) (r : Refund) : Z :=
  if bool_decide (r_paymentId r = pid)
     && negb (bool_decide (r_status r = RefundStatus.SUCCEEDED))
     && where_eq refundId (shift4RefundId r)
  then r_amount r else 0.

Definition awaited (db : DB) (refundId : option string) (pid : Id) : Z :=
  foldl (λ sum kr, sum + awaiting refundId pid kr.2) 0 (map_to_list (refunds db)).

Definition refund_succeeded_event (eid rid : string) : Payload :=
  WebhookScenario.event eid "refund.succeeded" (WebhookScenario.event_data rid None).

(** Two refunds of 3000 on the payment of 5000, both left pending by the
    gateway, and then reported settled by webhook. *)
Definition two_pending : DB :=
  serve_all Scenario.db1
    [{| c_env := Scenario.env1; c_body := Scenario.refund_of (Some 3000);
        c_gateway := Returned (MoreRequests.unsettled "re_1" 3000) |};
     {| c_env := Scenario.env2; c_body := Scenario.refund_of (Some 3000);
        c_gateway := Returned (MoreRequests.unsettled "re_2" 3000) |}].

Definition both_settled : DB :=
  WebhookRoute.written
    (WebhookRoute.handleRefundSucceeded (refund_succeeded_event "evt_r2" "re_2") 51)
    (WebhookRoute.written
       (WebhookRoute.handleRefundSucceeded (refund_succeeded_event "evt_r1" "re_1") 50)
       two_pending).

End Settlement.

(** ** payments/adapters/utg-adapter.ts *)

Module UTGAdapter.
Import Js Errors.

(** [Number.MAX_SAFE_INTEGER], 2^53 - 1: up to it in absolute value a
    number is exactly the integer it stands for. *)
Definition MAX_SAFE_INTEGER : Z := 9007199254740991.

Definition is_safe_integer (n : Z) : bool :=
  bool_decide (- MAX_SAFE_INTEGER ≤ n ≤ MAX_SAFE_INTEGER).

(** A number as the adapter computes one: an integer, [NaN] out of
    [parseInt], or, out of [parseInt] of digits that stand for more than a
    safe integer, the double nearest to them, whose value is not
    modelled. *)
Inductive Number := NaN | Int (n : Z) | Rounded.

(** The text [toString()] gives a number: the decimal digits of a safe
    integer (with its sign); beyond the safe integers the text follows the
    double (shortest digits that read back, exponent form from 1e21) and
    is not modelled. *)
Inductive NumberText := Digits (s : string) | OtherText.

(** A field of the gateway's answer that comes as a string or a number. *)
Inductive StringOrNumber := Text (s : string) | Num (n : Z).

Definition truthy_amount (a : StringOrNumber) : bool :=
  match a with
  | Text s => truthy_string s
  | Num n => truthy_Z n
  end.

Definition UTG_APPROVED_CODE : string := "00".
Definition UTG_TIMEOUT_CODE : string := "TO".
Definition UTG_CANCELLED_CODE : string := "CA".

(** *** [parseInt(s, 10)] on ASCII strings *)

Definition is_space (c : ascii) : bool :=
  let n := nat_of_ascii c in
  (n =? 32)%nat || ((9 <=? n)%nat && (n <=? 13)%nat).

Definition digit (c : ascii) : option Z :=
  let n := nat_of_ascii c in
  if (48 <=? n)%nat && (n <=? 57)%nat then Some (Z.of_nat (n - 48)) else None.

Fixpoint skip_space (s : string) : string :=
  match s with
  | String c r => if is_space c then skip_space r else s
  | EmptyString => EmptyString
  end.

(** The value of the longest prefix of digits; [acc] is the value of the
    digits read so far, [None] when none has been read. *)
Fixpoint digits (acc : option Z) (s : string) : option Z :=
  match s with
  | String c r =>
      match digit c with
      | Some d => digits (Some (10 * default 0 acc + d)) r
      | None => acc
      end
  | EmptyString => acc
  end.

Definition parseInt10 (s : string) : Number :=
  let s1 := skip_space s in
  let '(negative, s2) :=
    match s1 with
    | String c r =>
        if Ascii.eqb c "-" then (true, r)
        else if Ascii.eqb c "+" then (false, r)
        else (false, s1)
    | EmptyString => (false, s1)
    end in
  match digits None s2 with
  | None => NaN
  | Some n => if is_safe_integer n then Int (if negative then - n else n) else Rounded
  end.

(** [formatAmount]: [amount.toString()]. *)
Definition formatAmount (amount : Z) : NumberText :=
  if is_safe_integer amount then Digits (pretty amount) else OtherText.

(** [parseAmount]: [typeof amount === 'string' ? parseInt(amount, 10) :
    amount]; an [undefined] field comes back as it is. *)
Definition parseAmount (amount : option StringOrNumber) : option Number :=
  match amount with
  | Some (Text s) => Some (parseInt10 s)
  | Some (Num n) => Some (Int n)
  | None => None
  end.

(** [response.data] of the gateway. *)
Record UtgData := {
  ResponseCode : option string;
  ResponseMessage : option string;
  Amount : option StringOrNumber;
  TipAmount : option StringOrNumber;
  TotalAmount : option StringOrNumber;
  Token : option string;
  CardBrand : option string;
  Last4 : option string;
  AuthCode : option string;
  EntryMode : option string
}.

(** [emvData] is an opaque blob copied through and is left out. *)
Record PaymentResult := {
  transactionId : string;
  approved : bool;
  amount : option Number;
  tipAmount : option Number;
  totalAmount : option Number;
  token : option string;
  cardBrand : option string;
  cardLast4 : option string;
  authCode : option string;
  entryMode : option SkyTabAdapter.EntryMode;
  responseCode : option string;
  responseMessage : option string;
  error : option string;
  errorCode : option string
}.

(** [modeMap[mode?.toLowerCase()] || undefined], on an object literal as
    in the SkyTab adapter: a key of [Object.prototype] gives the inherited
    value. *)
Definition mapEntryMode (mode : option string) : option SkyTabAdapter.EntryMode :=
  match mode with
  | None => None
  | Some m =>
      let k := toLowerCase m in
      if decide (k = "chip") then Some SkyTabAdapter.chip
      else if decide (k = "emv") then Some SkyTabAdapter.chip
      else if decide (k = "swipe") then Some SkyTabAdapter.swipe
      else if decide (k = "contactless") then Some SkyTabAdapter.contactless
      else if decide (k = "nfc") then Some SkyTabAdapter.contactless
      else if decide (k = "manual") then Some SkyTabAdapter.keyed
      else if decide (k = "keyed") then Some SkyTabAdapter.keyed
      else if decide (k = "fallback") then Some SkyTabAdapter.fallback
      else if decide (k ∈ object_prototype_keys) then Some (SkyTabAdapter.inherited_mode k)
      else None
  end.

Definition mapStatus (responseCode : option string) : SkyTabAdapter.Status :=
  if decide (responseCode = Some UTG_APPROVED_CODE) then SkyTabAdapter.approved
  else if decide (responseCode = Some UTG_CANCELLED_CODE) then SkyTabAdapter.cancelled
  else if decide (responseCode = Some UTG_TIMEOUT_CODE) then SkyTabAdapter.timeout
  else SkyTabAdapter.declined.

Definition parsePaymentResponse (data : UtgData) (transactionId : string) : PaymentResult :=
  let approved := bool_decide (ResponseCode data = Some UTG_APPROVED_CODE) in
  {| transactionId := transactionId;
     approved := approved;
     amount := parseAmount (Amount data);
     tipAmount := if is_truthy truthy_amount (TipAmount data)
                  then parseAmount (TipAmount data) else None;
     totalAmount := parseAmount (or_else truthy_amount (TotalAmount data) (Amount data));
     token := Token data;
     cardBrand := CardBrand data;
     cardLast4 := Last4 data;
     authCode := AuthCode data;
     entryMode := mapEntryMode (EntryMode data);
     responseCode := ResponseCode data;
     responseMessage := ResponseMessage data;
     error := if approved then None else ResponseMessage data;
     errorCode := if approved then None else ResponseCode data |}.

Record StartPaymentRequest := {
  sp_amount : Z;
  sp_currency : string;
  sp_orderId : string;
  sp_tipMode : option string;
  sp_fixedTipAmount : option Z
}.

(** The payload of [POST /api/transaction] for a sale; [PromptForSignature]
    and [Metadata] are left out. *)
Record UtgRequest := {
  TransactionType : string;
  ApiTerminalId : string;
  TransactionId : string;
  rq_Amount : NumberText;
  rq_Currency : string;
  TipMode : string;
  rq_TipAmount : option NumberText;
  InvoiceNumber : string
}.

Definition sale (apiTerminalId nano : string) (request : StartPaymentRequest) : UtgRequest :=
  {| TransactionType := "Sale";
     ApiTerminalId := apiTerminalId;
     TransactionId := nano;
     rq_Amount := formatAmount (sp_amount request);
     rq_Currency := toUpperCase (sp_currency request);
     TipMode := if decide (sp_tipMode request = Some "prompt") then "Prompt" else "None";
     rq_TipAmount := match sp_fixedTipAmount request with
                     | Some tip => if truthy_Z tip then Some (formatAmount tip) else None
                     | None => None
                     end;
     InvoiceNumber := sp_orderId request |}.

(** [startPayment]: the payload it posts and how it ends.  [nano] is the id
    [nanoid()] draws, [post] what the gateway does with the request. *)
Definition startPayment (apiTerminalId terminalId nano : string)
    (post : SkyTabAdapter.Http UtgData) (request : StartPaymentRequest)
    : UtgRequest * Completion JsError PaymentResult :=
  (sale apiTerminalId nano request,
   match post with
   | Returned data => Returned (parsePaymentResponse data nano)
   | Threw e => Threw (PaymentErr (SkyTabAdapter.startPayment_catch "UTG" terminalId e))
   end).

Record TransactionStatus := {
  ts_transactionId : string;
  ts_status : SkyTabAdapter.Status;
  ts_approved : option bool;
  ts_result : option PaymentResult;
  ts_error : option string
}.

(** [getStatus]: never throws; a failed call is reported as status [error]. *)
Definition getStatus (post : SkyTabAdapter.Http UtgData) (transactionId : string)
    : TransactionStatus :=
  match post with
  | Returned data =>
      {| ts_transactionId := transactionId;
         ts_status := mapStatus (ResponseCode data);
         ts_approved := Some (bool_decide (ResponseCode data = Some UTG_APPROVED_CODE));
         ts_result := if decide (ResponseCode data = Some UTG_APPROVED_CODE)
                      then Some (parsePaymentResponse data transactionId) else None;
         ts_error := None |}
  | Threw e =>
      {| ts_transactionId := transactionId;
         ts_status := SkyTabAdapter.error;
         ts_approved := None;
         ts_result := None;
         ts_error := Some (message_or_unknown e) |}
  end.

(** The answer the test of the adapter mocks for an approved sale of 5000,
    and one to a status query for a sale still under way. *)
Definition approved_5000 : UtgData :=
  {| ResponseCode := Some "00"; ResponseMessage := None;
     Amount := Some (Text "5000"); TipAmount := None;
     TotalAmount := Some (Text "5000"); Token := Some "tok_terminal_123";
     CardBrand := Some "Visa"; Last4 := Some "4242"; AuthCode := Some "AUTH123";
     EntryMode := Some "chip" |}.

(** A declined sale whose answer echoes the amount of the request. *)
Definition echo_5000 : UtgData :=
  {| ResponseCode := Some "05"; ResponseMessage := Some "Do not honor";
     Amount := Some (Text "5000"); TipAmount := None;
     TotalAmount := None; Token := None;
     CardBrand := None; Last4 := None; AuthCode := None; EntryMode := None |}.

Definition under_way : UtgData :=
  {| ResponseCode := None; ResponseMessage := Some "In progress";
     Amount := None; TipAmount := None; TotalAmount := None; Token := None;
     CardBrand := None; Last4 := None; AuthCode := None; EntryMode := None |}.

Definition sale_5000 : StartPaymentRequest :=
  {| sp_amount := 5000; sp_currency := "usd"; sp_orderId := "order-123";
     sp_tipMode := None; sp_fixedTipAmount := None |}.

End UTGAdapter.

(** ** The terminal tables *)

Module Terminals.
Import Js Errors Db Api.

(** [type: 'UTG' | 'SKYTAB'] *)
Inductive TerminalType := UTG | SKYTAB.

Global Instance terminal_type_eq_dec : EqDecision TerminalType.
Proof. solve_decision. Defined.

(** A row of [prisma.terminal].  The Prisma schema is not among the
    sources: [status] is kept as the text Prisma hands to the code, of
    which the routes write 'ACTIVE' and 'OFFLINE' and test 'ACTIVE'; the
    [config] blob is left out. *)
Record Terminal := {
  t_name : string;
  t_type : TerminalType;
  apiTerminalId : string;
  ipAddress : option string;
  port : option Z;
  locationName : option string;
  t_status : string;
  lastPingAt : option Time;
  supportsEMV : bool;
  supportsNFC : bool;
  supportsTipping : bool
}.

(** A row of [prisma.terminalTransaction], by the columns the routes read
    back.  [approved] is [None] as long as no [update] has written it (the
    column's default, [null] or [false]: the routes only test it for
    truthiness).  [requestData], [responseData] and [durationMs] are
    written and never read, and are left out. *)
Record TerminalTransaction := {
  tt_terminalId : Id;
  tt_transactionId : string;
  requestType : string;
  tt_amount : Z;
  tt_currency : string;
  startedAt : Time;
  approved : option bool;
  tt_responseCode : option string;
  tt_responseMessage : option string;
  tt_authCode : option string;
  tt_token : option string;
  completedAt : option Time
}.

(** The store of the terminal routes: the tables of [Db.DB], the two
    terminal tables and, for the payment rows that have one, the
    [metadata.transactionId] of the payment, by the payment's key. *)
Record Store := {
  db : DB;
  terminals : gmap Id Terminal;
  terminalTransactions : gmap Id TerminalTransaction;
  payment_transactionId : gmap Id string
}.

Definition set_db (v : DB) (st : Store) : Store :=
  {| db := v; terminals := terminals st;
     terminalTransactions := terminalTransactions st;
     payment_transactionId := payment_transactionId st |}.
Definition set_terminals (v : gmap Id Terminal) (st : Store) : Store :=
  {| db := db st; terminals := v;
     terminalTransactions := terminalTransactions st;
     payment_transactionId := payment_transactionId st |}.
Definition set_terminalTransactions (v : gmap Id TerminalTransaction) (st : Store) : Store :=
  {| db := db st; terminals := terminals st;
     terminalTransactions := v;
     payment_transactionId := payment_transactionId st |}.
Definition set_payment_transactionId (v : gmap Id string) (st : Store) : Store :=
  {| db := db st; terminals := terminals st;
     terminalTransactions := terminalTransactions st;
     payment_transactionId := v |}.

(** What a route of this part answers: [errorResponse(...)] or
    [successResponse(data, status = 200)]. *)
Inductive Reply (A : Type) : Type :=
| Failure (r : Response)
| Success (status : Z) (data : A).
Global Arguments Failure {A} r.
Global Arguments Success {A} status data.

Definition successResponse {A} (data : A) (status : option Z) : Reply A :=
  Success (default 200 status) data.

Definition reply_status {A} (r : Reply A) : Z :=
  match r with
  | Failure r => Api.status r
  | Success s _ => s
  end.

(** The variables of [process.env] the adapter factories read. *)
Record ProcessEnv := {
  UTG_ENABLED : option string;
  UTG_API_TERMINAL_ID : option string;
  SKYTAB_ENABLED : option string;
  SKYTAB_API_KEY : option string;
  SKYTAB_MERCHANT_ID : option string
}.

(** A constructed adapter, by the arguments of its constructor that tell
    which device it talks to. *)
Inductive TerminalClient :=
| UtgClient (terminalId : Id) (apiTerminalId : string)
| SkyTabClient (terminalId : Id) (deviceId : string).

(** [createUTGAdapter(terminalId)] *)
Definition createUTGAdapter (penv : ProcessEnv) (terminalId : Id)
    : Completion JsError TerminalClient :=
  let enabled := bool_decide (UTG_ENABLED penv = Some "true") in
  let apiTerminalId := default "" (or_else truthy_string (UTG_API_TERMINAL_ID penv) (Some "")) in
  if negb enabled then Threw (PlainErr "UTG is not enabled. Set UTG_ENABLED=true")
  else if negb (truthy_string apiTerminalId)
  then Threw (PlainErr "UTG_API_TERMINAL_ID must be set")
  else Returned (UtgClient terminalId apiTerminalId).

(** [createSkyTabAdapter(terminalId, deviceId)] *)
Definition createSkyTabAdapter (penv : ProcessEnv) (terminalId : Id) (deviceId : string)
    : Completion JsError TerminalClient :=
  let enabled := bool_decide (SKYTAB_ENABLED penv = Some "true") in
  let apiKey := default "" (or_else truthy_string (SKYTAB_API_KEY penv) (Some "")) in
  let merchantId := default "" (or_else truthy_string (SKYTAB_MERCHANT_ID penv) (Some "")) in
  if negb enabled then Threw (PlainErr "SkyTab is not enabled. Set SKYTAB_ENABLED=true")
  else if negb (truthy_string apiKey) || negb (truthy_string merchantId)
  then Threw (PlainErr "SKYTAB_API_KEY and SKYTAB_MERCHANT_ID must be set")
  else Returned (SkyTabClient terminalId deviceId).

(** [terminal.type === 'UTG' ? createUTGAdapter(terminal.id)
     : createSkyTabAdapter(terminal.id, terminal.apiTerminalId)] *)
Definition createClient (penv : ProcessEnv) (id : Id) (terminal : Terminal)
    : Completion JsError TerminalClient :=
  if decide (t_type terminal = UTG) then createUTGAdapter penv id
  else createSkyTabAdapter penv id (apiTerminalId terminal).

(** [ping()] of either adapter: [get] is what the health request does,
    [startTime] and [endTime] the two readings of [Date.now()]. *)
Record PingResult := {
  online : bool;
  latencyMs : option Z;
  ping_error : option string
}.

Definition ping (get : Completion JsError ()) (startTime endTime : Time) : PingResult :=
  match get with
  | Returned _ => {| online := true; latencyMs := Some (endTime - startTime);
                     ping_error := None |}
  | Threw e => {| online := false; latencyMs := None;
                  ping_error := Some (message_or_unknown e) |}
  end.

End Terminals.

(** ** app/api/v1/terminals/route.ts *)

Module TerminalsRoute.
Import Js Errors Db Api Terminals.

Record CreateTerminalRequest := {
  name : option string;
  type : option TerminalType;
  rq_apiTerminalId : option string;
  rq_ipAddress : option string;
  rq_port : option Z;
  rq_locationName : option string
}.

Record Outcome := {
  resp : Reply (Id * Terminal);
  st' : Store
}.

(** [POST /api/v1/terminals].  A [type] that is present is one of the two
    strings, both truthy. *)
Definition POST (st : Store) (body : CreateTerminalRequest) : Outcome :=
  match name body, type body, rq_apiTerminalId body with
  | Some name, Some type, Some api =>
      if negb (truthy_string name) || negb (truthy_string api)
      then {| resp := Failure (errorResponse (PlainErr "Missing required fields") (Some 400));
              st' := st |}
      else
        match findFirst (λ t, bool_decide (apiTerminalId t = api)) (terminals st) with
        | Some _ =>
            {| resp := Failure (errorResponse
                                  (PlainErr "Terminal with this API ID already exists")
                                  (Some 400));
               st' := st |}
        | None =>
            let row := {| t_name := name; t_type := type; apiTerminalId := api;
                          ipAddress := rq_ipAddress body; port := rq_port body;
                          locationName := rq_locationName body;
                          t_status := "ACTIVE"; lastPingAt := None;
                          supportsEMV := true;
                          supportsNFC := bool_decide (type = SKYTAB);
                          supportsTipping := true |} in
            let '(id, terminals1) := create (terminals st) row in
            {| resp := successResponse (id, row) (Some 201);
               st' := set_terminals terminals1 st |}
        end
  | _, _, _ =>
      {| resp := Failure (errorResponse (PlainErr "Missing required fields") (Some 400));
         st' := st |}
  end.

End TerminalsRoute.

(** ** app/api/v1/terminals/[terminalId]/ping/route.ts *)

Module PingRoute.
Import Js Errors Db Api Terminals.

Record Outcome := {
  resp : Reply PingResult;
  st' : Store;
  pinged : option TerminalClient
}.

Definition ping_online (t : Time) (terminal : Terminal) : Terminal :=
  {| t_name := t_name terminal; t_type := t_type terminal;
     apiTerminalId := apiTerminalId terminal;
     ipAddress := ipAddress terminal; port := port terminal;
     locationName := locationName terminal;
     t_status := "ACTIVE"; lastPingAt := Some t;
     supportsEMV := supportsEMV terminal; supportsNFC := supportsNFC terminal;
     supportsTipping := supportsTipping terminal |}.

Definition ping_offline (terminal : Terminal) : Terminal :=
  {| t_name := t_name terminal; t_type := t_type terminal;
     apiTerminalId := apiTerminalId terminal;
     ipAddress := ipAddress terminal; port := port terminal;
     locationName := locationName terminal;
     t_status := "OFFLINE"; lastPingAt := lastPingAt terminal;
     supportsEMV := supportsEMV terminal; supportsNFC := supportsNFC terminal;
     supportsTipping := supportsTipping terminal |}.

(** [POST /api/v1/terminals/:terminalId/ping].  [get] is what the device
    does with the health request, [startTime] and [endTime] the clock
    readings of the adapter around it, [now env] the reading of the route's
    [new Date()]. *)
Definition POST (st : Store) (env : Env) (penv : ProcessEnv) (terminalId : Id)
    (get : Completion JsError ()) (startTime endTime : Time) : Outcome :=
  match terminals st !! terminalId with
  | None =>
      {| resp := Failure (errorResponse (PlainErr "Terminal not found") (Some 404));
         st' := st; pinged := None |}
  | Some terminal =>
      match createClient penv terminalId terminal with
      | Threw e => {| resp := Failure (errorResponse e None); st' := st; pinged := None |}
      | Returned client =>
          let result := ping get startTime endTime in
          let st1 := if online result
                     then set_terminals (alter (ping_online (now env)) terminalId (terminals st)) st
                     else set_terminals (alter ping_offline terminalId (terminals st)) st in
          {| resp := successResponse result None; st' := st1; pinged := Some client |}
      end
  end.

End PingRoute.

(** ** app/api/v1/checkout/terminal/pay/route.ts *)

Module TerminalPayRoute.
Import Js Errors Db Api Terminals.

Record TerminalPayRequest := {
  terminalId : Id;
  orderId : Id;
  amount : Z;
  currency : option string;
  tipMode : option string;
  fixedTipAmount : option Z
}.

(** The argument of [terminalClient.startPayment]. *)
Record StartPayment := {
  sp_terminalId : Id;
  sp_amount : Z;
  sp_currency : string;
  sp_orderId : Id;
  sp_tipMode : string;
  sp_fixedTipAmount : option Z
}.

(** The payment started on the device and not awaited: the client, the
    request it was given, and what the [then] and [catch] handlers of the
    promise close over. *)
Record Task := {
  client : TerminalClient;
  request : StartPayment;
  t_transactionId : string;
  t_body : TerminalPayRequest
}.

Record PayData := {
  pd_transactionId : string;
  pd_status : string
}.

Record Outcome := {
  resp : Reply PayData;
  st' : Store;
  spawned : option Task
}.

Definition refuse (st : Store) (r : Response) : Outcome :=
  {| resp := Failure r; st' := st; spawned := None |}.

(** [body.currency || 'usd'] *)
Definition currency_or_usd (body : TerminalPayRequest) : string :=
  default "usd" (or_else truthy_string (currency body) (Some "usd")).

(** [transactionId] is the argument of [findUnique], so the column is
    unique and [create] raises on an id the table has. *)
Definition prisma_unique : string :=
  "Unique constraint failed on the fields: (`transactionId`)".

(** [POST /api/v1/checkout/terminal/pay], up to its response.  The
    transaction id is the route's own [nanoid()]; it is not part of the
    request given to the adapter. *)
Definition POST (st : Store) (env : Env) (penv : ProcessEnv) (body : TerminalPayRequest)
    : Outcome :=
  match terminals st !! terminalId body with
  | None => refuse st (errorResponse (PlainErr "Terminal not found") (Some 404))
  | Some terminal =>
      if negb (bool_decide (t_status terminal = "ACTIVE"))
      then refuse st (errorResponse (PlainErr "Terminal is not active") (Some 400))
      else
        match orders (db st) !! orderId body with
        | None => refuse st (errorResponse (PlainErr "Order not found") (Some 404))
        | Some order =>
            match createClient penv (terminalId body) terminal with
            | Threw e => refuse st (errorResponse e None)
            | Returned terminalClient =>
                let transactionId := nanoid env in
                let row := {| tt_terminalId := terminalId body;
                              tt_transactionId := transactionId;
                              requestType := "payment";
                              tt_amount := amount body;
                              tt_currency := currency_or_usd body;
                              startedAt := now env;
                              approved := None;
                              tt_responseCode := None; tt_responseMessage := None;
                              tt_authCode := None; tt_token := None;
                              completedAt := None |} in
                match findFirst (λ r, bool_decide (tt_transactionId r = transactionId))
                                (terminalTransactions st) with
                | Some _ => refuse st (errorResponse (PlainErr prisma_unique) None)
                | None =>
                let st1 := set_terminalTransactions
                             (create (terminalTransactions st) row).2 st in
                {| resp := successResponse {| pd_transactionId := transactionId;
                                              pd_status := "pending" |} None;
                   st' := st1;
                   spawned := Some {| client := terminalClient;
                                      request :=
                                        {| sp_terminalId := terminalId body;
                                           sp_amount := amount body;
                                           sp_currency := currency_or_usd body;
                                           sp_orderId := orderId body;
                                           sp_tipMode :=
                                             default "none"
                                               (or_else truthy_string (tipMode body)
                                                        (Some "none"));
                                           sp_fixedTipAmount := fixedTipAmount body |};
                                      t_transactionId := transactionId;
                                      t_body := body |} |}
                end
            end
        end
  end.

(** [prisma.terminalTransaction.update({ where: { transactionId }, data })]:
    raises when no row has the transaction id. *)
Definition update_transaction (transactionId : string)
    (f : TerminalTransaction → TerminalTransaction) (st : Store)
    : Completion JsError Store :=
  match findFirst (λ r, bool_decide (tt_transactionId r = transactionId))
                  (terminalTransactions st) with
  | None => Threw (PlainErr prisma_not_found)
  | Some (k, _) =>
      Returned (set_terminalTransactions (alter f k (terminalTransactions st)) st)
  end.

(** [data] of the update in [then]; an [undefined] field of the result
    leaves its column as it is. *)
Definition completed (t : Time) (result : SkyTabAdapter.PaymentResult)
    (r : TerminalTransaction) : TerminalTransaction :=
  {| tt_terminalId := tt_terminalId r; tt_transactionId := tt_transactionId r;
     requestType := requestType r; tt_amount := tt_amount r;
     tt_currency := tt_currency r; startedAt := startedAt r;
     approved := Some (SkyTabAdapter.r_approved result);
     tt_responseCode := match SkyTabAdapter.responseCode result with
                        | Some v => Some v | None => tt_responseCode r end;
     tt_responseMessage := match SkyTabAdapter.responseMessage result with
                           | Some v => Some v | None => tt_responseMessage r end;
     tt_authCode := match SkyTabAdapter.authCode result with
                    | Some v => Some v | None => tt_authCode r end;
     tt_token := match SkyTabAdapter.token result with
                 | Some v => Some v | None => tt_token r end;
     completedAt := Some t |}.

(** [error.message]: [undefined] on a value that is not an [Error]. *)
Definition error_message (e : JsError) : option string :=
  match e with
  | PaymentErr p => Some (message p)
  | AxiosErr _ m | PlainErr m => Some m
  | NotAnError => None
  end.

(** [data] of the update in [catch]. *)
Definition failed (t : Time) (e : JsError) (r : TerminalTransaction) : TerminalTransaction :=
  {| tt_terminalId := tt_terminalId r; tt_transactionId := tt_transactionId r;
     requestType := requestType r; tt_amount := tt_amount r;
     tt_currency := tt_currency r; startedAt := startedAt r;
     approved := Some false;
     tt_responseCode := tt_responseCode r;
     tt_responseMessage := match error_message e with
                           | Some v => Some v | None => tt_responseMessage r end;
     tt_authCode := tt_authCode r; tt_token := tt_token r;
     completedAt := Some t |}.

(** What [prisma.payment.create] raises in the [then] handler: [amount]
    must be given, the order of the row must exist (the foreign key of the
    ER diagram) and no other payment may bear the charge reference (its
    unique key [shift4ChargeId]). *)
Definition prisma_foreign_key : string :=
  "Foreign key constraint failed on the field: `orderId`".
Definition prisma_missing_amount : string := "Argument `amount` is missing.".
Definition prisma_unique_charge : string :=
  "Unique constraint failed on the fields: (`shift4ChargeId`)".

(** The unique key on [shift4ChargeId]: whether a payment bears the
    reference already.  The column is nullable (the refunds route reads it
    as [payment.shift4ChargeId!]): an [undefined] token is stored as
    [null], and rows without a reference do not collide. *)
Definition charge_reference_taken (reference : option string) (db : DB) : bool :=
  match reference with
  | None => false
  | Some tok =>
      bool_decide (is_Some (findFirst (λ p, bool_decide (shift4ChargeId p = Some tok))
                                      (payments db)))
  end.

(** The payment row of an approved result. *)
Definition terminal_payment (env : Env) (task : Task) (totalAmount : Z)
    (result : SkyTabAdapter.PaymentResult) : Payment :=
  {| p_orderId := orderId (t_body task);
     p_customerId := None;
     shift4ChargeId := SkyTabAdapter.token result;
     p_amount := totalAmount;
     p_currency := currency_or_usd (t_body task);
     p_status := PaymentStatus.CAPTURED;
     methodType := MethodType.CARD_TERMINAL;
     p_idempotencyKey := generateIdempotencyKey (Some "term") (nanoid env);
     capturedAt := Some (now env);
     failureCode := None;
     p_failureMessage := None |}.

(** The [then] handler: the store it leaves and, when one of its calls
    raises, the exception.  A row that breaks more than one constraint is
    refused whichever is reported; the model reports them in the order
    amount, order, charge reference. *)
Definition on_result (st : Store) (env : Env) (task : Task)
    (result : SkyTabAdapter.PaymentResult) : Store * option JsError :=
  match update_transaction (t_transactionId task) (completed (now env) result) st with
  | Threw e => (st, Some e)
  | Returned st1 =>
      if SkyTabAdapter.r_approved result
      then
        match SkyTabAdapter.totalAmount result, orders (db st1) !! orderId (t_body task) with
        | None, _ => (st1, Some (PlainErr prisma_missing_amount))
        | Some _, None => (st1, Some (PlainErr prisma_foreign_key))
        | Some totalAmount, Some _ =>
            if charge_reference_taken (SkyTabAdapter.token result) (db st1)
            then (st1, Some (PlainErr prisma_unique_charge))
            else
            let row := terminal_payment env task totalAmount result in
            let '(pid, payments1) := create (payments (db st1)) row in
            let db1 := set_payments payments1 (db st1) in
            let db2 := set_orders
                         (alter (ConfirmRoute.set_order_status OrderStatus.PAID)
                                (orderId (t_body task)) (orders db1)) db1 in
            (set_payment_transactionId
               (<[pid := t_transactionId task]> (payment_transactionId st1))
               (set_db db2 st1), None)
        end
      else (st1, None)
  end.

(** The [catch] handler; when its own update raises, the rejection is
    handled by nobody and the store stays as it is. *)
Definition on_error (st : Store) (env : Env) (task : Task) (e : JsError) : Store :=
  match update_transaction (t_transactionId task) (failed (now env) e) st with
  | Threw _ => st
  | Returned st1 => st1
  end.

(** [startPayment(...).then(...).catch(...)], once the promise of the
    adapter has settled with [outcome]. *)
Definition settle (st : Store) (env : Env) (task : Task)
    (outcome : Completion JsError SkyTabAdapter.PaymentResult) : Store :=
  match outcome with
  | Threw e => on_error st env task e
  | Returned result =>
      match on_result st env task result with
      | (st1, None) => st1
      | (st1, Some e) => on_error st1 env task e
      end
  end.

End TerminalPayRoute.

(** ** app/api/v1/checkout/terminal/status/[transactionId]/route.ts *)

Module TerminalStatusRoute.
Import Js Errors Db Api Terminals.

Record StatusData := {
  sd_transactionId : string;
  sd_status : string;
  sd_approved : option bool;
  sd_result : option (Id * Payment);
  sd_error : option string
}.

(** The [if] chain that determines [status]. *)
Definition status_of (transaction : TerminalTransaction) : string :=
  match completedAt transaction with
  | None => "pending"
  | Some _ =>
      if default false (approved transaction) then "approved"
      else if decide (tt_responseCode transaction = Some "CA") then "cancelled"
      else if decide (tt_responseCode transaction = Some "TO") then "timeout"
      else "declined"
  end.

(** [prisma.payment.findFirst({ where: { metadata: { path:
    ['transactionId'], equals: transactionId } } })] *)
Definition payment_of (st : Store) (transactionId : string) : option (Id * Payment) :=
  head (List.filter
          (λ kp, bool_decide (payment_transactionId st !! kp.1 = Some transactionId))
          (map_to_list (payments (db st)))).

(** [GET /api/v1/checkout/terminal/status/:transactionId] *)
Definition GET (st : Store) (transactionId : string) : Reply StatusData :=
  match findFirst (λ r, bool_decide (tt_transactionId r = transactionId))
                  (terminalTransactions st) with
  | None => Failure (errorResponse (PlainErr "Transaction not found") (Some 404))
  | Some (_, transaction) =>
      let is_approved := default false (approved transaction) in
      successResponse
        {| sd_transactionId := transactionId;
           sd_status := status_of transaction;
           sd_approved := approved transaction;
           sd_result := if is_approved then payment_of st transactionId else None;
           sd_error := if is_approved then None else tt_responseMessage transaction |}
        None
  end.

End TerminalStatusRoute.

(** ** app/api/v1/checkout/online/intent/route.ts *)

Module IntentRoute.
Import Js Errors Db Api Terminals.

Record IntentRequest := {
  amount : option Z;
  currency : option string;
  customerId : option string
}.

(** What [generateOrderNumber] reads of [new Date()]. *)
Record Calendar := {
  getFullYear : Z;
  getMonth : Z;
  getDate : Z
}.

Fixpoint repeat_char (n : nat) (c : ascii) : string :=
  match n with
  | O => EmptyString
  | S n' => String c (repeat_char n' c)
  end.

(** [s.padStart(n, c)] for a one-character [c]. *)
Definition padStart (n : nat) (c : ascii) (s : string) : string :=
  repeat_char (n - String.length s) c +:+ s.

(** [generateOrderNumber()]; [nano] is what [nanoid(6)] draws. *)
Definition generateOrderNumber (date : Calendar) (nano : string) : string :=
  "ORD-" +:+ pretty (getFullYear date)
         +:+ padStart 2 "0" (pretty (getMonth date + 1))
         +:+ padStart 2 "0" (pretty (getDate date))
         +:+ "-" +:+ toUpperCase nano.

Record IntentData := {
  i_orderId : Id;
  i_orderNumber : string;
  i_amount : Z;
  i_currency : string
}.

Record Outcome := {
  resp : Reply IntentData;
  db' : DB
}.

(** [POST /api/v1/checkout/online/intent].  [refundedTotal] is not given
    to [create] and takes the column's default, 0; [userId], [subtotal] and
    [items] are written and read by no modelled route, and are left out, as
    is [publicKey] of the response. *)
Definition POST (db : DB) (env : Env) (date : Calendar) (body : IntentRequest) : Outcome :=
  let invalid := {| resp := Failure (errorResponse (PlainErr "Amount must be greater than 0")
                                                   (Some 400));
                    db' := db |} in
  match amount body with
  | None => invalid
  | Some a =>
      if negb (truthy_Z a) || bool_decide (a ≤ 0) then invalid
      else
        let currency := default "usd" (or_else truthy_string (currency body) (Some "usd")) in
        let row := {| orderNumber := generateOrderNumber date (nanoid env);
                      o_status := OrderStatus.DRAFT;
                      total := a;
                      o_currency := currency;
                      refundedTotal := 0 |} in
        let '(id, orders1) := create (orders db) row in
        {| resp := successResponse {| i_orderId := id; i_orderNumber := orderNumber row;
                                      i_amount := a; i_currency := currency |} None;
           db' := set_orders orders1 db |}
  end.

End IntentRoute.

(** A payout reported paid, and the notification of its creation arriving
    after that. *)
Module PayoutScenario.
Import Js Errors Db Api.

Definition payout_event (eid etype : string) (amt : Z) : Payload :=
  {| pl_id := Some eid; pl_eventId := None; pl_type := Some etype;
     pl_data := Some {| pd_id := Some "po_1"; pd_chargeId := None; pd_refund0_id := None;
                        pd_status := None; pd_amount := Some amt; pd_currency := Some "usd";
                        pd_reason := None; pd_failureMessage := None;
                        pd_evidenceDeadline := None; pd_outcome := None;
                        pd_arrivalDate := Some 1800000000;
                        pd_description := Some "Daily payout" |} |}.

Definition paid : Payload := payout_event "evt_p2" "payout.paid" 12000.
Definition created : Payload := payout_event "evt_p1" "payout.created" 11000.

Definition after_paid : DB :=
  match WebhookRoute.dispatch "payout.paid" paid 70 Scenario.db1 with
  | Returned db => db
  | Threw _ => Scenario.db1
  end.

End PayoutScenario.

(** A checkout of 4200 cents opened on 2 November 2026, and the
    confirmation of the order it creates. *)
Module IntentScenario.
Import Js Errors Db Api.


Definition env : Env := {| now := 500; nanoid := "a1b2c3" |}.




Definition confirm : ConfirmRoute.ConfirmRequest :=
  {| ConfirmRoute.orderId := 1%nat; ConfirmRoute.token := Some "tok_visa";
     ConfirmRoute.customerId := None; ConfirmRoute.saveMethod := None |}.

End IntentScenario.

(** ** The terminal routes as a machine *)

Module TerminalMachine.
Import Js Errors Db Api Terminals.

(** What can happen to the store of the terminal routes: a request to one
    of the routes, or the settling of a payment started earlier. *)
Inductive Event :=
| CreateTerminal (body : TerminalsRoute.CreateTerminalRequest)
| Ping (env : Env) (penv : ProcessEnv) (terminalId : Id)
       (get : Completion JsError ()) (startTime endTime : Time)
| Pay (env : Env) (penv : ProcessEnv) (body : TerminalPayRoute.TerminalPayRequest)
| Settle (env : Env) (task : TerminalPayRoute.Task)
         (outcome : Completion JsError SkyTabAdapter.PaymentResult).

Definition step (st : Store) (ev : Event) : Store :=
  match ev with
  | CreateTerminal body => TerminalsRoute.st' (TerminalsRoute.POST st body)
  | Ping env penv terminalId get startTime endTime =>
      PingRoute.st' (PingRoute.POST st env penv terminalId get startTime endTime)
  | Pay env penv body => TerminalPayRoute.st' (TerminalPayRoute.POST st env penv body)
  | Settle env task outcome => TerminalPayRoute.settle st env task outcome
  end.

Definition run (st : Store) (evs : list Event) : Store := foldl step st evs.

(** The one row of a transaction id, and that no payment carries the id. *)
Definition sole_row (st : Store) (transactionId : string) (k : Id)
    (row : TerminalTransaction) : Prop :=
  terminalTransactions st !! k = Some row
  ∧ tt_transactionId row = transactionId
  ∧ ∀ k' row', terminalTransactions st !! k' = Some row' →
               tt_transactionId row' = transactionId → k' = k.

Definition no_payment_of (st : Store) (transactionId : string) : Prop :=
  ∀ pid, payment_transactionId st !! pid ≠ Some transactionId.

(** No two terminals share an [apiTerminalId]. *)
Definition api_ids_unique (st : Store) : Prop :=
  ∀ i j ti tj, terminals st !! i = Some ti → terminals st !! j = Some tj →
               apiTerminalId ti = apiTerminalId tj → i = j.

End TerminalMachine.

(** A SkyTab terminal at the counter, the order of [ConfirmScenario] to be
    paid at it, and what the device and the clock give. *)
Module TerminalScenario.
Import Js Errors Db Api Terminals.

Definition counter : Terminal :=
  {| t_name := "Counter 1"; t_type := SKYTAB; apiTerminalId := "dev_1";
     ipAddress := None; port := None; locationName := None;
     t_status := "ACTIVE"; lastPingAt := None;
     supportsEMV := true; supportsNFC := true; supportsTipping := true |}.

Definition penv : ProcessEnv :=
  {| UTG_ENABLED := None; UTG_API_TERMINAL_ID := None;
     SKYTAB_ENABLED := Some "true"; SKYTAB_API_KEY := Some "sk_test_1";
     SKYTAB_MERCHANT_ID := Some "m_1" |}.

Definition store0 : Store :=
  {| db := ConfirmScenario.db_draft; terminals := {[ 0%nat := counter ]};
     terminalTransactions := ∅; payment_transactionId := ∅ |}.

Definition pay : TerminalPayRoute.TerminalPayRequest :=
  {| TerminalPayRoute.terminalId := 0%nat; TerminalPayRoute.orderId := 0%nat;
     TerminalPayRoute.amount := 5000; TerminalPayRoute.currency := None;
     TerminalPayRoute.tipMode := Some "prompt";
     TerminalPayRoute.fixedTipAmount := None |}.

Definition env_pay : Env := {| now := 100; nanoid := "tx_1" |}.
Definition env_done : Env := {| now := 160; nanoid := "V1StGXR8_Z5jdHi6B-myTabc" |}.

Definition started : TerminalPayRoute.Outcome :=
  TerminalPayRoute.POST store0 env_pay penv pay.

Definition task1 : TerminalPayRoute.Task :=
  {| TerminalPayRoute.client := SkyTabClient 0%nat "dev_1";
     TerminalPayRoute.request :=
       {| TerminalPayRoute.sp_terminalId := 0%nat; TerminalPayRoute.sp_amount := 5000;
          TerminalPayRoute.sp_currency := "usd"; TerminalPayRoute.sp_orderId := 0%nat;
          TerminalPayRoute.sp_tipMode := "prompt";
          TerminalPayRoute.sp_fixedTipAmount := None |};
     TerminalPayRoute.t_transactionId := "tx_1";
     TerminalPayRoute.t_body := pay |}.

(** A device on which the customer cancels before the first query. *)
Definition cancelled_at_once (k : nat) : SkyTabAdapter.Http SkyTabAdapter.DeviceData :=
  Returned (Observe.reading "cancelled").

(** A request to register a second terminal under the device id of the
    first, and one for another device. *)
Definition register (api : string) : TerminalsRoute.CreateTerminalRequest :=
  {| TerminalsRoute.name := Some "Counter 2"; TerminalsRoute.type := Some UTG;
     TerminalsRoute.rq_apiTerminalId := Some api;
     TerminalsRoute.rq_ipAddress := Some "192.168.1.100";
     TerminalsRoute.rq_port := Some 8333;
     TerminalsRoute.rq_locationName := None |}.

Definition busy_day : list TerminalMachine.Event :=
  [TerminalMachine.CreateTerminal (register "dev_1");
   TerminalMachine.Ping env_pay penv 0%nat (Threw (PlainErr "connect ETIMEDOUT")) 10 5010;
   TerminalMachine.CreateTerminal (register "dev_2");
   TerminalMachine.CreateTerminal (register "dev_2");
   TerminalMachine.Pay env_pay penv pay].

(** The store with the terminal marked for maintenance. *)
Definition in_maintenance_terminal : Terminal :=
  {| t_name := "Counter 1"; t_type := SKYTAB; apiTerminalId := "dev_1";
     ipAddress := None; port := None; locationName := None;
     t_status := "MAINTENANCE"; lastPingAt := None;
     supportsEMV := true; supportsNFC := true; supportsTipping := true |}.

Definition in_maintenance : Store :=
  set_terminals {[ 0%nat := in_maintenance_terminal ]} store0.

End TerminalScenario.

(** * Properties *)

(** ** The poll loop of the SkyTab adapter *)

Section PollLoop.
Import Js Errors SkyTabAdapter Observe.

Variable terminalId : string.
Variable device : nat → Http DeviceData.
Variable tid : string.
Variable expected : Z.
Variable ms : nat.

Lemma queries_rounds q : queries (rounds ms tid q) = q.
Proof. induction q as [|q IH]; [done|]. cbn. unfold queries in IH. by rewrite IH. Qed.

(** No query of the remaining budget is complete: the loop uses the whole
    budget and throws the timeout error. *)
Lemma poll_from_exhausted left attempt :
  (∀ j, (j < left)%nat → is_complete (observed device tid (attempt + j)) = false) →
  poll_from terminalId device tid expected ms left attempt
  = (rounds ms tid left, Threw (PaymentErr (TerminalTimeoutError terminalId))).
Proof.
  revert attempt. induction left as [|left IH]; intros attempt Hnone; [done|].
  cbn [poll_from rounds].
  pose proof (Hnone 0%nat ltac:(lia)) as H0.
  rewrite Nat.add_0_r in H0. unfold observed in H0. rewrite H0.
  rewrite IH; [done|].
  intros j Hj. replace (S attempt + j)%nat with (attempt + S j)%nat by lia.
  apply Hnone. lia.
Qed.

(** The first complete status is seen by query [k] of the remaining
    budget: the loop returns there, after [k + 1] rounds. *)
Lemma poll_from_first left attempt k :
  (k < left)%nat →
  is_complete (observed device tid (attempt + k)) = true →
  (∀ j, (j < k)%nat → is_complete (observed device tid (attempt + j)) = false) →
  poll_from terminalId device tid expected ms left attempt
  = (rounds ms tid (S k),
     Returned (completed_result (getStatus (device (attempt + k)%nat) tid) tid expected)).
Proof.
  revert left attempt. induction k as [|k IH]; intros left attempt Hk Hdone Hbefore.
  - destruct left as [|left]; [lia|]. cbn [poll_from rounds].
    rewrite Nat.add_0_r in *. unfold observed in Hdone. by rewrite Hdone.
  - destruct left as [|left]; [lia|]. cbn [poll_from].
    pose proof (Hbefore 0%nat ltac:(lia)) as H0.
    rewrite Nat.add_0_r in H0. unfold observed in H0. rewrite H0.
    rewrite (IH left (S attempt)).
    + replace (S attempt + k)%nat with (attempt + S k)%nat by lia. done.
    + lia.
    + by replace (S attempt + k)%nat with (attempt + S k)%nat by lia.
    + intros j Hj. replace (S attempt + j)%nat with (attempt + S j)%nat by lia.
      apply Hbefore. lia.
Qed.

(** Whatever the device answers, the trace is a whole number of rounds,
    at most the budget. *)
Lemma poll_from_rounds left attempt :
  ∃ q, (q ≤ left)%nat ∧ (poll_from terminalId device tid expected ms left attempt).1 = rounds ms tid q.
Proof.
  revert attempt. induction left as [|left IH]; intros attempt.
  - exists 0%nat. done.
  - cbn [poll_from]. destruct (is_complete _).
    + exists 1%nat. split; [lia|done].
    + destruct (IH (S attempt)) as (q & Hq & Heq).
      destruct (poll_from terminalId device tid expected ms left (S attempt)) as [evs res]. cbn in *. subst evs.
      exists (S q). split; [lia|done].
Qed.

End PollLoop.

(** C7.  [pollTransactionStatus] makes at most [maxAttempts] status queries
    (60 when the argument is left out), each after a sleep of [intervalMs]
    (2000 when left out); it returns at the first query that observes
    approved, declined, cancelled or error, having made no query after it;
    and when no query of the budget observes one of these, it makes all
    [maxAttempts] queries and throws [TerminalTimeoutError]. *)
Theorem poll_bounded_stops_or_times_out
    (terminalId : string) (device : nat → SkyTabAdapter.Http SkyTabAdapter.DeviceData)
    (tid : string) (expected : Z) (maxAttempts intervalMs : option nat) :
  let n := default 60%nat maxAttempts in
  let ms := default 2000%nat intervalMs in
  let complete k := SkyTabAdapter.is_complete (Observe.observed device tid k) in
  let out := SkyTabAdapter.pollTransactionStatus terminalId device tid expected
                                                 maxAttempts intervalMs in
  (∀ s, SkyTabAdapter.is_complete s = true ↔
        s = SkyTabAdapter.approved ∨ s = SkyTabAdapter.declined
        ∨ s = SkyTabAdapter.cancelled ∨ s = SkyTabAdapter.error)
  ∧ (Observe.queries out.1 ≤ n)%nat
  ∧ (∃ q, out.1 = Observe.rounds ms tid q)
  ∧ (∀ k, (k < n)%nat → complete k = true → (∀ j, (j < k)%nat → complete j = false) →
       out = (Observe.rounds ms tid (S k),
              Js.Returned (SkyTabAdapter.completed_result
                             (SkyTabAdapter.getStatus (device k) tid) tid expected)))
  ∧ ((∀ k, (k < n)%nat → complete k = false) →
       out = (Observe.rounds ms tid n,
              Js.Threw (Errors.PaymentErr (Errors.TerminalTimeoutError terminalId)))).
Proof.
  intros n ms complete out.
  assert (Hout : out = SkyTabAdapter.poll_from terminalId device tid expected ms n 0).
  { subst out n ms. unfold SkyTabAdapter.pollTransactionStatus.
    by destruct maxAttempts, intervalMs. }
  split; [|split; [|split; [|split]]].
  - intros s. destruct s; cbn; intuition congruence.
  - destruct (poll_from_rounds terminalId device tid expected ms n 0) as (q & Hq & Heq).
    rewrite Hout, Heq, queries_rounds. done.
  - destruct (poll_from_rounds terminalId device tid expected ms n 0) as (q & Hq & Heq).
    exists q. by rewrite Hout.
  - intros k Hk Hdone Hbefore. rewrite Hout.
    by rewrite (poll_from_first terminalId device tid expected ms n 0 k).
  - intros Hnone. rewrite Hout.
    by rewrite (poll_from_exhausted terminalId device tid expected ms n 0).
Qed.

Lemma poll_bounded_stops_or_times_out_witness :
  SkyTabAdapter.pollTransactionStatus "term_1" Observe.nine_pending_then_declined
                                      "tx_1" 5000 None None
  = (Observe.rounds 2000 "tx_1" 10,
     Js.Returned (SkyTabAdapter.completed_result
                    (SkyTabAdapter.getStatus (Observe.nine_pending_then_declined 9) "tx_1")
                    "tx_1" 5000))
  ∧ SkyTabAdapter.r_approved
      (SkyTabAdapter.completed_result
         (SkyTabAdapter.getStatus (Observe.nine_pending_then_declined 9) "tx_1") "tx_1" 5000)
    = false.
Proof.
  destruct (poll_bounded_stops_or_times_out "term_1" Observe.nine_pending_then_declined
              "tx_1" 5000 None None) as (_ & _ & _ & Hfirst & _).
  split; [|reflexivity].
  apply (Hfirst 9%nat).
  - cbn. lia.
  - reflexivity.
  - intros j Hj. do 9 (destruct j as [|j]; [reflexivity|]). lia.
Defined.

(** ** How [startPayment] classifies what goes wrong *)

Section StartPayment.
Import Js Errors SkyTabAdapter.

Variable terminalId nano : string.
Variable device : nat → Http DeviceData.
Variable request : StartPaymentRequest.

(** Connection refused and the socket-level timeout are reported as the
    retryable [TerminalOfflineError]. *)
Lemma startPayment_offline code msg :
  code = "ECONNREFUSED" ∨ code = "ETIMEDOUT" →
  startPayment terminalId nano (Threw (AxiosErr (Some code) msg)) device request
  = ([], Threw (PaymentErr (TerminalOfflineError terminalId)))
  ∧ retryable (TerminalOfflineError terminalId) = true.
Proof. intros [-> | ->]; done. Qed.

(** An aborted request (axios' own timeout) is the retryable
    [TerminalTimeoutError]. *)
Lemma startPayment_aborted msg :
  startPayment terminalId nano (Threw (AxiosErr (Some "ECONNABORTED") msg)) device request
  = ([], Threw (PaymentErr (TerminalTimeoutError terminalId)))
  ∧ retryable (TerminalTimeoutError terminalId) = true.
Proof. done. Qed.

(** A device that answers "declined" to the first status query: the call
    returns a result, with [approved = false]; nothing is thrown. *)
Lemma startPayment_declined data tdata :
  d_status data = "declined" →
  device 0%nat = Returned data →
  ∃ evs r, startPayment terminalId nano (Returned tdata) device request = (evs, Returned r)
           ∧ r_approved r = false
           ∧ errorCode r = Some "DECLINED".
Proof.
  intros Hst Hdev. unfold startPayment, pollTransactionStatus. cbn.
  rewrite Hdev. cbn. unfold mapStatus. rewrite Hst. cbn.
  eexists _, _. split; [reflexivity|]. done.
Qed.

(** When the poll budget runs out inside [startPayment], the timeout error
    of the loop passes through the same [catch] and leaves as a plain
    [TerminalError]. *)
Lemma startPayment_catch_of_poll_timeout :
  startPayment_catch "SkyTab" terminalId (PaymentErr (TerminalTimeoutError terminalId))
  = TerminalError ("SkyTab payment failed: Terminal " +:+ terminalId +:+ " timed out")
                  (Some terminalId) None.
Proof. done. Qed.

End StartPayment.

(** C8.  A DNS failure of the terminal's host ([ENOTFOUND]) met by
    [startPayment] is neither [TerminalOfflineError] nor
    [TerminalTimeoutError]: it leaves as the generic [TerminalError], whose
    [retryable] is [false], and [isRetryableError] answers [false] for it,
    although [isRetryableError] counts the very same failure, unwrapped, as
    retryable. *)
Theorem startPayment_dns_failure_not_retryable
    (terminalId nano msg : string)
    (device : nat → SkyTabAdapter.Http SkyTabAdapter.DeviceData)
    (request : SkyTabAdapter.StartPaymentRequest) :
  let raw := Errors.AxiosErr (Some "ENOTFOUND") ("getaddrinfo ENOTFOUND " +:+ msg) in
  let thrown := Errors.TerminalError
                  ("SkyTab payment failed: getaddrinfo ENOTFOUND " +:+ msg)
                  (Some terminalId) None in
  SkyTabAdapter.startPayment terminalId nano (Js.Threw raw) device request
  = ([], Js.Threw (Errors.PaymentErr thrown))
  ∧ Errors.name thrown = "TerminalError"
  ∧ Errors.code thrown = "TERMINAL_ERROR"
  ∧ Errors.retryable thrown = false
  ∧ Errors.isRetryableError (Errors.PaymentErr thrown) = false
  ∧ Errors.isRetryableError raw = true.
Proof.
  cbn zeta. repeat split.
  cbn [Errors.isRetryableError].
  assert (H : Js.includes "ENOTFOUND" ("getaddrinfo ENOTFOUND " +:+ msg) = true).
  { unfold Js.includes.
    change ("getaddrinfo ENOTFOUND " +:+ msg) with ("getaddrinfo " +:+ ("ENOTFOUND " +:+ msg)).
    vm_compute. reflexivity. }
  rewrite H. by rewrite !orb_true_r.
Qed.

(** ** The refund ledger *)

Section LedgerFacts.
Import Js Errors Db Api RefundsRoute Ledger.

Lemma foldl_credit_shift pid (l : list (Id * Refund)) (a : Z) :
  foldl (λ sum kr, sum + credit pid kr.2) a l
  = a + foldl (λ sum kr, sum + credit pid kr.2) 0 l.
Proof.
  revert a. induction l as [|x l IH]; intros a; cbn; [lia|].
  rewrite IH, (IH (0 + _)). lia.
Qed.

Lemma foldl_credit_perm pid (l l' : list (Id * Refund)) :
  l ≡ₚ l' →
  foldl (λ sum kr, sum + credit pid kr.2) 0 l
  = foldl (λ sum kr, sum + credit pid kr.2) 0 l'.
Proof.
  induction 1 as [|x l l' _ IH|x y l|l l' l'' _ IH1 _ IH2]; cbn.
  - done.
  - rewrite foldl_credit_shift, (foldl_credit_shift _ l'), IH. done.
  - rewrite foldl_credit_shift, (foldl_credit_shift _ l (0 + _ + _)). lia.
  - congruence.
Qed.

(** The filter-then-reduce of the source adds up the credits of all rows. *)
Lemma reduce_filter_credit pid (l : list (Id * Refund)) (a : Z) :
  foldl (λ sum kr, sum + r_amount kr.2) a
        (List.filter (λ kr, bool_decide (r_paymentId kr.2 = pid)
                            && bool_decide (r_status kr.2 = RefundStatus.SUCCEEDED)) l)
  = foldl (λ sum kr, sum + credit pid kr.2) a l.
Proof.
  revert a. induction l as [|x l IH]; intros a; cbn; [done|].
  unfold credit at 2. destruct (_ && _); cbn; rewrite IH; [done|].
  by rewrite Z.add_0_r.
Qed.

Lemma totalRefunded_credit db pid :
  totalRefunded db pid
  = foldl (λ sum kr, sum + credit pid kr.2) 0 (map_to_list (refunds db)).
Proof. unfold totalRefunded, existingRefunds, findMany. apply reduce_filter_credit. Qed.

(** A created refund row adds its credit, and nothing else changes. *)
Lemma totalRefunded_create db pid row :
  totalRefunded (set_refunds (create (refunds db) row).2 db) pid
  = totalRefunded db pid + credit pid row.
Proof.
  rewrite !totalRefunded_credit. cbn.
  rewrite (foldl_credit_perm pid _ ((fresh (dom (refunds db)), row) :: map_to_list (refunds db))).
  - cbn. rewrite foldl_credit_shift. lia.
  - apply map_to_list_insert, not_elem_of_dom, is_fresh.
Qed.

Lemma totalRefunded_same_refunds db1 db2 pid :
  refunds db1 = refunds db2 → totalRefunded db1 pid = totalRefunded db2 pid.
Proof. unfold totalRefunded, existingRefunds. by intros ->. Qed.

End LedgerFacts.

(** ** POST /api/v1/refunds *)

Section Refunds.
Import Js Errors Db Api RefundsRoute Ledger.

Lemma record_refund_refunds db env body pid payment amt total_before res :
  refunds (record_refund db env body pid payment amt total_before res).2
  = (create (refunds db)
            (refund_row env body pid payment amt (gateway_ok res) res)).2.
Proof. unfold record_refund. cbn. by destruct (orders db !! _). Qed.

Lemma record_refund_payments db env body pid payment amt total_before res :
  payments (record_refund db env body pid payment amt total_before res).2
  = alter (set_payment_status
             (if bool_decide (total_before + amt >= p_amount payment)
              then PaymentStatus.REFUNDED else PaymentStatus.PARTIALLY_REFUNDED))
          pid (payments db).
Proof. unfold record_refund. cbn. by destruct (orders db !! _). Qed.

Lemma record_refund_total db env body pid payment amt total_before res pid' :
  totalRefunded (record_refund db env body pid payment amt total_before res).2 pid'
  = totalRefunded db pid'
    + credit pid' (refund_row env body pid payment amt (gateway_ok res) res).
Proof.
  rewrite <- totalRefunded_create. apply totalRefunded_same_refunds.
  by rewrite record_refund_refunds.
Qed.

(** The guard [refundAmount > availableToRefund] having let the request
    through, recording the refund keeps the ledger within every payment's
    amount, whether the gateway reports it succeeded or pending. *)
Lemma record_refund_ledger db env body pid payment amt res :
  ledger_ok db →
  payments db !! pid = Some payment →
  amt ≤ p_amount payment - totalRefunded db pid →
  ledger_ok (record_refund db env body pid payment amt (totalRefunded db pid) res).2.
Proof.
  intros Hok Hpay Hguard pid' payment' Hlook.
  rewrite record_refund_payments in Hlook. rewrite record_refund_total.
  unfold credit, refund_row; cbn.
  destruct (decide (pid = pid')) as [<-|Hne].
  - rewrite lookup_alter_eq, Hpay in Hlook. cbn in Hlook.
    injection Hlook as <-. cbn.
    rewrite bool_decide_eq_true_2 by done. cbn.
    pose proof (Hok _ _ Hpay).
    destruct (gateway_ok res); cbn; case_bool_decide; try done; lia.
  - rewrite lookup_alter_ne in Hlook by done.
    rewrite bool_decide_eq_false_2 by done. cbn.
    pose proof (Hok _ _ Hlook). lia.
Qed.


Lemma refundAmount_default body payment :
  amount body = None ∨ amount body = Some 0 →
  refundAmount body payment = p_amount payment.
Proof. unfold refundAmount. by intros [-> | ->]. Qed.

(** One request keeps the ledger invariant. *)
Lemma POST_ledger db env body gateway :
  ledger_ok db → ledger_ok (db' (POST db env body gateway)).
Proof.
  intros Hok. unfold POST.
  destruct (payments db !! paymentId body) as [payment|] eqn:Hpay; [|done].
  destruct (decide (p_status payment = _)); [done|].
  case_bool_decide as Hguard; [done|].
  destruct (_ || _); [|done].
  destruct (Shift4Adapter.createRefund _ _) as [sent [res|e]] eqn:Hgw; [|done].
  pose proof (record_refund_ledger db env body (paymentId body) payment
                (refundAmount body payment) res Hok Hpay ltac:(lia)) as Hled.
  destruct (record_refund _ _ _ _ _ _ _ _) as [r d]. exact Hled.
Qed.

Lemma serve_all_ledger cs db :
  ledger_ok db → ledger_ok (serve_all db cs).
Proof.
  revert db. induction cs as [|c cs IH]; intros db Hok; [done|].
  cbn. apply IH, POST_ledger, Hok.
Qed.

(** The guard: a request for more than the remaining balance changes
    nothing and reaches no gateway. *)
Lemma POST_over_balance db env body gateway payment :
  payments db !! paymentId body = Some payment →
  refundAmount body payment > availableToRefund db (paymentId body) payment →
  let out := POST db env body gateway in
  status (resp out) = 400 ∧ calls out = [] ∧ db' out = db.
Proof.
  intros Hpay Hover. unfold POST. rewrite Hpay.
  destruct (decide (p_status payment = _)); [done|].
  unfold availableToRefund in Hover.
  rewrite bool_decide_eq_true_2 by done. done.
Qed.

End Refunds.

Section RefundAccepted.
Import Js Errors Db Api RefundsRoute Ledger.




End RefundAccepted.

Section RefundClaims.
Import Js Errors Db Api RefundsRoute Ledger.

Lemma scenario_db1_ledger : ledger_ok Scenario.db1.
Proof.
  intros pid payment Hlook. cbn in Hlook.
  apply lookup_singleton_Some in Hlook as [<- <-]. by vm_compute.
Qed.

End RefundClaims.

(** C1.  Refunds that the gateway accepts without settling them escape the
    balance check, and the SUCCEEDED refunds of a payment can exceed its
    amount.  Two refunds of 3000 are requested on the captured payment of
    5000, and the gateway accepts each without settling it (its answer is
    "pending").  Both requests pass the balance check, which counts
    SUCCEEDED refunds only: both are answered 200, each sends its request to
    the gateway and stores a PENDING refund, and the SUCCEEDED total is
    still 0.  The gateway then reports the two refunds settled; the
    [refund.succeeded] handler marks each SUCCEEDED without looking at the
    balance.  The SUCCEEDED refunds of the payment now add up to 6000, more
    than its amount of 5000. *)
Theorem pending_refunds_settle_beyond_captured_amount :
  let r1 := RefundsRoute.POST Scenario.db1 Scenario.env1 (Scenario.refund_of (Some 3000))
              (Js.Returned (MoreRequests.unsettled "re_1" 3000)) in
  let r2 := RefundsRoute.POST (RefundsRoute.db' r1) Scenario.env2
              (Scenario.refund_of (Some 3000))
              (Js.Returned (MoreRequests.unsettled "re_2" 3000)) in
  let s := WebhookRoute.run (WebhookRoute.boot (RefundsRoute.db' r2))
             [WebhookRoute.Deliver 50
                (Js.Returned (Settlement.refund_succeeded_event "evt_r1" "re_1"));
              WebhookRoute.Process 51 None;
              WebhookRoute.Deliver 52
                (Js.Returned (Settlement.refund_succeeded_event "evt_r2" "re_2"));
              WebhookRoute.Process 53 None] in
  RefundsRoute.ledger_ok Scenario.db1
  ∧ Api.status (RefundsRoute.resp r1) = 200
  ∧ Api.status (RefundsRoute.resp r2) = 200
  ∧ RefundsRoute.calls r1 = [Shift4Adapter.PostRefunds (Some "ch_1") (Some 3000)
                                                        (Some "requested_by_customer")]
  ∧ RefundsRoute.calls r2 = [Shift4Adapter.PostRefunds (Some "ch_1") (Some 3000)
                                                        (Some "requested_by_customer")]
  ∧ RefundsRoute.availableToRefund (RefundsRoute.db' r1) 0%nat Scenario.payment1 = 5000
  ∧ ((λ r, (Db.r_amount r, Db.r_status r)) <$> Db.refunds (RefundsRoute.db' r2) !! 0%nat)
    = Some (3000, Db.RefundStatus.PENDING)
  ∧ ((λ r, (Db.r_amount r, Db.r_status r)) <$> Db.refunds (RefundsRoute.db' r2) !! 1%nat)
    = Some (3000, Db.RefundStatus.PENDING)
  ∧ WebhookRoute.s_acks s = [WebhookRoute.OK; WebhookRoute.OK]
  ∧ WebhookRoute.s_logged s = []
  ∧ ((λ r, (Db.r_amount r, Db.r_status r)) <$> Db.refunds (WebhookRoute.s_db s) !! 0%nat)
    = Some (3000, Db.RefundStatus.SUCCEEDED)
  ∧ ((λ r, (Db.r_amount r, Db.r_status r)) <$> Db.refunds (WebhookRoute.s_db s) !! 1%nat)
    = Some (3000, Db.RefundStatus.SUCCEEDED)
  ∧ RefundsRoute.totalRefunded (WebhookRoute.s_db s) 0%nat = 6000
  ∧ Db.p_amount <$> Db.payments (WebhookRoute.s_db s) !! 0%nat = Some 5000
  ∧ ¬ RefundsRoute.ledger_ok (WebhookRoute.s_db s).
Proof.
  intros r1 r2 s. split; [apply scenario_db1_ledger|].
  do 13 (split; [by vm_compute|]).
  intros Hok.
  assert (Hpay : Db.payments (WebhookRoute.s_db s) !! 0%nat
                 = Some (Db.set_payment_status Db.PaymentStatus.PARTIALLY_REFUNDED
                                               Scenario.payment1)) by (by vm_compute).
  assert (Htotal : RefundsRoute.totalRefunded (WebhookRoute.s_db s) 0%nat = 6000)
    by (by vm_compute).
  pose proof (Hok _ _ Hpay) as Hle. rewrite Htotal in Hle.
  change (6000 ≤ 5000) in Hle. lia.
Qed.




(** C10.  A request to POST /api/v1/refunds that leaves [amount] out, or
    gives 0, asks for the payment's whole amount, not for what remains.  So
    when the SUCCEEDED refunds of the payment already add up to more than
    nothing, such a request is answered 400, sends nothing to the gateway
    and writes nothing; unless the payment is already REFUNDED, the message
    is the one of the balance check, naming the remaining balance. *)
Theorem refund_without_amount_asks_for_full_amount
    (db : Db.DB) (env : Api.Env) (body : RefundsRoute.CreateRefundRequest)
    (gateway : Shift4Adapter.Http Shift4Adapter.RefundData) (payment : Db.Payment) :
  Db.payments db !! RefundsRoute.paymentId body = Some payment →
  RefundsRoute.amount body = None ∨ RefundsRoute.amount body = Some 0 →
  0 < RefundsRoute.totalRefunded db (RefundsRoute.paymentId body) →
  let out := RefundsRoute.POST db env body gateway in
  RefundsRoute.refundAmount body payment = Db.p_amount payment
  ∧ Api.status (RefundsRoute.resp out) = 400
  ∧ RefundsRoute.calls out = []
  ∧ RefundsRoute.db' out = db
  ∧ (Db.p_status payment ≠ Db.PaymentStatus.REFUNDED →
     Api.body (RefundsRoute.resp out)
     = Api.JsonError "INTERNAL_ERROR"
         ("Cannot refund more than "
          +:+ pretty (RefundsRoute.availableToRefund db (RefundsRoute.paymentId body) payment)
          +:+ " cents")).
Proof.
  intros Hpay Hamt Hpos out.
  pose proof (refundAmount_default body payment Hamt) as Hfull.
  split; [done|].
  assert (Hover : RefundsRoute.refundAmount body payment
                  > RefundsRoute.availableToRefund db (RefundsRoute.paymentId body) payment).
  { rewrite Hfull. unfold RefundsRoute.availableToRefund. lia. }
  destruct (POST_over_balance db env body gateway payment Hpay Hover) as (H1 & H2 & H3).
  repeat split; try done.
  intros Hst. subst out. unfold RefundsRoute.POST. rewrite Hpay.
  destruct (decide (Db.p_status payment = _)); [done|].
  unfold RefundsRoute.availableToRefund in *.
  by rewrite bool_decide_eq_true_2.
Qed.

Lemma refund_without_amount_asks_for_full_amount_witness :
  let out := RefundsRoute.POST Scenario.db1_after_2000 Scenario.env2
               (Scenario.refund_of None)
               (Js.Returned (Scenario.successful "re_2" 3000)) in
  Api.status (RefundsRoute.resp out) = 400
  ∧ Api.body (RefundsRoute.resp out)
    = Api.JsonError "INTERNAL_ERROR" "Cannot refund more than 3000 cents".
Proof.
  destruct (refund_without_amount_asks_for_full_amount Scenario.db1_after_2000
              Scenario.env2 (Scenario.refund_of None)
              (Js.Returned (Scenario.successful "re_2" 3000))
              (Db.set_payment_status Db.PaymentStatus.PARTIALLY_REFUNDED Scenario.payment1))
    as (_ & Hst & _ & _ & Hmsg).
  - by vm_compute.
  - by left.
  - by vm_compute.
  - split; [exact Hst|]. rewrite Hmsg by done. by vm_compute.
Defined.

(** ** POST /api/v1/checkout/online/confirm *)

Section Confirm.
Import Js Errors Db Api ConfirmRoute.

(** An order that is neither DRAFT nor PENDING_PAYMENT is not charged. *)
Lemma POST_order_not_payable db env body gateway order :
  orders db !! orderId body = Some order →
  o_status order ≠ OrderStatus.DRAFT →
  o_status order ≠ OrderStatus.PENDING_PAYMENT →
  let out := POST db env body gateway in
  status (resp out) = 400 ∧ calls out = [] ∧ db' out = db.
Proof.
  intros Hord Hd Hp. unfold POST. rewrite Hord.
  by rewrite !bool_decide_eq_false_2.
Qed.

(** A payable order and a request with a token: one charge request leaves,
    with the order's total. *)
Lemma POST_payable_calls db env body gateway order :
  orders db !! orderId body = Some order →
  o_status order = OrderStatus.DRAFT ∨ o_status order = OrderStatus.PENDING_PAYMENT →
  is_truthy truthy_string (token body) = true →
  calls (POST db env body gateway)
  = [Shift4Adapter.PostCharges (total order) (o_currency order) true
                               ("Payment for " +:+ orderNumber order) (token body) None].
Proof.
  intros Hord Hst Htok. unfold POST. rewrite Hord.
  assert (Hgate : negb (bool_decide (o_status order = OrderStatus.DRAFT))
                  && negb (bool_decide (o_status order = OrderStatus.PENDING_PAYMENT))
                  = false).
  { destruct Hst as [-> | ->]; done. }
  rewrite Hgate. unfold Shift4Adapter.createCharge. cbn. rewrite Htok.
  by destruct gateway.
Qed.

(** After a successful charge the payment row is new, CAPTURED and carries
    the key drawn for this request, and the order is PAID. *)
Lemma POST_payable_succeeded db env body data order :
  orders db !! orderId body = Some order →
  o_status order = OrderStatus.DRAFT ∨ o_status order = OrderStatus.PENDING_PAYMENT →
  is_truthy truthy_string (token body) = true →
  Shift4Adapter.ch_status data = "successful" →
  let out := POST db env body (Returned data) in
  status (resp out) = 200
  ∧ (∃ pid row, payments db !! pid = None
                ∧ payments (db' out) = <[pid := row]> (payments db)
                ∧ p_status row = PaymentStatus.CAPTURED
                ∧ p_idempotencyKey row = "pay_" +:+ nanoid env)
  ∧ o_status <$> orders (db' out) !! orderId body = Some OrderStatus.PAID.
Proof.
  intros Hord Hst Htok Hok. unfold POST. rewrite Hord.
  assert (Hgate : negb (bool_decide (o_status order = OrderStatus.DRAFT))
                  && negb (bool_decide (o_status order = OrderStatus.PENDING_PAYMENT))
                  = false).
  { destruct Hst as [-> | ->]; done. }
  rewrite Hgate. unfold Shift4Adapter.createCharge. cbn. rewrite Htok. cbn.
  unfold Shift4Adapter.mapChargeStatus. rewrite Hok. cbn.
  split; [done|]. split.
  - eexists _, _. split; [|split; [reflexivity|done]].
    apply not_elem_of_dom, is_fresh.
  - by rewrite lookup_alter_eq, Hord.
Qed.

End Confirm.

(** What keeps a repeated confirm request from charging again is the
    order's status, not a key.  The key of a request is ["pay_" + nanoid], a
    fresh draw; it is written to the payment row and looked up nowhere.  A
    request for an order that is DRAFT or PENDING_PAYMENT and carries a
    token sends one charge request of the order's total; when the gateway
    reports that charge successful, the new payment row is CAPTURED and
    bears the key of the request, the order becomes PAID, and from then on
    every confirm request for that order is answered 400 with no request
    sent to the gateway and the store unchanged.  An order in any other
    status is not charged. *)
Lemma confirm_charges_until_order_paid
    (db : Db.DB) (env : Api.Env) (body : ConfirmRoute.ConfirmRequest)
    (gateway : Shift4Adapter.Http Shift4Adapter.ChargeData) (order : Db.Order) :
  Db.orders db !! ConfirmRoute.orderId body = Some order →
  Js.is_truthy Js.truthy_string (ConfirmRoute.token body) = true →
  let out := ConfirmRoute.POST db env body gateway in
  (Db.o_status order = Db.OrderStatus.DRAFT
   ∨ Db.o_status order = Db.OrderStatus.PENDING_PAYMENT →
     ConfirmRoute.calls out
     = [Shift4Adapter.PostCharges (Db.total order) (Db.o_currency order) true
                                  ("Payment for " +:+ Db.orderNumber order)
                                  (ConfirmRoute.token body) None]
     ∧ ∀ data, gateway = Js.Returned data →
               Shift4Adapter.ch_status data = "successful" →
               Api.status (ConfirmRoute.resp out) = 200
               ∧ (∃ pid row, Db.payments db !! pid = None
                             ∧ Db.payments (ConfirmRoute.db' out) = <[pid := row]> (Db.payments db)
                             ∧ Db.p_status row = Db.PaymentStatus.CAPTURED
                             ∧ Db.p_idempotencyKey row = "pay_" +:+ Api.nanoid env)
               ∧ ∀ env' body' gateway',
                   ConfirmRoute.orderId body' = ConfirmRoute.orderId body →
                   let again := ConfirmRoute.POST (ConfirmRoute.db' out) env' body' gateway' in
                   Api.status (ConfirmRoute.resp again) = 400
                   ∧ ConfirmRoute.calls again = []
                   ∧ ConfirmRoute.db' again = ConfirmRoute.db' out)
  ∧ (Db.o_status order ≠ Db.OrderStatus.DRAFT →
     Db.o_status order ≠ Db.OrderStatus.PENDING_PAYMENT →
     Api.status (ConfirmRoute.resp out) = 400
     ∧ ConfirmRoute.calls out = []
     ∧ ConfirmRoute.db' out = db).
Proof.
  intros Hord Htok out. split.
  - intros Hst. split; [by apply POST_payable_calls|].
    intros data -> Hok.
    destruct (POST_payable_succeeded db env body data order Hord Hst Htok Hok)
      as (Hresp & Hrow & Hpaid).
    fold out in Hresp, Hrow, Hpaid.
    split; [done|]. split; [done|].
    intros env' body' gateway' Hsame.
    destruct (Db.orders (ConfirmRoute.db' out) !! ConfirmRoute.orderId body)
      as [order'|] eqn:Hord'; [|done].
    cbn in Hpaid. injection Hpaid as Hpaid.
    apply (POST_order_not_payable _ env' body' gateway' order');
      [by rewrite Hsame | by rewrite Hpaid | by rewrite Hpaid].
  - intros Hd Hp. by apply (POST_order_not_payable db env body gateway order).
Qed.

(** C2.  A repeated confirm request charges again.  The same confirm
    request is served twice for one DRAFT order of 5000; the first charge
    comes back pending, which leaves the order PENDING_PAYMENT.  Each
    request draws its own key and looks none up, so the second request
    charges again: two charge requests leave for the gateway, both requests
    are answered 200, and two payment rows are stored for the order, one
    per charge, each under its own idempotency key. *)
Theorem confirm_repeated_charges_again :
  ConfirmRoute.calls ConfirmScenario.first
  = [Shift4Adapter.PostCharges 5000 "usd" true "Payment for ORD-2024-0007"
                               (Some "tok_visa") None]
  ∧ ConfirmRoute.calls ConfirmScenario.second
    = [Shift4Adapter.PostCharges 5000 "usd" true "Payment for ORD-2024-0007"
                               (Some "tok_visa") None]
  ∧ Api.status (ConfirmRoute.resp ConfirmScenario.first) = 200
  ∧ Db.o_status <$> Db.orders (ConfirmRoute.db' ConfirmScenario.first) !! 0%nat
    = Some Db.OrderStatus.PENDING_PAYMENT
  ∧ Api.status (ConfirmRoute.resp ConfirmScenario.second) = 200
  ∧ Db.o_status <$> Db.orders (ConfirmRoute.db' ConfirmScenario.second) !! 0%nat
    = Some Db.OrderStatus.PAID
  ∧ size (Db.payments (ConfirmRoute.db' ConfirmScenario.second)) = 2%nat
  ∧ (λ p, (Db.p_orderId p, Db.shift4ChargeId p, Db.p_amount p, Db.p_idempotencyKey p))
      <$> Db.payments (ConfirmRoute.db' ConfirmScenario.second) !! 0%nat
    = Some (0%nat, Some "ch_1", 5000, "pay_V1StGXR8_Z5jdHi6B-myTabc")
  ∧ (λ p, (Db.p_orderId p, Db.shift4ChargeId p, Db.p_amount p, Db.p_idempotencyKey p))
      <$> Db.payments (ConfirmRoute.db' ConfirmScenario.second) !! 1%nat
    = Some (0%nat, Some "ch_2", 5000, "pay_q7Lk2mXw9RtY-4pZs_0aBcde").
Proof. by vm_compute. Qed.

(** ** The webhook receiver *)

(** ** The webhook receiver *)

Section Webhook.
Import Js Errors Db Api WebhookRoute WebhookScenario.

Lemma findFirst_Some {V} (P : V → bool) (m : gmap Id V) k v :
  findFirst P m = Some (k, v) → m !! k = Some v ∧ P v = true.
Proof.
  unfold findFirst, findMany. intros Hhead.
  assert (Hin : In (k, v) (List.filter (λ kv, P kv.2) (map_to_list m))).
  { destruct (List.filter _ _) as [|x l]; [done|].
    cbn in Hhead. injection Hhead as ->. by left. }
  apply filter_In in Hin as [Hin HP]. split; [|done].
  by apply elem_of_map_to_list, list_elem_of_In.
Qed.

Lemma findFirst_None {V} (P : V → bool) (m : gmap Id V) k v :
  findFirst P m = None → m !! k = Some v → P v = false.
Proof.
  unfold findFirst, findMany. intros Hhead Hlook.
  destruct (P v) eqn:HP; [|done]. exfalso.
  assert (Hin : In (k, v) (List.filter (λ kv, P kv.2) (map_to_list m))).
  { apply filter_In. split; [|done]. by apply list_elem_of_In, elem_of_map_to_list. }
  by destruct (List.filter _ _).
Qed.

(** The one row that satisfies the filter is the row found. *)
Lemma findFirst_only {V} (P : V → bool) (m : gmap Id V) k v :
  m !! k = Some v → P v = true →
  (∀ k' v', m !! k' = Some v' → P v' = true → k' = k) →
  findFirst P m = Some (k, v).
Proof.
  intros Hlook HP Honly. unfold findFirst, findMany.
  assert (Hin : In (k, v) (List.filter (λ kv, P kv.2) (map_to_list m))).
  { apply filter_In. split; [|done]. by apply list_elem_of_In, elem_of_map_to_list. }
  destruct (List.filter _ _) as [|[k' v'] l] eqn:Hf; [done|]. cbn.
  assert (Hin' : In (k', v') (List.filter (λ kv, P kv.2) (map_to_list m))).
  { rewrite Hf. by left. }
  apply filter_In in Hin' as [Hin' HP'].
  apply list_elem_of_In, elem_of_map_to_list in Hin'.
  pose proof (Honly k' v' Hin' HP') as ->. congruence.
Qed.

(** The receiver on a delivery that carries an id and a type. *)
Lemma POST_carries db t body eid etype :
  carries body eid etype →
  POST db t (Returned body)
  = match findFirst (λ w, bool_decide (eventId w = eid)) (webhookEvents db) with
    | Some (k, existing) =>
        if processed existing
        then {| resp := OK; db' := db; spawned := None |}
        else {| resp := OK;
                db' := set_webhookEvents (alter increment_retry k (webhookEvents db)) db;
                spawned := Some {| webhookEventId := k; t_eventId := eid;
                                   t_eventType := etype |} |}
    | None =>
        let row := {| eventId := eid; eventType := etype; payload := body;
                      processed := false; receivedAt := t;
                      w_processedAt := None; processingError := None;
                      retryCount := 0 |} in
        {| resp := OK;
           db' := set_webhookEvents (create (webhookEvents db) row).2 db;
           spawned := Some {| webhookEventId := (create (webhookEvents db) row).1;
                              t_eventId := eid; t_eventType := etype |} |}
    end.
Proof.
  intros (Hid & Hidt & Hty & Htyt). unfold POST. rewrite Hid, Hty, Hidt, Htyt. cbn.
  destruct (findFirst _ _) as [[k existing]|]; done.
Qed.

(** Every accepted delivery is answered 200 and writes to no table but
    the event table. *)
Lemma POST_ack db t body eid etype :
  carries body eid etype →
  resp (POST db t (Returned body)) = OK
  ∧ business (db' (POST db t (Returned body))) = business db.
Proof.
  intros Hc. rewrite (POST_carries db t body eid etype Hc).
  destruct (findFirst _ _) as [[k existing]|]; [destruct (processed existing)|]; done.
Qed.


(** *** Computations of a run

    A computation is tame when, whatever the store does to its calls, it
    leaves the event table as it is and what it leaves of the script is
    the end of the script it was given. *)
Definition tame {A} (m : Run A) : Prop :=
  ∀ script db,
    webhookEvents (m script db).1.2 = webhookEvents db
    ∧ ∃ pre, script = (pre ++ (m script db).1.1)%list.

Lemma tame_ret {A} (a : A) : tame (mret a).
Proof. intros script db. split; [done|]. by exists []. Qed.

Lemma tame_bind {A B} (m : Run A) (f : A → Run B) :
  tame m → (∀ a, tame (f a)) → tame (m ≫= f).
Proof.
  intros Hm Hf script db. unfold mbind, run_bind.
  destruct (Hm script db) as [Hev (pre & Hpre)].
  destruct (m script db) as [[script1 db1] [a|e]]; cbn in *.
  - destruct (Hf a script1 db1) as [Hev' (pre' & Hpre')]. split; [congruence|].
    exists (pre ++ pre')%list. by rewrite <- app_assoc, <- Hpre'.
  - split; [done|]. by exists pre.
Qed.

Lemma tame_await {A} (call : DB → Completion JsError (DB * A)) :
  (∀ db db1 a, call db = Returned (db1, a) → webhookEvents db1 = webhookEvents db) →
  tame (await call).
Proof.
  intros Hcall script db. unfold await.
  destruct script as [|[e|] script1].
  - destruct (call db) as [[db1 a]|e] eqn:Hc; cbn; (split; [|by exists []]);
      [by apply (Hcall db db1 a) | done].
  - cbn. split; [done|]. by exists [Some e].
  - destruct (call db) as [[db1 a]|e] eqn:Hc; cbn; (split; [|by exists [None]]);
      [by apply (Hcall db db1 a) | done].
Qed.

Lemma tame_writes (f : DB → DB) :
  (∀ db, webhookEvents (f db) = webhookEvents db) → tame (await (writes f)).
Proof. intros Hf. apply tame_await. intros db db1 a [= <- _]. apply Hf. Qed.

Lemma tame_reads {A} (f : DB → A) : tame (await (reads f)).
Proof. apply tame_await. by intros db db1 a [= <- _]. Qed.

Lemma tame_throw {A} (e : JsError) : tame (throw (A := A) e).
Proof. intros script db. split; [done|]. by exists []. Qed.

Lemma tame_payout data : tame (handlePayout data).
Proof.
  unfold handlePayout. destruct (data_id data) as [payoutId|]; [|apply tame_throw].
  apply tame_await. intros db db1 a. unfold payout_upsert.
  destruct (findFirst _ _) as [[? ?]|]; by intros [= <- _].
Qed.

(** No handler writes to the event table. *)
Lemma tame_handler eventType data t : tame (handler eventType data t).
Proof.
  unfold handler. repeat case_decide; try apply tame_ret; try by apply tame_writes.
  - unfold handleChargeRefunded. apply tame_bind; [by apply tame_writes|]. intros _.
    destruct (is_truthy _ _); [by apply tame_writes | apply tame_ret].
  - unfold handleDisputeCreated. apply tame_bind; [apply tame_reads|].
    intros [[k payment]|]; [|apply tame_ret].
    apply tame_await. intros db db1 a. unfold dispute_create.
    destruct (orders db !! _); [|done]. destruct (dispute_id_taken _ _); [done|].
    by intros [= <- _].
  - apply tame_payout.
  - apply tame_payout.
Qed.

Lemma dispatch_webhookEvents eventType data t db db1 :
  dispatch eventType data t db = Returned db1 →
  webhookEvents db1 = webhookEvents db.
Proof.
  unfold dispatch, answered. intros Hd.
  destruct (tame_handler eventType data t [] db) as [Hev _].
  destruct (handler eventType data t [] db) as [[script1 db2] [a|e]]; [|done].
  by injection Hd as <-.
Qed.

(** The [switch], handler by handler. *)
Lemma dispatch_unfold eventType data t db :
  dispatch eventType data t db
  = if decide (eventType = "charge.succeeded")
    then Returned (written (handleChargeSucceeded data) db)
    else if decide (eventType = "charge.failed")
    then Returned (written (handleChargeFailed data) db)
    else if decide (eventType = "charge.captured")
    then Returned (written (handleChargeCaptured data t) db)
    else if decide (eventType = "charge.refunded")
    then Returned (written (handleChargeRefunded data t) db)
    else if decide (eventType = "charge.dispute.created")
    then answered (handleDisputeCreated data) db
    else if decide (eventType = "charge.dispute.closed")
    then Returned (written (handleDisputeClosed data t) db)
    else if decide (eventType = "refund.succeeded")
    then Returned (written (handleRefundSucceeded data t) db)
    else if decide (eventType = "refund.failed")
    then Returned (written (handleRefundFailed data) db)
    else if decide (eventType = "payout.created") then answered (handlePayout data) db
    else if decide (eventType = "payout.paid") then answered (handlePayout data) db
    else Returned db.
Proof.
  unfold dispatch, handler. repeat case_decide; try reflexivity.
  unfold answered, written, handleChargeRefunded, mbind, run_bind, await, writes. cbn.
  by destruct (is_truthy _ _).
Qed.




Lemma processWebhookEvent_resolved db t task ev db1 :
  webhookEvents db !! webhookEventId task = Some ev →
  dispatch (t_eventType task) (payload ev) t db = Returned db1 →
  processWebhookEvent db t None task
  = (set_webhookEvents (alter (mark_processed t) (webhookEventId task) (webhookEvents db)) db1,
     Returned ()).
Proof.
  intros Hev Hd. pose proof (dispatch_webhookEvents _ _ _ _ _ Hd) as Hevents.
  unfold dispatch, answered in Hd.
  destruct (tame_handler (t_eventType task) (payload ev) t [] db) as [_ (pre & Hpre)].
  unfold processWebhookEvent, try_catch, mbind, run_bind. cbn [default].
  unfold await at 1. unfold reads at 1. cbn [tail]. rewrite Hev.
  destruct (handler _ _ _ [] db) as [[script1 db2] [[]|e]]; [|done].
  injection Hd as ->. cbn in Hpre. symmetry in Hpre.
  apply app_eq_nil in Hpre as [_ ->].
  unfold await, webhookEvent_update, update. rewrite Hevents, Hev. done.
Qed.

End Webhook.

Section WebhookMachine.
Import Js Errors Db Api WebhookRoute WebhookScenario.



(** One delivery and the run it started, taken from a fresh boot. *)
Lemma run_deliver_process db t t' body fault eid etype task :
  carries body eid etype →
  spawned (POST db t (Returned body)) = Some task →
  run (boot db) [Deliver t (Returned body); Process t' fault]
  = let d := POST db t (Returned body) in
    let '(db1, res) := processWebhookEvent (db' d) t' fault task in
    {| s_db := db1; s_queue := []; s_acks := [OK];
       s_logged := match res with Threw e => [e] | Returned _ => [] end |}.
Proof.
  intros Hc Hsp. unfold run. cbn [foldl]. unfold step at 2.
  cbn [boot s_db s_queue s_acks s_logged].
  rewrite Hsp. destruct (POST_ack db t body eid etype Hc) as [-> _].
  cbn [option_list app step s_db s_queue s_acks s_logged].
  change (option_list (Some task)) with [task]. reflexivity.
Qed.



End WebhookMachine.




(** The unique key of a dispute at work.  The notification of an opened
    dispute is delivered twice before its first run.  The first run records
    the dispute; the second finds the payment again, and its [create] is
    refused for the dispute id: the run throws, one dispute row is stored,
    and the message of the refusal is written to the event, which the first
    run has marked processed. *)
Lemma dispute_delivered_twice_is_recorded_once :
  let s := WebhookRoute.run (WebhookRoute.boot Scenario.db1)
             [WebhookRoute.Deliver 10 (Js.Returned WebhookScenario.dispute_created);
              WebhookRoute.Deliver 11 (Js.Returned WebhookScenario.dispute_created);
              WebhookRoute.Process 12 None;
              WebhookRoute.Process 13 None] in
  WebhookRoute.s_acks s = [WebhookRoute.OK; WebhookRoute.OK]
  ∧ WebhookRoute.s_logged s = [Errors.PlainErr WebhookRoute.prisma_unique_dispute]
  ∧ size (Db.disputes (WebhookRoute.s_db s)) = 1%nat
  ∧ Db.shift4DisputeId <$> Db.disputes (WebhookRoute.s_db s) !! 0%nat = Some (Some "dp_1")
  ∧ (λ w, (Db.processed w, Db.processingError w))
      <$> Db.webhookEvents (WebhookRoute.s_db s) !! 0%nat
    = Some (true, Some WebhookRoute.prisma_unique_dispute).
Proof. by vm_compute. Qed.




(** ** Charge events and the status of a payment *)

Section ChargeEvents.
Import Js Errors Db Api WebhookRoute WebhookScenario.

Lemma updateMany_lookup {V} (P : V → bool) (f : V → V) (m : gmap Id V) k :
  updateMany P f m !! k = (λ row, if P row then f row else row) <$> m !! k.
Proof. unfold updateMany. apply lookup_fmap. Qed.

(** Each charge event rewrites the status of the payments of its charge
    and of no other payment, without reading the status they have. *)
Lemma dispatch_target eventType data t db s :
  target eventType = Some s →
  ∃ db1 f, dispatch eventType data t db = Returned db1
           ∧ payments db1
             = updateMany (λ p, where_eq (data_id data) (shift4ChargeId p)) f (payments db)
           ∧ ∀ p, p_status (f p) = s ∧ shift4ChargeId (f p) = shift4ChargeId p.
Proof.
  unfold target. rewrite dispatch_unfold. intros Ht.
  repeat case_decide; simplify_eq.
  - by exists (written (handleChargeSucceeded data) db),
              (set_payment_status PaymentStatus.CAPTURED).
  - by exists (written (handleChargeFailed data) db),
              (set_payment_status PaymentStatus.FAILED).
  - by exists (written (handleChargeCaptured data t) db), (set_payment_captured t).
  - exists (written (handleChargeRefunded data t) db),
           (set_payment_status PaymentStatus.REFUNDED).
    split; [done|]. split; [|done].
    unfold written, handleChargeRefunded, mbind, run_bind, await, writes. cbn.
    by destruct (is_truthy _ _).
Qed.

End ChargeEvents.

(** C4, as the source has it.  A status update carries no expected
    revision and is checked against nothing.  Processing a stored
    [charge.succeeded], [charge.failed], [charge.captured] or
    [charge.refunded] event, the store answering, always resolves: no error
    is raised.  Every payment with the event's charge id then has the
    status the event writes (CAPTURED, FAILED, CAPTURED, REFUNDED),
    whatever its status was, and every other payment is as before. *)
Theorem charge_event_applied_unconditionally
    (db : Db.DB) (t : Db.Time) (task : WebhookRoute.Task) (ev : Db.WebhookEvent)
    (c : string) (s : Db.PaymentStatus.t) :
  Db.webhookEvents db !! WebhookRoute.webhookEventId task = Some ev →
  WebhookRoute.data_id (Db.payload ev) = Some c →
  WebhookScenario.target (WebhookRoute.t_eventType task) = Some s →
  ∃ db2, WebhookRoute.processWebhookEvent db t None task = (db2, Js.Returned ())
         ∧ ∀ pid payment, Db.payments db !! pid = Some payment →
             (Db.shift4ChargeId payment = Some c →
                Db.p_status <$> Db.payments db2 !! pid = Some s)
             ∧ (Db.shift4ChargeId payment ≠ Some c →
                Db.payments db2 !! pid = Some payment).
Proof.
  intros Hev Hc Ht.
  destruct (dispatch_target (WebhookRoute.t_eventType task) (Db.payload ev) t db s Ht)
    as (db1 & f & Hd & Hpays & Hf).
  eexists. split; [by apply (processWebhookEvent_resolved db t task ev db1)|].
  intros pid payment Hpay. cbn. rewrite Hpays, updateMany_lookup, Hpay, Hc. cbn.
  split; intros Hcharge.
  - rewrite bool_decide_eq_true_2 by done. cbn. by destruct (Hf payment) as [-> _].
  - by rewrite bool_decide_eq_false_2.
Qed.

Lemma charge_event_applied_unconditionally_witness :
  ∃ db2, WebhookRoute.processWebhookEvent
           (WebhookRoute.db' (WebhookRoute.POST Scenario.db1 30
                                (Js.Returned WebhookScenario.charge_failed)))
           31 None
           {| WebhookRoute.webhookEventId := 0%nat; WebhookRoute.t_eventId := "evt_f1";
              WebhookRoute.t_eventType := "charge.failed" |}
         = (db2, Js.Returned ())
         ∧ Db.p_status <$> Db.payments db2 !! 0%nat = Some Db.PaymentStatus.FAILED.
Proof.
  edestruct (charge_event_applied_unconditionally
               (WebhookRoute.db' (WebhookRoute.POST Scenario.db1 30
                                    (Js.Returned WebhookScenario.charge_failed)))
               31
               {| WebhookRoute.webhookEventId := 0%nat; WebhookRoute.t_eventId := "evt_f1";
                  WebhookRoute.t_eventType := "charge.failed" |})
    as (db2 & Hrun & Hpays).
  - by vm_compute.
  - by vm_compute.
  - by vm_compute.
  - exists db2. split; [exact Hrun|].
    by apply (Hpays 0%nat Scenario.payment1).
Defined.

(** C4, as the claim has it, fails.  The payment is CAPTURED; a
    [charge.succeeded] event for its charge is processed, and after it a
    [charge.failed] event for the same charge, issued before the success.
    The late update is not refused: its run resolves, nothing is thrown or
    logged, and the payment's status has changed. *)
Lemma stale_failure_applied_without_conflict :
  Db.p_status <$> Db.payments Scenario.db1 !! 0%nat = Some Db.PaymentStatus.CAPTURED
  ∧ WebhookRoute.s_logged WebhookScenario.late_failure = []
  ∧ WebhookRoute.s_queue WebhookScenario.late_failure = []
  ∧ Db.processed <$> Db.webhookEvents (WebhookRoute.s_db WebhookScenario.late_failure) !! 1%nat
    = Some true
  ∧ Db.payments (WebhookRoute.s_db WebhookScenario.late_failure) !! 0%nat
    ≠ Db.payments Scenario.db1 !! 0%nat.
Proof. by vm_compute. Qed.

(** C5, as the source has it.  Nothing orders a failure signal after a
    capture.  When a [charge.failed] notification is delivered for the first
    time and its run executes, the store answering, the payment with the
    notification's charge id ends FAILED whatever its status was, CAPTURED
    included; the delivery is answered 200, nothing is logged and the event
    is marked processed. *)
Theorem charge_failed_overwrites_any_status
    (db : Db.DB) (t t' : Db.Time) (body : Db.Payload) (eid c : string)
    (pid : Db.Id) (payment : Db.Payment) :
  WebhookScenario.carries body eid "charge.failed" →
  Db.findFirst (λ w, bool_decide (Db.eventId w = eid)) (Db.webhookEvents db) = None →
  WebhookRoute.data_id body = Some c →
  Db.payments db !! pid = Some payment →
  Db.shift4ChargeId payment = Some c →
  let s := WebhookRoute.run (WebhookRoute.boot db)
             [WebhookRoute.Deliver t (Js.Returned body); WebhookRoute.Process t' None] in
  WebhookRoute.s_acks s = [WebhookRoute.OK]
  ∧ WebhookRoute.s_logged s = []
  ∧ Db.payments (WebhookRoute.s_db s) !! pid
    = Some (Db.set_payment_status Db.PaymentStatus.FAILED payment)
  ∧ ∃ k ev, Db.webhookEvents (WebhookRoute.s_db s) !! k = Some ev
            ∧ Db.eventId ev = eid ∧ Db.processed ev = true.
Proof.
  intros Hc Hnew Hid Hpay Hcharge s.
  pose proof (POST_carries db t body eid "charge.failed" Hc) as Hpost.
  rewrite Hnew in Hpost. cbv zeta in Hpost.
  set (row := {| Db.eventId := eid; Db.eventType := "charge.failed"; Db.payload := body;
                 Db.processed := false; Db.receivedAt := t; Db.w_processedAt := None;
                 Db.processingError := None; Db.retryCount := 0 |}) in *.
  set (k := (Db.create (Db.webhookEvents db) row).1) in *.
  set (task := {| WebhookRoute.webhookEventId := k; WebhookRoute.t_eventId := eid;
                  WebhookRoute.t_eventType := "charge.failed" |}) in *.
  assert (Hsp : WebhookRoute.spawned (WebhookRoute.POST db t (Js.Returned body)) = Some task)
    by (by rewrite Hpost).
  assert (Hev : Db.webhookEvents (WebhookRoute.db' (WebhookRoute.POST db t (Js.Returned body)))
                !! WebhookRoute.webhookEventId task = Some row).
  { rewrite Hpost. cbn. apply lookup_insert_eq. }
  pose proof (processWebhookEvent_resolved _ t' task row _ Hev eq_refl) as Hrun.
  subst s. rewrite (run_deliver_process db t t' body None eid "charge.failed" task Hc Hsp).
  cbv zeta. rewrite Hrun. cbn [WebhookRoute.s_acks WebhookRoute.s_logged WebhookRoute.s_db].
  split; [done|]. split; [done|]. split.
  - rewrite Hpost. unfold WebhookRoute.handleChargeFailed. cbn -[Db.updateMany].
    rewrite updateMany_lookup, Hpay. cbn. rewrite Hid, Hcharge. cbn.
    by rewrite bool_decide_eq_true_2.
  - exists k, (WebhookRoute.mark_processed t' row). split; [|done].
    cbn [Db.webhookEvents Db.set_webhookEvents].
    change (WebhookRoute.webhookEventId task) with k in *.
    by rewrite lookup_alter_eq, Hev.
Qed.

Lemma charge_failed_overwrites_any_status_witness :
  Db.payments (WebhookRoute.s_db WebhookScenario.failure_after_capture) !! 0%nat
  = Some (Db.set_payment_status Db.PaymentStatus.FAILED Scenario.payment1).
Proof.
  destruct (charge_failed_overwrites_any_status
              Scenario.db1 30 31 WebhookScenario.charge_failed "evt_f1" "ch_1"
              0%nat Scenario.payment1) as (_ & _ & Hfailed & _).
  - by vm_compute.
  - by vm_compute.
  - by vm_compute.
  - by vm_compute.
  - by vm_compute.
  - exact Hfailed.
Defined.

(** C5, as the claim has it, fails.  The payment is CAPTURED when a
    [charge.failed] notification for its charge is delivered and processed:
    the update is applied, and the payment is FAILED afterwards. *)
Lemma failure_after_capture_is_applied :
  Db.p_status <$> Db.payments Scenario.db1 !! 0%nat = Some Db.PaymentStatus.CAPTURED
  ∧ Db.shift4ChargeId <$> Db.payments Scenario.db1 !! 0%nat = Some (Some "ch_1")
  ∧ WebhookRoute.data_id WebhookScenario.charge_failed = Some "ch_1"
  ∧ Db.p_status <$> Db.payments (WebhookRoute.s_db WebhookScenario.failure_after_capture) !! 0%nat
    = Some Db.PaymentStatus.FAILED.
Proof. by vm_compute. Qed.

(** * Further properties of the modelled code *)

(** ** The SkyTab adapter: what ends a poll, and with what *)

Section PollOutcomes.
Import Js Errors SkyTabAdapter Observe.

(** None of the own keys of [statusMap] is a key of [Object.prototype]. *)
Lemma own_key_not_inherited (s : string) :
  s ∈ object_prototype_keys →
  s ≠ "pending" ∧ s ≠ "processing" ∧ s ≠ "approved" ∧ s ≠ "declined"
  ∧ s ≠ "cancelled" ∧ s ≠ "error".
Proof.
  intros Hin. apply list_elem_of_In in Hin. cbn in Hin.
  repeat (destruct Hin as [<- | Hin]; [by repeat split|]). done.
Qed.

Lemma mapStatus_complete (s : string) :
  is_complete (mapStatus s) = false
  ↔ s = "pending" ∨ s = "processing" ∨ s ∈ object_prototype_keys.
Proof.
  split.
  - unfold mapStatus. repeat case_decide; cbn; intros Hs; try done.
    + by left.
    + by right; left.
    + by right; right.
  - intros [-> | [-> | Hin]]; [done | done |].
    destruct (own_key_not_inherited s Hin) as (? & ? & ? & ? & ? & ?).
    unfold mapStatus. by rewrite !decide_False, decide_True by done.
Qed.

(** A status the device reports that is neither one of the six the
    adapter lists nor a key of [Object.prototype] is mapped to [error]. *)
Lemma mapStatus_listed_or_error (s : string) :
  s ∉ object_prototype_keys →
  mapStatus s ≠ pending → is_complete (mapStatus s) = true.
Proof.
  intros Hout Hpending. destruct (is_complete (mapStatus s)) eqn:Hc; [done|].
  apply mapStatus_complete in Hc as [-> | [-> | Hin]]; done.
Qed.

End PollOutcomes.

(** X1.  The poll loop goes on to another query exactly when the status
    query was answered and the device reported "pending", "processing" or
    a string that is a property name of [Object.prototype] ("constructor",
    "toString", "__proto__", ...), for which the lookup in [statusMap]
    gives an inherited value that is none of the statuses the loop tests
    for.  A query that fails on the wire, and any other status the device
    reports, ends the loop. *)
Theorem poll_goes_on_while_pending_processing_or_inherited
    (get : SkyTabAdapter.Http SkyTabAdapter.DeviceData) (tid : string) :
  SkyTabAdapter.is_complete (SkyTabAdapter.ts_status (SkyTabAdapter.getStatus get tid)) = false
  ↔ ∃ data, get = Js.Returned data
            ∧ (SkyTabAdapter.d_status data = "pending"
               ∨ SkyTabAdapter.d_status data = "processing"
               ∨ SkyTabAdapter.d_status data ∈ Js.object_prototype_keys).
Proof.
  destruct get as [data|e]; cbn.
  - rewrite mapStatus_complete. split.
    + intros H. by exists data.
    + by intros (data' & [= <-] & H).
  - split; [done|]. by intros (data & ? & _).
Qed.

Lemma poll_goes_on_while_pending_processing_or_inherited_witness :
  SkyTabAdapter.pollTransactionStatus "term_1" Devices.always_constructor "tx_1" 5000
                                      (Some 3%nat) None
  = (Observe.rounds 2000 "tx_1" 3,
     Js.Threw (Errors.PaymentErr (Errors.TerminalTimeoutError "term_1"))).
Proof.
  apply (poll_from_exhausted "term_1" Devices.always_constructor "tx_1" 5000 2000 3 0).
  intros j _.
  apply (poll_goes_on_while_pending_processing_or_inherited
           (Devices.always_constructor (0 + j)) "tx_1").
  eexists. split; [reflexivity|]. right; right.
  unfold Js.object_prototype_keys. rewrite elem_of_cons. by left.
Defined.

(** X2.  When the first status query that is not pending fails on the wire,
    the loop stops there: it returns (it does not throw and does not query
    again) a result that is not approved, with the expected amount, the
    message of the failure (or "Transaction was not approved" when the
    message is empty) and the error code "ERROR". *)
Theorem poll_ends_at_first_failed_query
    (terminalId : string) (device : nat → SkyTabAdapter.Http SkyTabAdapter.DeviceData)
    (tid : string) (expected : Z) (maxAttempts intervalMs : option nat)
    (k : nat) (e : Errors.JsError) :
  (k < default 60%nat maxAttempts)%nat →
  device k = Js.Threw e →
  (∀ j, (j < k)%nat →
        SkyTabAdapter.is_complete (Observe.observed device tid j) = false) →
  ∃ r, SkyTabAdapter.pollTransactionStatus terminalId device tid expected
                                           maxAttempts intervalMs
       = (Observe.rounds (default 2000%nat intervalMs) tid (S k), Js.Returned r)
       ∧ SkyTabAdapter.r_approved r = false
       ∧ SkyTabAdapter.amount r = Some expected
       ∧ SkyTabAdapter.totalAmount r = Some expected
       ∧ SkyTabAdapter.errorCode r = Some "ERROR"
       ∧ SkyTabAdapter.r_error r
         = Some (if Js.truthy_string (Errors.message_or_unknown e)
                 then Errors.message_or_unknown e
                 else "Transaction was not approved").
Proof.
  intros Hk Hdev Hbefore. eexists. split.
  - unfold SkyTabAdapter.pollTransactionStatus.
    apply (poll_from_first terminalId device tid expected _ _ 0 k Hk).
    + unfold Observe.observed. cbn. by rewrite Hdev.
    + exact Hbefore.
  - cbn. rewrite Hdev. cbn. repeat split.
    by destruct (Js.truthy_string _).
Qed.

Lemma poll_ends_at_first_failed_query_witness :
  ∃ r, SkyTabAdapter.pollTransactionStatus "term_1" Devices.two_pending_then_reset
                                           "tx_1" 5000 None None
       = (Observe.rounds 2000 "tx_1" 3, Js.Returned r)
       ∧ SkyTabAdapter.r_approved r = false
       ∧ SkyTabAdapter.r_error r = Some "socket hang up".
Proof.
  destruct (poll_ends_at_first_failed_query "term_1" Devices.two_pending_then_reset
              "tx_1" 5000 None None 2 Devices.reset)
    as (r & Hrun & Happ & _ & _ & _ & Herr).
  - cbn. lia.
  - reflexivity.
  - intros j Hj. do 2 (destruct j as [|j]; [reflexivity|]). lia.
  - exists r. split; [exact Hrun|]. split; [exact Happ|]. exact Herr.
Defined.

(** X3.  The result of a poll is approved exactly when the first status
    that ends it is the device's "approved"; the approved result then
    carries what the device reported (its amounts, token and authorisation
    code), not the expected amount. *)
Theorem poll_approved_iff_device_approved
    (terminalId : string) (device : nat → SkyTabAdapter.Http SkyTabAdapter.DeviceData)
    (tid : string) (expected : Z) (maxAttempts intervalMs : option nat) (k : nat) :
  (k < default 60%nat maxAttempts)%nat →
  SkyTabAdapter.is_complete (Observe.observed device tid k) = true →
  (∀ j, (j < k)%nat →
        SkyTabAdapter.is_complete (Observe.observed device tid j) = false) →
  ∃ r, (SkyTabAdapter.pollTransactionStatus terminalId device tid expected
                                            maxAttempts intervalMs).2 = Js.Returned r
       ∧ (SkyTabAdapter.r_approved r = true
          ↔ ∃ data, device k = Js.Returned data
                    ∧ SkyTabAdapter.d_status data = "approved")
       ∧ (∀ data, device k = Js.Returned data →
                  SkyTabAdapter.d_status data = "approved" →
                  r = SkyTabAdapter.parseTransactionData data tid).
Proof.
  intros Hk Hdone Hbefore. eexists. split.
  - unfold SkyTabAdapter.pollTransactionStatus.
    by rewrite (poll_from_first terminalId device tid expected _ _ 0 k Hk Hdone Hbefore).
  - cbn. destruct (device k) as [data|e]; cbn.
    + destruct (decide (SkyTabAdapter.d_status data = "approved")) as [Hap|Hnap]; cbn.
      * rewrite bool_decide_eq_true_2 by done. split.
        -- split; [by exists data | done].
        -- by intros data' [= <-] _.
      * split.
        -- split; [done|]. by intros (data' & [= <-] & ?).
        -- by intros data' [= <-] ?.
    + split; [|done]. split; [done|]. by intros (data & ? & _).
Qed.

Lemma poll_approved_iff_device_approved_witness :
  (SkyTabAdapter.pollTransactionStatus "term_1" Devices.processing_then_approved
                                       "tx_1" 5000 None None).2
  = Js.Returned (SkyTabAdapter.parseTransactionData Devices.approval "tx_1").
Proof.
  destruct (poll_approved_iff_device_approved "term_1" Devices.processing_then_approved
              "tx_1" 5000 None None 1) as (r & Hrun & _ & Hres).
  - cbn. lia.
  - reflexivity.
  - intros j Hj. destruct j as [|j]; [reflexivity|lia].
  - rewrite Hrun. f_equal. by apply Hres.
Defined.

(** X4.  When [startPayment] has opened the transaction and none of the 60
    status queries ends the poll, the timeout of the loop does not leave as
    [TerminalTimeoutError]: after 60 rounds of a 2000 ms sleep and a query,
    [startPayment] throws the generic [TerminalError] (code TERMINAL_ERROR,
    not retryable) whose message wraps the timeout's. *)
Theorem startPayment_poll_timeout_is_not_retryable
    (terminalId nano : string) (tdata : SkyTabAdapter.TransactionData)
    (device : nat → SkyTabAdapter.Http SkyTabAdapter.DeviceData)
    (request : SkyTabAdapter.StartPaymentRequest) :
  let tid := default nano (Js.or_else Js.truthy_string
                             (SkyTabAdapter.transaction_id tdata) (Some nano)) in
  (∀ k, (k < 60)%nat →
        SkyTabAdapter.is_complete (Observe.observed device tid k) = false) →
  ∃ err, SkyTabAdapter.startPayment terminalId nano (Js.Returned tdata) device request
         = (Observe.rounds 2000 tid 60, Js.Threw (Errors.PaymentErr err))
         ∧ Errors.name err = "TerminalError"
         ∧ Errors.code err = "TERMINAL_ERROR"
         ∧ Errors.retryable err = false
         ∧ Errors.message err
           = "SkyTab payment failed: Terminal " +:+ terminalId +:+ " timed out".
Proof.
  intros tid Hnone. eexists. split.
  - unfold SkyTabAdapter.startPayment, SkyTabAdapter.pollTransactionStatus. fold tid.
    cbn [default].
    rewrite (poll_from_exhausted terminalId device tid (SkyTabAdapter.sp_amount request)
               SkyTabAdapter.DEFAULT_INTERVAL_MS SkyTabAdapter.DEFAULT_MAX_ATTEMPTS 0).
    + reflexivity.
    + intros j Hj. by apply Hnone.
  - done.
Qed.

Lemma startPayment_poll_timeout_is_not_retryable_witness :
  ∃ err, SkyTabAdapter.startPayment "term_1" "nano_1"
           (Js.Returned {| SkyTabAdapter.transaction_id := Some "tx_9" |})
           Devices.always_pending Devices.sale
         = (Observe.rounds 2000 "tx_9" 60, Js.Threw (Errors.PaymentErr err))
         ∧ Errors.retryable err = false
         ∧ Errors.isRetryableError (Errors.PaymentErr err) = false.
Proof.
  destruct (startPayment_poll_timeout_is_not_retryable "term_1" "nano_1"
              {| SkyTabAdapter.transaction_id := Some "tx_9" |}
              Devices.always_pending Devices.sale)
    as (err & Hrun & _ & _ & Hre & _).
  - intros k _. reflexivity.
  - exists err. split; [exact Hrun|]. split; [exact Hre|]. cbn. exact Hre.
Defined.

(** ** The webhook receiver: refused deliveries, and deliveries after processing *)

Section WebhookDeliveries.
Import Js Errors Db Api WebhookRoute WebhookScenario.


End WebhookDeliveries.

(** A delivery whose body has a type but no usable event id (neither
    [id] nor [eventId] is a non-empty string), or an id but no type, is
    answered 400 "Invalid webhook payload"; nothing is stored for it and no
    run is started. *)
Theorem webhook_without_id_or_type_is_refused
    (db : Db.DB) (t : Db.Time) (body : Db.Payload) :
  Js.is_truthy Js.truthy_string
    (Js.or_else Js.truthy_string (Db.pl_id body) (Db.pl_eventId body)) = false
  ∨ Js.is_truthy Js.truthy_string (Db.pl_type body) = false →
  let d := WebhookRoute.POST db t (Js.Returned body) in
  WebhookRoute.resp d
  = {| Api.status := 400; Api.body := Api.JsonError "INTERNAL_ERROR" "Invalid webhook payload" |}
  ∧ WebhookRoute.db' d = db
  ∧ WebhookRoute.spawned d = None.
Proof.
  intros Hbad. unfold WebhookRoute.POST.
  destruct (Js.or_else _ _ _) as [eid|]; [|done].
  destruct (Db.pl_type body) as [etype|]; [|done].
  cbn in Hbad. by destruct Hbad as [-> | ->]; rewrite ?orb_true_r.
Qed.

Lemma webhook_without_id_or_type_is_refused_witness :
  Api.status (WebhookRoute.resp
                (WebhookRoute.POST Scenario.db1 50 (Js.Returned WebhookFacts.anonymous)))
  = 400
  ∧ WebhookRoute.run (WebhookRoute.boot Scenario.db1)
      [WebhookRoute.Deliver 50 (Js.Returned WebhookFacts.anonymous);
       WebhookRoute.Process 51 None]
    = {| WebhookRoute.s_db := Scenario.db1; WebhookRoute.s_queue := [];
         WebhookRoute.s_acks :=
           [WebhookRoute.resp
              (WebhookRoute.POST Scenario.db1 50 (Js.Returned WebhookFacts.anonymous))];
         WebhookRoute.s_logged := [] |}.
Proof.
  destruct (webhook_without_id_or_type_is_refused Scenario.db1 50 WebhookFacts.anonymous)
    as (Hresp & Hdb & Hsp).
  - by left.
  - split; [by rewrite Hresp|]. by vm_compute.
Defined.





(** ** The handlers: which events can be processed again *)

Section Handlers.
Import Js Errors Db Api WebhookRoute WebhookScenario WebhookFacts.

Lemma updateMany_idem {V} (P : V → bool) (f : V → V) (m : gmap Id V) :
  (∀ x, f (f x) = f x) →
  updateMany P f (updateMany P f m) = updateMany P f m.
Proof.
  intros Hf. unfold updateMany. rewrite <- map_fmap_compose.
  apply map_fmap_ext. intros k x _. cbn.
  destruct (P x) eqn:HP; [|by rewrite HP].
  destruct (P (f x)); by rewrite ?Hf.
Qed.

Lemma dispatch_unhandled eventType data t db :
  eventType ∉ handled → dispatch eventType data t db = Returned db.
Proof.
  intros Hnot. rewrite dispatch_unfold.
  repeat case_decide; try done; exfalso; apply Hnot; subst; unfold handled; set_solver.
Qed.

End Handlers.

(** X7.  Processing again an event of one of the types whose handler only
    rewrites the rows it selects (charge.succeeded, charge.failed,
    charge.captured, charge.refunded, charge.dispute.closed,
    refund.succeeded, refund.failed) gives, at the same clock reading, the
    very store the first processing gave: these handlers are idempotent. *)
Theorem rewriting_events_can_be_processed_again
    (eventType : string) (data : Db.Payload) (t : Db.Time) (db db1 : Db.DB) :
  eventType ∈ WebhookFacts.rewriting →
  WebhookRoute.dispatch eventType data t db = Js.Returned db1 →
  WebhookRoute.dispatch eventType data t db1 = Js.Returned db1.
Proof.
  unfold WebhookFacts.rewriting. rewrite !elem_of_cons, elem_of_nil.
  intros Hty Hd.
  assert (Hidem : ∀ h : Db.DB → Db.DB,
            WebhookRoute.dispatch eventType data t db = Js.Returned (h db) →
            (∀ d, WebhookRoute.dispatch eventType data t d = Js.Returned (h d)) →
            (∀ d, h (h d) = h d) →
            WebhookRoute.dispatch eventType data t db1 = Js.Returned db1).
  { intros h H1 Hall Hh. rewrite Hd in H1. injection H1 as ->. by rewrite Hall, Hh. }
  destruct Hty as [->|[->|[->|[->|[->|[->|[->|[]]]]]]]].
  - apply (Hidem (WebhookRoute.written (WebhookRoute.handleChargeSucceeded data)));
      [done..|].
    intros d. unfold WebhookRoute.written, WebhookRoute.handleChargeSucceeded,
      WebhookRoute.await, WebhookRoute.writes, Db.set_payments.
    cbn -[Db.updateMany]. f_equal. by apply updateMany_idem.
  - apply (Hidem (WebhookRoute.written (WebhookRoute.handleChargeFailed data)));
      [done..|].
    intros d. unfold WebhookRoute.written, WebhookRoute.handleChargeFailed,
      WebhookRoute.await, WebhookRoute.writes, Db.set_payments.
    cbn -[Db.updateMany]. f_equal. by apply updateMany_idem.
  - apply (Hidem (WebhookRoute.written (WebhookRoute.handleChargeCaptured data t)));
      [done..|].
    intros d. unfold WebhookRoute.written, WebhookRoute.handleChargeCaptured,
      WebhookRoute.await, WebhookRoute.writes, Db.set_payments.
    cbn -[Db.updateMany]. f_equal. by apply updateMany_idem.
  - apply (Hidem (WebhookRoute.written (WebhookRoute.handleChargeRefunded data t))).
    + rewrite dispatch_unfold. done.
    + intros d. rewrite dispatch_unfold. done.
    + intros d. unfold WebhookRoute.written, WebhookRoute.handleChargeRefunded, mbind,
        WebhookRoute.run_bind, WebhookRoute.await, WebhookRoute.writes,
        Db.set_payments, Db.set_refunds.
      destruct (Js.is_truthy _ _); cbn -[Db.updateMany]; f_equal; by apply updateMany_idem.
  - apply (Hidem (WebhookRoute.written (WebhookRoute.handleDisputeClosed data t)));
      [done..|].
    intros d. unfold WebhookRoute.written, WebhookRoute.handleDisputeClosed,
      WebhookRoute.await, WebhookRoute.writes, Db.set_disputes.
    cbn -[Db.updateMany]. f_equal. apply updateMany_idem.
    intros x. unfold WebhookRoute.dispute_closed. cbn.
    by destruct (Db.pl_data data ≫= Db.pd_outcome).
  - apply (Hidem (WebhookRoute.written (WebhookRoute.handleRefundSucceeded data t)));
      [done..|].
    intros d. unfold WebhookRoute.written, WebhookRoute.handleRefundSucceeded,
      WebhookRoute.await, WebhookRoute.writes, Db.set_refunds.
    cbn -[Db.updateMany]. f_equal. by apply updateMany_idem.
  - apply (Hidem (WebhookRoute.written (WebhookRoute.handleRefundFailed data)));
      [done..|].
    intros d. unfold WebhookRoute.written, WebhookRoute.handleRefundFailed,
      WebhookRoute.await, WebhookRoute.writes, Db.set_refunds.
    cbn -[Db.updateMany]. f_equal. apply updateMany_idem.
    intros x. unfold WebhookRoute.refund_failed. cbn.
    by destruct (Db.pl_data data ≫= Db.pd_failureMessage).
Qed.

Lemma rewriting_events_can_be_processed_again_witness :
  WebhookRoute.dispatch "charge.failed" WebhookScenario.charge_failed 31
    (WebhookRoute.written (WebhookRoute.handleChargeFailed WebhookScenario.charge_failed)
                          Scenario.db1)
  = Js.Returned
      (WebhookRoute.written (WebhookRoute.handleChargeFailed WebhookScenario.charge_failed)
                            Scenario.db1).
Proof.
  apply (rewriting_events_can_be_processed_again "charge.failed"
           WebhookScenario.charge_failed 31 Scenario.db1).
  - unfold WebhookFacts.rewriting. set_solver.
  - reflexivity.
Defined.

(** X8.  An event whose type the [switch] does not list is not an error:
    its run resolves, the event is marked processed with the time of the
    run, and every other table is left as it was. *)
Theorem unhandled_event_type_is_marked_processed
    (db : Db.DB) (t : Db.Time) (task : WebhookRoute.Task) (ev : Db.WebhookEvent) :
  Db.webhookEvents db !! WebhookRoute.webhookEventId task = Some ev →
  WebhookRoute.t_eventType task ∉ WebhookFacts.handled →
  WebhookRoute.processWebhookEvent db t None task
  = (Db.set_webhookEvents
       (<[WebhookRoute.webhookEventId task := WebhookRoute.mark_processed t ev]>
          (Db.webhookEvents db)) db,
     Js.Returned ()).
Proof.
  intros Hev Hnot.
  rewrite (processWebhookEvent_resolved db t task ev db Hev
             (dispatch_unhandled _ _ _ _ Hnot)).
  do 2 f_equal. apply map_eq. intros i.
  destruct (decide (i = WebhookRoute.webhookEventId task)) as [->|Hne].
  - by rewrite lookup_alter_eq, lookup_insert_eq, Hev.
  - by rewrite lookup_alter_ne, lookup_insert_ne.
Qed.

Lemma unhandled_event_type_is_marked_processed_witness :
  let s := WebhookRoute.run (WebhookRoute.boot Scenario.db1)
             [WebhookRoute.Deliver 60 (Js.Returned WebhookFacts.customer_created);
              WebhookRoute.Process 61 None] in
  WebhookScenario.business (WebhookRoute.s_db s) = WebhookScenario.business Scenario.db1
  ∧ Db.processed <$> Db.webhookEvents (WebhookRoute.s_db s) !! 0%nat = Some true
  ∧ WebhookRoute.s_logged s = [].
Proof.
  pose proof (unhandled_event_type_is_marked_processed
                (WebhookRoute.db' (WebhookRoute.POST Scenario.db1 60
                                     (Js.Returned WebhookFacts.customer_created)))
                61
                {| WebhookRoute.webhookEventId := 0%nat; WebhookRoute.t_eventId := "evt_c1";
                   WebhookRoute.t_eventType := "customer.created" |}
                {| Db.eventId := "evt_c1"; Db.eventType := "customer.created";
                   Db.payload := WebhookFacts.customer_created; Db.processed := false;
                   Db.receivedAt := 60; Db.w_processedAt := None;
                   Db.processingError := None; Db.retryCount := 0 |}
                ltac:(by vm_compute)
                ltac:(unfold WebhookFacts.handled; cbn;
                      rewrite !not_elem_of_cons; repeat split; try done;
                      apply not_elem_of_nil)) as Hrun.
  cbv zeta.
  rewrite (run_deliver_process Scenario.db1 60 61 WebhookFacts.customer_created None
             "evt_c1" "customer.created"
             {| WebhookRoute.webhookEventId := 0%nat; WebhookRoute.t_eventId := "evt_c1";
                WebhookRoute.t_eventType := "customer.created" |});
    [|by vm_compute|by vm_compute].
  cbv zeta. rewrite Hrun. by vm_compute.
Defined.

(** ** The Shift4 adapter: how a failed HTTP exchange is classified *)

(** X9.  [handleError] makes a retryable error exactly of an exchange
    without a response and of the statuses 429, 500, 502, 503 and 504.  The
    error keeps the gateway's HTTP status as its [statusCode], except that
    500, 502, 503 and 504 all become 503, as does a missing response. *)
Theorem handleError_retryable_and_status (error : Shift4Interceptor.AxiosError) :
  (Errors.retryable (Shift4Interceptor.handleError error) = true
   ↔ Shift4Interceptor.ax_response error = None
     ∨ ∃ r, Shift4Interceptor.ax_response error = Some r
            ∧ Shift4Interceptor.er_status r ∈ Shift4Interceptor.retried)
  ∧ (Shift4Interceptor.ax_response error = None →
     Errors.statusCode (Shift4Interceptor.handleError error) = 503)
  ∧ (∀ r, Shift4Interceptor.ax_response error = Some r →
          Errors.statusCode (Shift4Interceptor.handleError error)
          = if bool_decide (Shift4Interceptor.er_status r ∈ Shift4Interceptor.unavailable)
            then 503 else Shift4Interceptor.er_status r).
Proof.
  unfold Shift4Interceptor.handleError, Shift4Interceptor.retried,
    Shift4Interceptor.unavailable.
  destruct (Shift4Interceptor.ax_response error) as [r|].
  2: { cbn. split; [split; [by left|done]|]. split; [done|]. intros r Hr. discriminate Hr. }
  split; [|split; [done|]].
  - repeat case_decide; cbn; split; intros Hr; try done;
      try (right; exists r; split; [done|];
           match goal with Hs : Shift4Interceptor.er_status r = _ |- _ => rewrite Hs end;
           rewrite !elem_of_cons; by intuition).
    all: destruct Hr as [|(r' & [= <-] & Hin)]; [done|];
      rewrite !elem_of_cons, elem_of_nil in Hin; lia.
  - intros r' [= <-].
    case_bool_decide as Hin; rewrite !elem_of_cons, elem_of_nil in Hin;
      repeat case_decide; cbn; lia.
Qed.

(** ** The confirm route: requests that do not end in a captured payment *)

Section ConfirmOutcomes.
Import Js Errors Db Api ConfirmRoute.

Lemma payable_gate order :
  o_status order = OrderStatus.DRAFT ∨ o_status order = OrderStatus.PENDING_PAYMENT →
  negb (bool_decide (o_status order = OrderStatus.DRAFT))
  && negb (bool_decide (o_status order = OrderStatus.PENDING_PAYMENT)) = false.
Proof. by intros [-> | ->]. Qed.

End ConfirmOutcomes.

Lemma handleError_retryable_and_status_witness :
  Errors.retryable (Shift4Interceptor.handleError Shift4Interceptor.bad_gateway) = true
  ∧ Errors.statusCode (Shift4Interceptor.handleError Shift4Interceptor.bad_gateway) = 503
  ∧ Errors.retryable (Shift4Interceptor.handleError Shift4Interceptor.card_declined) = false
  ∧ Errors.statusCode (Shift4Interceptor.handleError Shift4Interceptor.card_declined) = 402.
Proof.
  destruct (handleError_retryable_and_status Shift4Interceptor.bad_gateway)
    as (Hretry & _ & Hstatus).
  destruct (handleError_retryable_and_status Shift4Interceptor.card_declined)
    as (Hretry' & _ & Hstatus').
  split; [|split; [|split]].
  - apply Hretry. right. eexists. split; [reflexivity|].
    unfold Shift4Interceptor.retried. rewrite !elem_of_cons. cbn. lia.
  - by rewrite (Hstatus _ eq_refl).
  - destruct (Errors.retryable
                (Shift4Interceptor.handleError Shift4Interceptor.card_declined)) eqn:Hr;
      [|done].
    destruct (proj1 Hretry' eq_refl) as [Hnone | (r & Hr' & Hin)]; [done|].
    injection Hr' as <-. revert Hin. unfold Shift4Interceptor.retried.
    rewrite !elem_of_cons, elem_of_nil. cbn. lia.
  - by rewrite (Hstatus' _ eq_refl).
Defined.

(** X10.  When the charge request fails (the gateway answers with an HTTP
    error, or does not answer), the confirm route writes nothing: no payment
    row, the order as it was and so still open to payment.  The response is
    [errorResponse] of the error; for a failed HTTP exchange its status is
    the status [handleError] gave the error. *)
Theorem confirm_failed_charge_request_writes_nothing
    (db : Db.DB) (env : Api.Env) (body : ConfirmRoute.ConfirmRequest) (order : Db.Order) :
  Db.orders db !! ConfirmRoute.orderId body = Some order →
  Db.o_status order = Db.OrderStatus.DRAFT
    ∨ Db.o_status order = Db.OrderStatus.PENDING_PAYMENT →
  Js.is_truthy Js.truthy_string (ConfirmRoute.token body) = true →
  (∀ e, let out := ConfirmRoute.POST db env body (Js.Threw e) in
        ConfirmRoute.db' out = db
        ∧ ConfirmRoute.resp out = Api.errorResponse e None
        ∧ List.length (ConfirmRoute.calls out) = 1%nat)
  ∧ (∀ error, let out := ConfirmRoute.POST db env body (Shift4Interceptor.rejected error) in
              Api.status (ConfirmRoute.resp out)
              = Errors.statusCode (Shift4Interceptor.handleError error)
              ∧ Api.body (ConfirmRoute.resp out)
                = Api.JsonError (Errors.code (Shift4Interceptor.handleError error))
                                (Errors.message (Shift4Interceptor.handleError error))).
Proof.
  intros Hord Hst Htok.
  assert (Hall : ∀ e, let out := ConfirmRoute.POST db env body (Js.Threw e) in
            ConfirmRoute.db' out = db
            ∧ ConfirmRoute.resp out = Api.errorResponse e None
            ∧ List.length (ConfirmRoute.calls out) = 1%nat).
  { intros e. unfold ConfirmRoute.POST. rewrite Hord, (payable_gate order Hst).
    unfold Shift4Adapter.createCharge. cbn. by rewrite Htok. }
  split; [exact Hall|].
  intros error. unfold Shift4Interceptor.rejected. cbv zeta.
  by destruct (Hall (Errors.PaymentErr (Shift4Interceptor.handleError error))) as (_ & -> & _).
Qed.

Lemma confirm_failed_charge_request_writes_nothing_witness :
  let out := ConfirmRoute.POST ConfirmScenario.db_draft ConfirmScenario.env
               ConfirmScenario.confirm
               (Shift4Interceptor.rejected Shift4Interceptor.card_declined) in
  ConfirmRoute.db' out = ConfirmScenario.db_draft
  ∧ ConfirmRoute.resp out
    = {| Api.status := 402;
         Api.body := Api.JsonError "CARD_ERROR" "Your card was declined" |}.
Proof.
  destruct (confirm_failed_charge_request_writes_nothing ConfirmScenario.db_draft
              ConfirmScenario.env ConfirmScenario.confirm ConfirmScenario.order_draft)
    as [Hall _].
  - reflexivity.
  - by left.
  - reflexivity.
  - destruct (Hall (Errors.PaymentErr
                      (Shift4Interceptor.handleError Shift4Interceptor.card_declined)))
      as (Hdb & Hresp & _).
    split; [exact Hdb | exact Hresp].
Defined.

(** X11.  A confirm request for a payable order that carries neither a
    (non-empty) token nor a customer id never reaches the gateway:
    [createCharge] throws [InvalidRequestError], the route answers 400 with
    code INVALID_REQUEST and writes nothing. *)
Theorem confirm_without_token_or_customer_is_refused
    (db : Db.DB) (env : Api.Env) (body : ConfirmRoute.ConfirmRequest)
    (gateway : Shift4Adapter.Http Shift4Adapter.ChargeData) (order : Db.Order) :
  Db.orders db !! ConfirmRoute.orderId body = Some order →
  Db.o_status order = Db.OrderStatus.DRAFT
    ∨ Db.o_status order = Db.OrderStatus.PENDING_PAYMENT →
  Js.is_truthy Js.truthy_string (ConfirmRoute.token body) = false →
  Js.is_truthy Js.truthy_string (ConfirmRoute.customerId body) = false →
  let out := ConfirmRoute.POST db env body gateway in
  ConfirmRoute.resp out
  = {| Api.status := 400;
       Api.body := Api.JsonError "INVALID_REQUEST" "Either token or customerId is required" |}
  ∧ ConfirmRoute.calls out = []
  ∧ ConfirmRoute.db' out = db.
Proof.
  intros Hord Hst Htok Hcust. unfold ConfirmRoute.POST.
  rewrite Hord, (payable_gate order Hst).
  unfold Shift4Adapter.createCharge. cbn. by rewrite Htok, Hcust.
Qed.

Lemma confirm_without_token_or_customer_is_refused_witness :
  ConfirmRoute.calls
    (ConfirmRoute.POST ConfirmScenario.db_draft ConfirmScenario.env
       MoreRequests.confirm_without_token
       (Js.Returned (ConfirmScenario.charge "ch_1" "successful"))) = []
  ∧ ConfirmRoute.db'
      (ConfirmRoute.POST ConfirmScenario.db_draft ConfirmScenario.env
         MoreRequests.confirm_without_token
         (Js.Returned (ConfirmScenario.charge "ch_1" "successful")))
    = ConfirmScenario.db_draft.
Proof.
  destruct (confirm_without_token_or_customer_is_refused ConfirmScenario.db_draft
              ConfirmScenario.env MoreRequests.confirm_without_token
              (Js.Returned (ConfirmScenario.charge "ch_1" "successful"))
              ConfirmScenario.order_draft) as (_ & Hcalls & Hdb);
    [reflexivity | by left | reflexivity | reflexivity |].
  split; [exact Hcalls | exact Hdb].
Defined.



(** ** The refunds route: requests that leave no SUCCEEDED refund *)

Section RefundOutcomes.
Import Js Errors Db Api RefundsRoute Ledger.

(** The checks of [POST] before the gateway call, passed. *)
Lemma POST_to_gateway db env body gateway payment :
  payments db !! paymentId body = Some payment →
  p_status payment ≠ PaymentStatus.REFUNDED →
  refundAmount body payment ≤ availableToRefund db (paymentId body) payment →
  methodType payment = MethodType.CARD_ONLINE ∨ methodType payment = MethodType.SAVED_CARD →
  POST db env body gateway
  = match Shift4Adapter.createRefund gateway
            {| Shift4Adapter.rf_chargeId := shift4ChargeId payment;
               Shift4Adapter.rf_amount := refundAmount body payment;
               Shift4Adapter.rf_reason := reason body |} with
    | (sent, Threw e) => {| resp := errorResponse e None; db' := db; calls := sent |}
    | (sent, Returned refundResult) =>
        let '(r, d) := record_refund db env body (paymentId body) payment
                         (refundAmount body payment)
                         (totalRefunded db (paymentId body)) refundResult in
        {| resp := r; db' := d; calls := sent |}
    end.
Proof.
  intros Hpay Hst Hguard Hmeth. unfold POST. rewrite Hpay.
  destruct (decide (p_status payment = _)); [done|].
  unfold availableToRefund in Hguard.
  rewrite bool_decide_eq_false_2 by lia.
  assert (Hm : bool_decide (methodType payment = MethodType.CARD_ONLINE)
               || bool_decide (methodType payment = MethodType.SAVED_CARD) = true).
  { destruct Hmeth as [-> | ->]; done. }
  by rewrite Hm.
Qed.

End RefundOutcomes.

(** X13.  When the refund request to the gateway fails, the refunds route
    writes nothing (no refund row, payment and order as they were) after
    having sent that one request, and answers with [errorResponse] of the
    error; for a failed HTTP exchange the status is the one [handleError]
    gave the error. *)
Theorem refund_failed_gateway_request_writes_nothing
    (db : Db.DB) (env : Api.Env) (body : RefundsRoute.CreateRefundRequest)
    (payment : Db.Payment) :
  Db.payments db !! RefundsRoute.paymentId body = Some payment →
  Db.p_status payment ≠ Db.PaymentStatus.REFUNDED →
  RefundsRoute.refundAmount body payment
    ≤ RefundsRoute.availableToRefund db (RefundsRoute.paymentId body) payment →
  Db.methodType payment = Db.MethodType.CARD_ONLINE
    ∨ Db.methodType payment = Db.MethodType.SAVED_CARD →
  (∀ e, let out := RefundsRoute.POST db env body (Js.Threw e) in
        RefundsRoute.db' out = db
        ∧ RefundsRoute.resp out = Api.errorResponse e None
        ∧ List.length (RefundsRoute.calls out) = 1%nat)
  ∧ (∀ error, Api.status (RefundsRoute.resp
                            (RefundsRoute.POST db env body (Shift4Interceptor.rejected error)))
              = Errors.statusCode (Shift4Interceptor.handleError error)).
Proof.
  intros Hpay Hst Hguard Hmeth.
  assert (Hall : ∀ e, let out := RefundsRoute.POST db env body (Js.Threw e) in
            RefundsRoute.db' out = db
            ∧ RefundsRoute.resp out = Api.errorResponse e None
            ∧ List.length (RefundsRoute.calls out) = 1%nat).
  { intros e. cbv zeta.
    by rewrite (POST_to_gateway db env body (Js.Threw e) payment Hpay Hst Hguard Hmeth). }
  split; [exact Hall|]. intros error. unfold Shift4Interceptor.rejected.
  by destruct (Hall (Errors.PaymentErr (Shift4Interceptor.handleError error))) as (_ & -> & _).
Qed.

Lemma refund_failed_gateway_request_writes_nothing_witness :
  let out := RefundsRoute.POST Scenario.db1 Scenario.env1 (Scenario.refund_of (Some 2000))
               (Shift4Interceptor.rejected Shift4Interceptor.bad_gateway) in
  RefundsRoute.db' out = Scenario.db1
  ∧ Api.status (RefundsRoute.resp out) = 503.
Proof.
  destruct (refund_failed_gateway_request_writes_nothing Scenario.db1 Scenario.env1
              (Scenario.refund_of (Some 2000)) Scenario.payment1) as [Hall Hstatus].
  - reflexivity.
  - done.
  - by vm_compute.
  - by left.
  - split.
    + by destruct (Hall (Errors.PaymentErr
                           (Shift4Interceptor.handleError Shift4Interceptor.bad_gateway)))
        as (Hdb & _).
    + exact (Hstatus Shift4Interceptor.bad_gateway).
Defined.

(** A refund request for a payment taken at a terminal, within the
    remaining balance, is answered 501 "Terminal refunds not yet
    implemented": no gateway request is sent and nothing is written. *)
Theorem refund_of_terminal_payment_is_not_implemented
    (db : Db.DB) (env : Api.Env) (body : RefundsRoute.CreateRefundRequest)
    (gateway : Shift4Adapter.Http Shift4Adapter.RefundData) (payment : Db.Payment) :
  Db.payments db !! RefundsRoute.paymentId body = Some payment →
  Db.p_status payment ≠ Db.PaymentStatus.REFUNDED →
  RefundsRoute.refundAmount body payment
    ≤ RefundsRoute.availableToRefund db (RefundsRoute.paymentId body) payment →
  Db.methodType payment = Db.MethodType.CARD_TERMINAL →
  let out := RefundsRoute.POST db env body gateway in
  RefundsRoute.resp out
  = {| Api.status := 501;
       Api.body := Api.JsonError "INTERNAL_ERROR" "Terminal refunds not yet implemented" |}
  ∧ RefundsRoute.calls out = []
  ∧ RefundsRoute.db' out = db.
Proof.
  intros Hpay Hst Hguard Hmeth. unfold RefundsRoute.POST. rewrite Hpay.
  destruct (decide (Db.p_status payment = _)); [done|].
  unfold RefundsRoute.availableToRefund in Hguard.
  rewrite bool_decide_eq_false_2 by lia. by rewrite Hmeth.
Qed.

Lemma refund_of_terminal_payment_is_not_implemented_witness :
  Api.status (RefundsRoute.resp
                (RefundsRoute.POST MoreRequests.db_terminal Scenario.env1
                   (Scenario.refund_of (Some 2000))
                   (Js.Returned (Scenario.successful "re_1" 2000)))) = 501.
Proof.
  destruct (refund_of_terminal_payment_is_not_implemented MoreRequests.db_terminal
              Scenario.env1 (Scenario.refund_of (Some 2000))
              (Js.Returned (Scenario.successful "re_1" 2000))
              MoreRequests.terminal_payment) as (Hresp & _);
    [reflexivity | done | by vm_compute | reflexivity |].
  by rewrite Hresp.
Defined.



(** ** Refunds settled by webhook *)

Section SettlementFacts.
Import Js Errors Db Api RefundsRoute Ledger Settlement.

Lemma credit_refund_succeeded refundId t pid r :
  credit pid (if where_eq refundId (shift4RefundId r)
              then WebhookRoute.refund_succeeded t r else r)
  = credit pid r + awaiting refundId pid r.
Proof.
  unfold credit, awaiting.
  destruct (where_eq refundId (shift4RefundId r)); cbn;
    repeat case_bool_decide; cbn; try done; lia.
Qed.

Lemma foldl_credit_settled refundId t pid (l : list (Id * Refund)) (a b : Z) :
  foldl (λ sum kr, sum + credit pid kr.2) (a + b)
        (prod_map id (λ r, if where_eq refundId (shift4RefundId r)
                           then WebhookRoute.refund_succeeded t r else r) <$> l)
  = foldl (λ sum kr, sum + credit pid kr.2) a l
    + foldl (λ sum kr, sum + awaiting refundId pid kr.2) b l.
Proof.
  revert a b. induction l as [|[k r] l IH]; intros a b; cbn; [done|].
  rewrite credit_refund_succeeded.
  replace (a + b + (credit pid r + awaiting refundId pid r))
    with ((a + credit pid r) + (b + awaiting refundId pid r)) by lia.
  apply IH.
Qed.

End SettlementFacts.

(** X15.  Processing a [refund.succeeded] event raises the refunded total of
    each payment by the amounts of its refund rows that carry the event's
    refund id and were not SUCCEEDED yet (every such row when the event has
    no refund id), without comparing the new total with the captured
    amount. *)
Theorem refund_succeeded_event_adds_unsettled_refunds
    (data : Db.Payload) (t : Db.Time) (db : Db.DB) :
  ∃ db1, WebhookRoute.dispatch "refund.succeeded" data t db = Js.Returned db1
         ∧ Db.payments db1 = Db.payments db
         ∧ ∀ pid, RefundsRoute.totalRefunded db1 pid
                  = RefundsRoute.totalRefunded db pid
                    + Settlement.awaited db (WebhookRoute.data_id data) pid.
Proof.
  eexists. split; [reflexivity|]. split; [done|]. intros pid.
  rewrite !totalRefunded_credit. unfold WebhookRoute.handleRefundSucceeded. cbn.
  unfold Db.updateMany, Settlement.awaited. rewrite map_to_list_fmap.
  apply (foldl_credit_settled (WebhookRoute.data_id data) t pid _ 0 0).
Qed.

Lemma refund_succeeded_event_adds_unsettled_refunds_witness :
  RefundsRoute.totalRefunded Settlement.two_pending 0%nat = 0
  ∧ RefundsRoute.totalRefunded Settlement.both_settled 0%nat = 6000
  ∧ Db.p_amount Scenario.payment1 = 5000.
Proof.
  destruct (refund_succeeded_event_adds_unsettled_refunds
              (Settlement.refund_succeeded_event "evt_r1" "re_1") 50%Z Settlement.two_pending)
    as (db1 & Hrun1 & _ & Htot1).
  destruct (refund_succeeded_event_adds_unsettled_refunds
              (Settlement.refund_succeeded_event "evt_r2" "re_2") 51%Z db1)
    as (db2 & Hrun2 & _ & Htot2).
  assert (Hdb1 : db1 = WebhookRoute.written
                         (WebhookRoute.handleRefundSucceeded
                            (Settlement.refund_succeeded_event "evt_r1" "re_1") 50)
                         Settlement.two_pending).
  { rewrite dispatch_unfold in Hrun1. by injection Hrun1 as <-. }
  subst db1.
  assert (Hdb2 : db2 = Settlement.both_settled).
  { rewrite dispatch_unfold in Hrun2. by injection Hrun2 as <-. }
  subst db2.
  split; [by vm_compute|]. split; [|done].
  rewrite Htot2, Htot1. by vm_compute.
Defined.

(** ** payments/errors.ts: conversion to [PaymentError] *)

(** X16.  [toPaymentError] hands a [PaymentError] back as it is, so
    converting twice is converting once; any other value becomes a
    [PaymentError] that [isRetryableError] judges not retryable.  A
    connection error that [isRetryableError] accepts by its message is
    therefore no longer retryable once converted. *)
Theorem toPaymentError_retryable_only_for_payment_errors (e : Errors.JsError) :
  Errors.toPaymentError (Errors.PaymentErr (Errors.toPaymentError e)) = Errors.toPaymentError e
  ∧ (Errors.isRetryableError (Errors.PaymentErr (Errors.toPaymentError e)) = true
     ↔ ∃ p, e = Errors.PaymentErr p ∧ Errors.retryable p = true)
  ∧ (Errors.isRetryableError (Errors.PaymentErr (Errors.toPaymentError e)) = true
     → Errors.isRetryableError e = true).
Proof.
  split; [done|]. split; [split|].
  - destruct e as [p| | |]; cbn; try done. intros Hp. by exists p.
  - by intros (p & -> & Hp).
  - by destruct e.
Qed.

Lemma toPaymentError_retryable_only_for_payment_errors_witness :
  Errors.isRetryableError (Errors.PlainErr "connect ECONNREFUSED 10.0.0.5:8080") = true
  ∧ ¬ Errors.isRetryableError
        (Errors.PaymentErr
           (Errors.toPaymentError (Errors.PlainErr "connect ECONNREFUSED 10.0.0.5:8080"))) = true.
Proof.
  split; [by vm_compute|]. intros Hre.
  destruct (toPaymentError_retryable_only_for_payment_errors
              (Errors.PlainErr "connect ECONNREFUSED 10.0.0.5:8080")) as (_ & [Hto _] & _).
  by destruct (Hto Hre) as (p & Hp & _).
Defined.

(** ** The terminal routes *)

Section TerminalFacts.
Import Js Errors Db Api Terminals TerminalMachine.

Lemma createClient_threw penv id terminal e :
  createClient penv id terminal = Threw e → ∃ m, e = PlainErr m.
Proof.
  unfold createClient, createUTGAdapter, createSkyTabAdapter.
  repeat case_decide; repeat (destruct (negb _ || negb _) || destruct (negb _));
    intros [= <-]; by eexists.
Qed.

(** A row created under a key the table did not have is the one
    [findFirst] gives, when no row satisfied the test before. *)
Lemma findFirst_create {V} (P : V → bool) (m : gmap Id V) row :
  findFirst P m = None → P row = true →
  findFirst P (create m row).2 = Some (fresh (dom m), row).
Proof.
  intros Hnone HP. cbn. apply findFirst_only; [apply lookup_insert_eq | done |].
  intros k' v' Hlook HP'.
  destruct (decide (k' = fresh (dom m))) as [|Hne]; [done|].
  rewrite lookup_insert_ne in Hlook by done.
  by rewrite (findFirst_None P m k' v' Hnone Hlook) in HP'.
Qed.

Lemma sole_row_findFirst st tid k row :
  sole_row st tid k row →
  findFirst (λ r, bool_decide (tt_transactionId r = tid)) (terminalTransactions st)
  = Some (k, row).
Proof.
  intros (Hlook & Htid & Honly). apply findFirst_only; [done | by apply bool_decide_eq_true_2 |].
  intros k' v' Hlook' HP. apply bool_decide_eq_true_1 in HP. by apply (Honly k' v').
Qed.

(** Rewriting the row of a transaction without touching its id keeps it
    the one row of that id. *)
Lemma sole_row_alter st tid k row f :
  sole_row st tid k row →
  (∀ r, tt_transactionId (f r) = tt_transactionId r) →
  sole_row (set_terminalTransactions (alter f k (terminalTransactions st)) st) tid k (f row).
Proof.
  intros (Hlook & Htid & Honly) Hf. split; [|split].
  - cbn. by rewrite lookup_alter_eq, Hlook.
  - by rewrite Hf.
  - cbn. intros k' row' Hlook' Htid'.
    destruct (decide (k' = k)) as [|Hne]; [done|].
    rewrite lookup_alter_ne in Hlook' by done. by apply (Honly k' row').
Qed.

Lemma payment_of_none st tid :
  no_payment_of st tid → TerminalStatusRoute.payment_of st tid = None.
Proof.
  intros Hnone. unfold TerminalStatusRoute.payment_of.
  destruct (List.filter _ _) as [|[pid p] l] eqn:Hf; [done|]. exfalso.
  assert (Hin : In (pid, p)
                   (List.filter (λ kp : Id * Payment,
                        bool_decide (payment_transactionId st !! kp.1 = Some tid))
                      (map_to_list (payments (Terminals.db st))))).
  { rewrite Hf. by left. }
  apply filter_In in Hin as [_ HP]. apply bool_decide_eq_true_1 in HP.
  by apply (Hnone pid).
Qed.


(** The transaction row an accepted payment request writes. *)
Lemma POST_accepted_row st env penv body terminal order client :
  terminals st !! TerminalPayRoute.terminalId body = Some terminal →
  t_status terminal = "ACTIVE" →
  orders (Terminals.db st) !! TerminalPayRoute.orderId body = Some order →
  createClient penv (TerminalPayRoute.terminalId body) terminal = Returned client →
  findFirst (λ r, bool_decide (tt_transactionId r = nanoid env))
            (terminalTransactions st) = None →
  let out := TerminalPayRoute.POST st env penv body in
  ∃ k row, sole_row (TerminalPayRoute.st' out) (nanoid env) k row
           ∧ terminalTransactions st !! k = None
           ∧ TerminalPayRoute.st' out
             = set_terminalTransactions (<[k := row]> (terminalTransactions st)) st
           ∧ tt_amount row = TerminalPayRoute.amount body
           ∧ approved row = None
           ∧ completedAt row = None
           ∧ tt_responseCode row = None
           ∧ tt_responseMessage row = None.
Proof.
  intros Ht Hactive Ho Hc Hfresh. cbv zeta. unfold TerminalPayRoute.POST.
  rewrite Ht, Hactive, Ho, Hc, Hfresh.
  rewrite bool_decide_eq_true_2 by done. cbn [negb TerminalPayRoute.st'].
  set (row := {| tt_terminalId := TerminalPayRoute.terminalId body |}).
  exists (fresh (dom (terminalTransactions st))), row.
  split; [|split; [apply not_elem_of_dom, is_fresh | done]].
  split; [apply lookup_insert_eq|]. split; [done|].
  intros k' row' Hlook Htid.
  destruct (decide (k' = fresh (dom (terminalTransactions st)))) as [|Hne]; [done|].
  cbn in Hlook. rewrite lookup_insert_ne in Hlook by done.
  pose proof (findFirst_None _ _ k' row' Hfresh Hlook) as HP.
  cbn beta in HP. by apply bool_decide_eq_false_1 in HP.
Qed.

End TerminalFacts.

(** X17.  A terminal payment request that names no known terminal, a
    terminal whose status is not ACTIVE, no known order, or a terminal
    whose adapter is not configured is answered with an error (400, 404 or
    500): no transaction row is written, nothing else changes, and no
    payment is started on a device. *)
Theorem terminal_pay_refused_writes_nothing
    (st : Terminals.Store) (env : Api.Env) (penv : Terminals.ProcessEnv)
    (body : TerminalPayRoute.TerminalPayRequest) :
  Terminals.terminals st !! TerminalPayRoute.terminalId body = None
  ∨ (∃ t, Terminals.terminals st !! TerminalPayRoute.terminalId body = Some t
          ∧ Terminals.t_status t ≠ "ACTIVE")
  ∨ Db.orders (Terminals.db st) !! TerminalPayRoute.orderId body = None
  ∨ (∃ t e, Terminals.terminals st !! TerminalPayRoute.terminalId body = Some t
            ∧ Terminals.createClient penv (TerminalPayRoute.terminalId body) t = Js.Threw e) →
  let out := TerminalPayRoute.POST st env penv body in
  TerminalPayRoute.spawned out = None
  ∧ TerminalPayRoute.st' out = st
  ∧ ∃ r, TerminalPayRoute.resp out = Terminals.Failure r
         ∧ (Api.status r = 400 ∨ Api.status r = 404 ∨ Api.status r = 500).
Proof.
  intros Hcause. cbv zeta. unfold TerminalPayRoute.POST.
  destruct (Terminals.terminals st !! TerminalPayRoute.terminalId body) as [t|] eqn:Ht.
  2:{ repeat split. eexists. split; [done|]. cbn. by right; left. }
  case_bool_decide as Hactive; cbn [negb].
  2:{ repeat split. eexists. split; [done|]. cbn. by left. }
  destruct (Db.orders (Terminals.db st) !! TerminalPayRoute.orderId body) as [o|] eqn:Ho.
  2:{ repeat split. eexists. split; [done|]. cbn. by right; left. }
  destruct (Terminals.createClient penv (TerminalPayRoute.terminalId body) t) as [c|e] eqn:Hc.
  2:{ destruct (createClient_threw _ _ _ _ Hc) as [m ->].
      repeat split. eexists. split; [done|]. cbn. by right; right. }
  exfalso. destruct Hcause as [? | [(t' & Ht' & Hs) | [? | (t' & e & Ht' & He)]]];
    try done; congruence.
Qed.

Lemma terminal_pay_refused_writes_nothing_witness :
  let out := TerminalPayRoute.POST TerminalScenario.in_maintenance TerminalScenario.env_pay
               TerminalScenario.penv TerminalScenario.pay in
  TerminalPayRoute.spawned out = None
  ∧ TerminalPayRoute.st' out = TerminalScenario.in_maintenance.
Proof.
  destruct (terminal_pay_refused_writes_nothing TerminalScenario.in_maintenance
              TerminalScenario.env_pay TerminalScenario.penv TerminalScenario.pay)
    as (Hspawn & Hst & _).
  - right; left. eexists. split; [reflexivity|]. done.
  - by split.
Defined.

(** X18.  A terminal payment request for an ACTIVE terminal with a
    configured adapter and a known order is accepted whatever the status
    of the order and whatever the amount: it is answered 200 with a fresh
    transaction id and status "pending", starts the payment on the device
    with the amount of the request, and writes one transaction row and
    nothing else.  The status endpoint then reports the transaction as
    "pending", without result and without error. *)
Theorem terminal_pay_accepted_is_pending
    (st : Terminals.Store) (env : Api.Env) (penv : Terminals.ProcessEnv)
    (body : TerminalPayRoute.TerminalPayRequest)
    (terminal : Terminals.Terminal) (order : Db.Order) (client : Terminals.TerminalClient) :
  Terminals.terminals st !! TerminalPayRoute.terminalId body = Some terminal →
  Terminals.t_status terminal = "ACTIVE" →
  Db.orders (Terminals.db st) !! TerminalPayRoute.orderId body = Some order →
  Terminals.createClient penv (TerminalPayRoute.terminalId body) terminal = Js.Returned client →
  Db.findFirst (λ r, bool_decide (Terminals.tt_transactionId r = Api.nanoid env))
               (Terminals.terminalTransactions st) = None →
  let out := TerminalPayRoute.POST st env penv body in
  TerminalPayRoute.resp out
  = Terminals.Success 200 {| TerminalPayRoute.pd_transactionId := Api.nanoid env;
                             TerminalPayRoute.pd_status := "pending" |}
  ∧ (∃ task, TerminalPayRoute.spawned out = Some task
             ∧ TerminalPayRoute.client task = client
             ∧ TerminalPayRoute.t_transactionId task = Api.nanoid env
             ∧ TerminalPayRoute.sp_amount (TerminalPayRoute.request task)
               = TerminalPayRoute.amount body)
  ∧ Terminals.db (TerminalPayRoute.st' out) = Terminals.db st
  ∧ Terminals.terminals (TerminalPayRoute.st' out) = Terminals.terminals st
  ∧ (∃ k row, TerminalMachine.sole_row (TerminalPayRoute.st' out) (Api.nanoid env) k row
              ∧ Terminals.terminalTransactions st !! k = None
              ∧ Terminals.terminalTransactions (TerminalPayRoute.st' out)
                = <[k := row]> (Terminals.terminalTransactions st)
              ∧ Terminals.tt_amount row = TerminalPayRoute.amount body
              ∧ Terminals.tt_responseCode row = None)
  ∧ TerminalStatusRoute.GET (TerminalPayRoute.st' out) (Api.nanoid env)
    = Terminals.Success 200
        {| TerminalStatusRoute.sd_transactionId := Api.nanoid env;
           TerminalStatusRoute.sd_status := "pending";
           TerminalStatusRoute.sd_approved := None;
           TerminalStatusRoute.sd_result := None;
           TerminalStatusRoute.sd_error := None |}.
Proof.
  intros Ht Hactive Ho Hc Hfresh. cbv zeta. unfold TerminalPayRoute.POST.
  rewrite Ht, Hactive, Ho, Hc, Hfresh. cbn [negb bool_decide decide_rel].
  rewrite bool_decide_eq_true_2 by done. cbn [negb].
  cbn [TerminalPayRoute.resp TerminalPayRoute.st' TerminalPayRoute.spawned].
  split; [done|]. split; [by eexists|]. split; [done|]. split; [done|].
  set (row := {| Terminals.tt_terminalId := TerminalPayRoute.terminalId body |}).
  pose proof (findFirst_create _ (Terminals.terminalTransactions st) row Hfresh
                (bool_decide_eq_true_2 _ eq_refl)) as Hfound.
  split.
  - exists (fresh (dom (Terminals.terminalTransactions st))), row.
    split; [|split; [apply not_elem_of_dom, is_fresh | done]].
    split; [apply lookup_insert_eq|]. split; [done|].
    intros k' row' Hlook Htid.
    destruct (decide (k' = fresh (dom (Terminals.terminalTransactions st)))) as [|Hne];
      [done|].
    cbn in Hlook. rewrite lookup_insert_ne in Hlook by done.
    pose proof (findFirst_None _ _ k' row' Hfresh Hlook) as HP.
    cbn beta in HP. by apply bool_decide_eq_false_1 in HP.
  - unfold TerminalStatusRoute.GET.
    cbn [Terminals.terminalTransactions Terminals.set_terminalTransactions].
    rewrite Hfound. cbn. done.
Qed.

Lemma terminal_pay_accepted_is_pending_witness :
  TerminalPayRoute.resp TerminalScenario.started
  = Terminals.Success 200 {| TerminalPayRoute.pd_transactionId := "tx_1";
                             TerminalPayRoute.pd_status := "pending" |}
  ∧ Terminals.db (TerminalPayRoute.st' TerminalScenario.started) = ConfirmScenario.db_draft
  ∧ Terminals.reply_status
      (TerminalStatusRoute.GET (TerminalPayRoute.st' TerminalScenario.started) "tx_1") = 200.
Proof.
  destruct (terminal_pay_accepted_is_pending TerminalScenario.store0 TerminalScenario.env_pay
              TerminalScenario.penv TerminalScenario.pay TerminalScenario.counter
              ConfirmScenario.order_draft (Terminals.SkyTabClient 0%nat "dev_1"))
    as (Hresp & _ & Hdb & _ & _ & Hget);
    [reflexivity | reflexivity | reflexivity | reflexivity | reflexivity |].
  split; [exact Hresp|]. split; [exact Hdb|].
  change (TerminalPayRoute.st' TerminalScenario.started)
    with (TerminalPayRoute.st' (TerminalPayRoute.POST TerminalScenario.store0
            TerminalScenario.env_pay TerminalScenario.penv TerminalScenario.pay)).
  change "tx_1" with (Api.nanoid TerminalScenario.env_pay).
  by rewrite Hget.
Defined.

Section TerminalSettle.
Import Js Errors Db Api Terminals TerminalMachine TerminalPayRoute.

Lemma completed_transactionId t result r :
  tt_transactionId (completed t result r) = tt_transactionId r.
Proof. done. Qed.

Lemma failed_transactionId t e r :
  tt_transactionId (failed t e r) = tt_transactionId r.
Proof. done. Qed.

(** The [then] handler, when the transaction has its row. *)
Lemma update_transaction_sole st tid k row f :
  sole_row st tid k row →
  update_transaction tid f st
  = Returned (set_terminalTransactions (alter f k (terminalTransactions st)) st).
Proof. intros Hsole. unfold update_transaction. by rewrite (sole_row_findFirst _ _ _ _ Hsole). Qed.

(** What the status endpoint answers for the one row of a transaction. *)
Lemma GET_sole st tid k row :
  sole_row st tid k row →
  TerminalStatusRoute.GET st tid
  = Success 200
      {| TerminalStatusRoute.sd_transactionId := tid;
         TerminalStatusRoute.sd_status := TerminalStatusRoute.status_of row;
         TerminalStatusRoute.sd_approved := approved row;
         TerminalStatusRoute.sd_result :=
           if default false (approved row)
           then TerminalStatusRoute.payment_of st tid else None;
         TerminalStatusRoute.sd_error :=
           if default false (approved row) then None else tt_responseMessage row |}.
Proof.
  intros Hsole. unfold TerminalStatusRoute.GET.
  by rewrite (sole_row_findFirst _ _ _ _ Hsole).
Qed.


End TerminalSettle.



(** X20.  When the adapter fails to carry out a terminal payment (the
    terminal is offline, the adapter times out, or any other error), the
    settling writes no payment and leaves the order as it was, and the
    status endpoint reports the transaction as "declined" (not as "timeout"
    or "error") with the message of the error. *)
Theorem failed_terminal_payment_is_reported_declined
    (st : Terminals.Store) (env : Api.Env) (task : TerminalPayRoute.Task)
    (e : Errors.JsError) (k : Db.Id) (row : Terminals.TerminalTransaction) :
  TerminalMachine.sole_row st (TerminalPayRoute.t_transactionId task) k row →
  Terminals.tt_responseCode row = None →
  let st2 := TerminalPayRoute.settle st env task (Js.Threw e) in
  Terminals.db st2 = Terminals.db st
  ∧ TerminalStatusRoute.GET st2 (TerminalPayRoute.t_transactionId task)
    = Terminals.Success 200
        {| TerminalStatusRoute.sd_transactionId := TerminalPayRoute.t_transactionId task;
           TerminalStatusRoute.sd_status := "declined";
           TerminalStatusRoute.sd_approved := Some false;
           TerminalStatusRoute.sd_result := None;
           TerminalStatusRoute.sd_error :=
             match TerminalPayRoute.error_message e with
             | Some m => Some m
             | None => Terminals.tt_responseMessage row
             end |}.
Proof.
  intros Hsole Hcode. cbv zeta.
  unfold TerminalPayRoute.settle, TerminalPayRoute.on_error.
  rewrite (update_transaction_sole _ _ _ _ _ Hsole). split; [done|].
  rewrite (GET_sole _ _ k (TerminalPayRoute.failed (Api.now env) e row)).
  2:{ apply sole_row_alter; [done | apply failed_transactionId]. }
  unfold TerminalStatusRoute.status_of. cbn. by rewrite Hcode.
Qed.

Lemma failed_terminal_payment_is_reported_declined_witness :
  let st1 := TerminalPayRoute.st' (TerminalPayRoute.POST TerminalScenario.store0
               TerminalScenario.env_pay TerminalScenario.penv TerminalScenario.pay) in
  let outcome := (SkyTabAdapter.startPayment "term_1" "n_1"
                    (Js.Returned {| SkyTabAdapter.transaction_id := Some "dev_tx_1" |})
                    Devices.always_pending Devices.sale).2 in
  let st2 := TerminalPayRoute.settle st1 TerminalScenario.env_done TerminalScenario.task1
               outcome in
  TerminalStatusRoute.GET st2 "tx_1"
  = Terminals.Success 200
      {| TerminalStatusRoute.sd_transactionId := "tx_1";
         TerminalStatusRoute.sd_status := "declined";
         TerminalStatusRoute.sd_approved := Some false;
         TerminalStatusRoute.sd_result := None;
         TerminalStatusRoute.sd_error :=
           Some "SkyTab payment failed: Terminal term_1 timed out" |}.
Proof.
  intros st1 outcome st2.
  destruct (POST_accepted_row TerminalScenario.store0 TerminalScenario.env_pay
              TerminalScenario.penv TerminalScenario.pay TerminalScenario.counter
              ConfirmScenario.order_draft (Terminals.SkyTabClient 0%nat "dev_1"))
    as (k & row & Hsole & _ & _ & _ & _ & _ & Hcode & _);
    [reflexivity | reflexivity | reflexivity | reflexivity | reflexivity |].
  assert (Hout : outcome
                 = Js.Threw (Errors.PaymentErr
                     (Errors.TerminalError
                        "SkyTab payment failed: Terminal term_1 timed out"
                        (Some "term_1") None))) by (by vm_compute).
  subst st2. rewrite Hout.
  destruct (failed_terminal_payment_is_reported_declined st1 TerminalScenario.env_done
              TerminalScenario.task1
              (Errors.PaymentErr
                 (Errors.TerminalError "SkyTab payment failed: Terminal term_1 timed out"
                                       (Some "term_1") None))
              k row Hsole Hcode) as [_ Hget].
  exact Hget.
Defined.

(** X21.  An approved terminal payment whose payment row cannot be
    written (the result carries no total amount, or the order is gone) is
    taken back: the [catch] handler overwrites the approval, no payment row
    exists, the order is as it was, and the status endpoint does not report
    the transaction as approved but gives the message of the database
    error. *)
Theorem approved_terminal_payment_is_taken_back_when_not_stored
    (st : Terminals.Store) (env : Api.Env) (task : TerminalPayRoute.Task)
    (result : SkyTabAdapter.PaymentResult) (k : Db.Id)
    (row : Terminals.TerminalTransaction) :
  TerminalMachine.sole_row st (TerminalPayRoute.t_transactionId task) k row →
  SkyTabAdapter.r_approved result = true →
  SkyTabAdapter.totalAmount result = None
  ∨ Db.orders (Terminals.db st) !! TerminalPayRoute.orderId (TerminalPayRoute.t_body task)
    = None →
  let st2 := TerminalPayRoute.settle st env task (Js.Returned result) in
  Terminals.db st2 = Terminals.db st
  ∧ ∃ data, TerminalStatusRoute.GET st2 (TerminalPayRoute.t_transactionId task)
            = Terminals.Success 200 data
            ∧ TerminalStatusRoute.sd_status data ≠ "approved"
            ∧ TerminalStatusRoute.sd_status data ≠ "pending"
            ∧ TerminalStatusRoute.sd_approved data = Some false
            ∧ TerminalStatusRoute.sd_result data = None
            ∧ (TerminalStatusRoute.sd_error data
               = Some TerminalPayRoute.prisma_missing_amount
               ∨ TerminalStatusRoute.sd_error data
                 = Some TerminalPayRoute.prisma_foreign_key).
Proof.
  intros Hsole Happroved Hcause. cbv zeta.
  pose proof (sole_row_alter st _ k row
                (TerminalPayRoute.completed (Api.now env) result) Hsole
                (completed_transactionId _ _)) as Hsole1.
  assert (Hthrown : ∃ e, (e = Errors.PlainErr TerminalPayRoute.prisma_missing_amount
                          ∨ e = Errors.PlainErr TerminalPayRoute.prisma_foreign_key)
            ∧ TerminalPayRoute.on_result st env task result
              = (Terminals.set_terminalTransactions
                   (alter (TerminalPayRoute.completed (Api.now env) result) k
                      (Terminals.terminalTransactions st)) st, Some e)).
  { unfold TerminalPayRoute.on_result.
    rewrite (update_transaction_sole _ _ _ _ _ Hsole), Happroved.
    cbn [Terminals.db Terminals.set_terminalTransactions].
    destruct Hcause as [-> | ->].
    - eexists. split; [by left|done].
    - destruct (SkyTabAdapter.totalAmount result);
        eexists; (split; [|reflexivity]); [by right | by left]. }
  unfold TerminalPayRoute.settle.
  destruct Hthrown as (e & He & ->).
  unfold TerminalPayRoute.on_error.
  rewrite (update_transaction_sole _ _ _ _ _ Hsole1). split; [done|].
  rewrite (GET_sole _ _ k (TerminalPayRoute.failed (Api.now env) e
                             (TerminalPayRoute.completed (Api.now env) result row))).
  2:{ apply sole_row_alter; [done | apply failed_transactionId]. }
  eexists. split; [reflexivity|].
  unfold TerminalStatusRoute.status_of. cbn.
  split; [by repeat case_decide|]. split; [by repeat case_decide|].
  split; [done|]. split; [done|].
  destruct He as [-> | ->]; cbn; [by left | by right].
Qed.

Lemma approved_terminal_payment_is_taken_back_when_not_stored_witness :
  let st1 := TerminalPayRoute.st' (TerminalPayRoute.POST TerminalScenario.store0
               TerminalScenario.env_pay TerminalScenario.penv TerminalScenario.pay) in
  let result := SkyTabAdapter.parseTransactionData (Observe.reading "approved") "dev_tx_1" in
  let st2 := TerminalPayRoute.settle st1 TerminalScenario.env_done TerminalScenario.task1
               (Js.Returned result) in
  SkyTabAdapter.r_approved result = true
  ∧ Terminals.db st2 = Terminals.db st1
  ∧ ∃ data, TerminalStatusRoute.GET st2 "tx_1" = Terminals.Success 200 data
            ∧ TerminalStatusRoute.sd_approved data = Some false.
Proof.
  intros st1 result st2.
  destruct (POST_accepted_row TerminalScenario.store0 TerminalScenario.env_pay
              TerminalScenario.penv TerminalScenario.pay TerminalScenario.counter
              ConfirmScenario.order_draft (Terminals.SkyTabClient 0%nat "dev_1"))
    as (k & row & Hsole & _);
    [reflexivity | reflexivity | reflexivity | reflexivity | reflexivity |].
  destruct (approved_terminal_payment_is_taken_back_when_not_stored st1
              TerminalScenario.env_done TerminalScenario.task1 result k row Hsole)
    as (Hdb & data & Hget & _ & _ & Happroved & _).
  - reflexivity.
  - by left.
  - split; [reflexivity|]. split; [exact Hdb|]. by exists data.
Defined.

Section TerminalRefunds.
Import Js Errors Db Api Terminals TerminalMachine TerminalPayRoute.

(** The payments table after a settling: as it was, or with one more
    row, that of an approved result. *)
Lemma settle_payments st env task outcome :
  payments (Terminals.db (settle st env task outcome)) = payments (Terminals.db st)
  ∨ ∃ a result,
      payments (Terminals.db (settle st env task outcome))
      = <[fresh (dom (payments (Terminals.db st))) := terminal_payment env task a result]>
          (payments (Terminals.db st)).
Proof.
  assert (Herr : ∀ st0 e, Terminals.db (on_error st0 env task e) = Terminals.db st0).
  { intros st0 e. unfold on_error, update_transaction.
    by destruct (findFirst _ _) as [[? ?]|]. }
  unfold settle. destruct outcome as [result|e]; [|left; by rewrite Herr].
  unfold on_result, update_transaction.
  destruct (findFirst _ _) as [[k r]|]; [|left; by rewrite Herr].
  destruct (SkyTabAdapter.r_approved result); [|by left].
  cbn [Terminals.db set_terminalTransactions].
  destruct (SkyTabAdapter.totalAmount result) as [a|]; [|left; by rewrite Herr].
  destruct (orders (Terminals.db st) !! orderId (t_body task)); [|left; by rewrite Herr].
  destruct (charge_reference_taken _ _); [left; by rewrite Herr|].
  right. by exists a, result.
Qed.

(** A refund request for a payment taken at a terminal. *)
Lemma POST_refund_terminal db env body gateway payment :
  payments db !! RefundsRoute.paymentId body = Some payment →
  methodType payment = MethodType.CARD_TERMINAL →
  let out := RefundsRoute.POST db env body gateway in
  RefundsRoute.calls out = [] ∧ RefundsRoute.db' out = db
  ∧ (Api.status (RefundsRoute.resp out) = 400 ∨ Api.status (RefundsRoute.resp out) = 501).
Proof.
  intros Hpay Hmeth. cbv zeta. unfold RefundsRoute.POST. rewrite Hpay, Hmeth.
  destruct (decide (p_status payment = _)); [by repeat split; left|].
  case_bool_decide; [by repeat split; left|]. cbn. by repeat split; right.
Qed.

End TerminalRefunds.

(** X22.  Every payment row that the settling of a terminal payment adds is
    CAPTURED and of method CARD_TERMINAL, and the refunds route never
    refunds such a payment: any refund request for it is answered 400 or
    501 (501 "Terminal refunds not yet implemented" whenever the amount is
    within the balance), no request is sent to the gateway and nothing is
    written. *)
Theorem terminal_payment_cannot_be_refunded
    (st : Terminals.Store) (env : Api.Env) (task : TerminalPayRoute.Task)
    (outcome : Js.Completion Errors.JsError SkyTabAdapter.PaymentResult)
    (pid : Db.Id) (payment : Db.Payment) :
  let st2 := TerminalPayRoute.settle st env task outcome in
  Db.payments (Terminals.db st) !! pid = None →
  Db.payments (Terminals.db st2) !! pid = Some payment →
  Db.methodType payment = Db.MethodType.CARD_TERMINAL
  ∧ Db.p_status payment = Db.PaymentStatus.CAPTURED
  ∧ ∀ env' body gateway,
      RefundsRoute.paymentId body = pid →
      let out := RefundsRoute.POST (Terminals.db st2) env' body gateway in
      RefundsRoute.calls out = []
      ∧ RefundsRoute.db' out = Terminals.db st2
      ∧ (Api.status (RefundsRoute.resp out) = 400
         ∨ Api.status (RefundsRoute.resp out) = 501)
      ∧ (RefundsRoute.refundAmount body payment
           ≤ RefundsRoute.availableToRefund (Terminals.db st2) pid payment →
         RefundsRoute.resp out
         = {| Api.status := 501;
              Api.body := Api.JsonError "INTERNAL_ERROR"
                                        "Terminal refunds not yet implemented" |}).
Proof.
  intros st2 Hnew Hrow.
  assert (Hmeth : Db.methodType payment = Db.MethodType.CARD_TERMINAL
                  ∧ Db.p_status payment = Db.PaymentStatus.CAPTURED).
  { destruct (settle_payments st env task outcome) as [Hsame | (a & result & Hadd)].
    - fold st2 in Hsame. rewrite Hsame in Hrow. congruence.
    - fold st2 in Hadd. rewrite Hadd in Hrow.
      destruct (decide (pid = fresh (dom (Db.payments (Terminals.db st))))) as [->|Hne].
      + rewrite lookup_insert_eq in Hrow. by injection Hrow as <-.
      + rewrite lookup_insert_ne in Hrow by done. congruence. }
  destruct Hmeth as [Hmeth Hstatus]. split; [done|]. split; [done|].
  intros env' body gateway Hpid. cbv zeta.
  destruct (POST_refund_terminal (Terminals.db st2) env' body gateway payment)
    as (Hcalls & Hdb & Hcode); [by rewrite Hpid | done |].
  do 3 (split; [done|]). intros Hwithin.
  unfold RefundsRoute.POST. rewrite Hpid, Hrow, Hstatus, Hmeth.
  unfold RefundsRoute.availableToRefund in Hwithin.
  rewrite decide_False by done. by rewrite bool_decide_eq_false_2 by lia.
Qed.

Lemma terminal_payment_cannot_be_refunded_witness :
  let st1 := TerminalPayRoute.st' (TerminalPayRoute.POST TerminalScenario.store0
               TerminalScenario.env_pay TerminalScenario.penv TerminalScenario.pay) in
  let st2 := TerminalPayRoute.settle st1 TerminalScenario.env_done TerminalScenario.task1
               (Js.Returned (SkyTabAdapter.parseTransactionData Devices.approval "dev_tx_1")) in
  let out := RefundsRoute.POST (Terminals.db st2) Scenario.env3
               (Scenario.refund_of (Some 2000))
               (Js.Returned (Scenario.successful "re_1" 2000)) in
  RefundsRoute.calls out = [] ∧ Api.status (RefundsRoute.resp out) = 501.
Proof.
  intros st1 st2 out.
  destruct (terminal_payment_cannot_be_refunded st1 TerminalScenario.env_done
              TerminalScenario.task1
              (Js.Returned (SkyTabAdapter.parseTransactionData Devices.approval "dev_tx_1"))
              0%nat
              (TerminalPayRoute.terminal_payment TerminalScenario.env_done
                 TerminalScenario.task1 5500
                 (SkyTabAdapter.parseTransactionData Devices.approval "dev_tx_1")))
    as (_ & _ & Hrefund).
  - reflexivity.
  - by vm_compute.
  - destruct (Hrefund Scenario.env3 (Scenario.refund_of (Some 2000))
                (Js.Returned (Scenario.successful "re_1" 2000)) eq_refl)
      as (Hcalls & _ & _ & Hresp).
    split; [exact Hcalls|].
    assert (Hwithin : RefundsRoute.refundAmount (Scenario.refund_of (Some 2000))
                        (TerminalPayRoute.terminal_payment TerminalScenario.env_done
                           TerminalScenario.task1 5500
                           (SkyTabAdapter.parseTransactionData Devices.approval "dev_tx_1"))
                      ≤ RefundsRoute.availableToRefund
                          (Terminals.db
                             (TerminalPayRoute.settle st1 TerminalScenario.env_done
                                TerminalScenario.task1
                                (Js.Returned
                                   (SkyTabAdapter.parseTransactionData Devices.approval
                                      "dev_tx_1"))))
                          0%nat
                          (TerminalPayRoute.terminal_payment TerminalScenario.env_done
                             TerminalScenario.task1 5500
                             (SkyTabAdapter.parseTransactionData Devices.approval
                                "dev_tx_1"))) by (by vm_compute).
    exact (f_equal Api.status (Hresp Hwithin)).
Defined.

Section SkyTabAtTheEndpoint.
Import Js Errors Db Api Terminals TerminalMachine SkyTabAdapter Observe.

(** The result of [startPayment] when the poll is ended by an answer of
    the device other than "approved": nothing of the answer is in it. *)
Lemma startPayment_not_approved terminalId nano tdata device request k data :
  let tid := default nano (or_else truthy_string (transaction_id tdata) (Some nano)) in
  (k < 60)%nat →
  device k = Returned data →
  d_status data ≠ "pending" → d_status data ≠ "processing" → d_status data ≠ "approved" →
  d_status data ∉ object_prototype_keys →
  (∀ j, (j < k)%nat → is_complete (observed device tid j) = false) →
  ∃ r, (startPayment terminalId nano (Returned tdata) device request).2 = Returned r
       ∧ r_approved r = false
       ∧ responseCode r = None ∧ responseMessage r = None
       ∧ authCode r = None ∧ token r = None
       ∧ errorCode r = Some (toUpperCase (status_string (mapStatus (d_status data)))).
Proof.
  intros tid Hk Hdev Hpending Hprocessing Happroved Hown Hbefore.
  unfold startPayment. fold tid. unfold pollTransactionStatus. cbn [default].
  rewrite (poll_from_first terminalId device tid (sp_amount request) DEFAULT_INTERVAL_MS
             DEFAULT_MAX_ATTEMPTS 0 k Hk).
  - cbn [Nat.add]. rewrite Hdev. unfold getStatus, completed_result. cbn [ts_result].
    destruct (decide (d_status data = "approved")); [done|].
    eexists. split; [reflexivity|]. by cbn.
  - cbn [Nat.add]. unfold observed. rewrite Hdev. cbn.
    destruct (is_complete (mapStatus (d_status data))) eqn:Hc; [done|].
    apply mapStatus_complete in Hc. by destruct Hc as [? | [? | ?]].
  - intros j Hj. by apply Hbefore.
Qed.

End SkyTabAtTheEndpoint.

(** X23.  A payment that a SkyTab device ends with an answer other than
    "approved" (declined, cancelled, error, or a status the adapter does
    not know; a property name of [Object.prototype] does not end the poll
    and is excluded) reaches the status endpoint as "declined" without any
    error message: the device's status survives only in [errorCode] of
    the adapter's result, which the route does not store.  No payment is
    written. *)
Theorem skytab_unapproved_payment_is_reported_declined
    (st : Terminals.Store) (env : Api.Env) (task : TerminalPayRoute.Task)
    (k0 : Db.Id) (row : Terminals.TerminalTransaction)
    (terminalId nano : string) (tdata : SkyTabAdapter.TransactionData)
    (device : nat → SkyTabAdapter.Http SkyTabAdapter.DeviceData)
    (request : SkyTabAdapter.StartPaymentRequest) (k : nat)
    (data : SkyTabAdapter.DeviceData) :
  let tid := default nano (Js.or_else Js.truthy_string
                             (SkyTabAdapter.transaction_id tdata) (Some nano)) in
  TerminalMachine.sole_row st (TerminalPayRoute.t_transactionId task) k0 row →
  Terminals.tt_responseCode row = None →
  Terminals.tt_responseMessage row = None →
  (k < 60)%nat →
  device k = Js.Returned data →
  SkyTabAdapter.d_status data ≠ "pending" →
  SkyTabAdapter.d_status data ≠ "processing" →
  SkyTabAdapter.d_status data ≠ "approved" →
  SkyTabAdapter.d_status data ∉ Js.object_prototype_keys →
  (∀ j, (j < k)%nat →
        SkyTabAdapter.is_complete (Observe.observed device tid j) = false) →
  let outcome := (SkyTabAdapter.startPayment terminalId nano (Js.Returned tdata)
                                             device request).2 in
  let st2 := TerminalPayRoute.settle st env task outcome in
  Terminals.db st2 = Terminals.db st
  ∧ TerminalStatusRoute.GET st2 (TerminalPayRoute.t_transactionId task)
    = Terminals.Success 200
        {| TerminalStatusRoute.sd_transactionId := TerminalPayRoute.t_transactionId task;
           TerminalStatusRoute.sd_status := "declined";
           TerminalStatusRoute.sd_approved := Some false;
           TerminalStatusRoute.sd_result := None;
           TerminalStatusRoute.sd_error := None |}.
Proof.
  intros tid Hsole Hcode Hmsg Hk Hdev Hpending Hprocessing Happroved Hown Hbefore
         outcome st2.
  destruct (startPayment_not_approved terminalId nano tdata device request k data
              Hk Hdev Hpending Hprocessing Happroved Hown Hbefore)
    as (r & Hout & Hr & Hrc & Hrm & _).
  subst st2 outcome. rewrite Hout.
  unfold TerminalPayRoute.settle, TerminalPayRoute.on_result.
  rewrite (update_transaction_sole _ _ _ _ _ Hsole), Hr. split; [done|].
  rewrite (GET_sole _ _ k0 (TerminalPayRoute.completed (Api.now env) r row)).
  2:{ apply sole_row_alter; [done | apply completed_transactionId]. }
  unfold TerminalStatusRoute.status_of. cbn. by rewrite Hr, Hrc, Hrm, Hcode, Hmsg.
Qed.

Lemma skytab_unapproved_payment_is_reported_declined_witness :
  let st1 := TerminalPayRoute.st' (TerminalPayRoute.POST TerminalScenario.store0
               TerminalScenario.env_pay TerminalScenario.penv TerminalScenario.pay) in
  let outcome := (SkyTabAdapter.startPayment "term_1" "n_1"
                    (Js.Returned {| SkyTabAdapter.transaction_id := Some "dev_tx_1" |})
                    TerminalScenario.cancelled_at_once Devices.sale).2 in
  let st2 := TerminalPayRoute.settle st1 TerminalScenario.env_done TerminalScenario.task1
               outcome in
  (∃ r, outcome = Js.Returned r ∧ SkyTabAdapter.errorCode r = Some "CANCELLED")
  ∧ TerminalStatusRoute.GET st2 "tx_1"
    = Terminals.Success 200
        {| TerminalStatusRoute.sd_transactionId := "tx_1";
           TerminalStatusRoute.sd_status := "declined";
           TerminalStatusRoute.sd_approved := Some false;
           TerminalStatusRoute.sd_result := None;
           TerminalStatusRoute.sd_error := None |}.
Proof.
  intros st1 outcome st2.
  destruct (POST_accepted_row TerminalScenario.store0 TerminalScenario.env_pay
              TerminalScenario.penv TerminalScenario.pay TerminalScenario.counter
              ConfirmScenario.order_draft (Terminals.SkyTabClient 0%nat "dev_1"))
    as (k & row & Hsole & _ & _ & _ & _ & _ & Hcode & Hmsg);
    [reflexivity | reflexivity | reflexivity | reflexivity | reflexivity |].
  split; [eexists; split; by vm_compute|].
  destruct (skytab_unapproved_payment_is_reported_declined st1 TerminalScenario.env_done
              TerminalScenario.task1 k row "term_1" "n_1"
              {| SkyTabAdapter.transaction_id := Some "dev_tx_1" |}
              TerminalScenario.cancelled_at_once Devices.sale 0%nat
              (Observe.reading "cancelled") Hsole Hcode Hmsg) as [_ Hget];
    [lia | reflexivity | done | done | done
     | intros Hin; by destruct (own_key_not_inherited _ Hin) as (_ & _ & _ & _ & ? & _)
     | intros j Hj; lia |].
  exact Hget.
Defined.

(** ** Pinging a terminal, and registering one *)

Section TerminalRegistry.
Import Js Errors Db Api Terminals TerminalMachine.

(** The adapter of a terminal depends on its type and device id only. *)
Lemma createClient_same penv id t t' :
  t_type t' = t_type t → apiTerminalId t' = apiTerminalId t →
  createClient penv id t' = createClient penv id t.
Proof. unfold createClient. by intros -> ->. Qed.

Lemma pay_terminals st env penv body :
  terminals (TerminalPayRoute.st' (TerminalPayRoute.POST st env penv body)) = terminals st.
Proof.
  unfold TerminalPayRoute.POST.
  destruct (terminals st !! _); [|done]. destruct (negb _); [done|].
  destruct (orders _ !! _); [|done]. destruct (createClient _ _ _); [|done].
  by destruct (findFirst _ _).
Qed.

Lemma settle_terminals st env task outcome :
  terminals (TerminalPayRoute.settle st env task outcome) = terminals st.
Proof.
  assert (Herr : ∀ st0 e, terminals (TerminalPayRoute.on_error st0 env task e) = terminals st0).
  { intros st0 e. unfold TerminalPayRoute.on_error, TerminalPayRoute.update_transaction.
    by destruct (findFirst _ _) as [[? ?]|]. }
  unfold TerminalPayRoute.settle. destruct outcome as [result|e]; [|apply Herr].
  unfold TerminalPayRoute.on_result, TerminalPayRoute.update_transaction.
  destruct (findFirst _ _) as [[k r]|]; [|apply Herr].
  destruct (SkyTabAdapter.r_approved result); [|done].
  cbn [Terminals.db set_terminalTransactions].
  destruct (SkyTabAdapter.totalAmount result) as [a|]; [|by rewrite Herr].
  destruct (orders (Terminals.db st) !! _); [|by rewrite Herr].
  destruct (TerminalPayRoute.charge_reference_taken _ _); [by rewrite Herr | done].
Qed.

(** Rewriting a row without touching its device id keeps the ids unique. *)
Lemma api_ids_unique_alter st f id :
  (∀ t, apiTerminalId (f t) = apiTerminalId t) →
  api_ids_unique st →
  api_ids_unique (set_terminals (alter f id (terminals st)) st).
Proof.
  intros Hf Huniq i j ti tj Hi Hj Heq. cbn in Hi, Hj.
  assert (Hold : ∀ n t, alter f id (terminals st) !! n = Some t →
                        ∃ t0, terminals st !! n = Some t0
                              ∧ apiTerminalId t = apiTerminalId t0).
  { intros n t Hn. destruct (decide (n = id)) as [->|Hne].
    - rewrite lookup_alter_eq in Hn. destruct (terminals st !! id) as [t0|]; [|done].
      injection Hn as <-. exists t0. by rewrite Hf.
    - rewrite lookup_alter_ne in Hn by done. by exists t. }
  destruct (Hold i ti Hi) as (ti0 & Hi0 & Hai), (Hold j tj Hj) as (tj0 & Hj0 & Haj).
  apply (Huniq i j ti0 tj0 Hi0 Hj0). congruence.
Qed.

Lemma step_api_ids_unique st ev :
  api_ids_unique st → api_ids_unique (step st ev).
Proof.
  intros Huniq. destruct ev as [body | env penv id get t0 t1 | env penv body | env task outcome].
  - cbn. unfold TerminalsRoute.POST.
    destruct (TerminalsRoute.name body) as [name|]; [|done].
    destruct (TerminalsRoute.type body) as [type|]; [|done].
    destruct (TerminalsRoute.rq_apiTerminalId body) as [api|]; [|done].
    destruct (negb _ || negb _); [done|].
    destruct (findFirst _ _) as [[? ?]|] eqn:Hfind; [done|].
    cbn. intros i j ti tj Hi Hj Heq. cbn in Hi, Hj.
    destruct (decide (i = fresh (dom (terminals st)))) as [->|Hi'],
             (decide (j = fresh (dom (terminals st)))) as [->|Hj']; [done| | |].
    + rewrite lookup_insert_eq in Hi. rewrite lookup_insert_ne in Hj by done.
      injection Hi as <-. cbn in Heq.
      pose proof (findFirst_None _ _ j tj Hfind Hj) as HP. cbn beta in HP.
      by apply bool_decide_eq_false_1 in HP.
    + rewrite lookup_insert_eq in Hj. rewrite lookup_insert_ne in Hi by done.
      injection Hj as <-. cbn in Heq.
      pose proof (findFirst_None _ _ i ti Hfind Hi) as HP. cbn beta in HP.
      by apply bool_decide_eq_false_1 in HP.
    + rewrite lookup_insert_ne in Hi, Hj by done. by apply (Huniq i j ti tj).
  - cbn. unfold PingRoute.POST.
    destruct (terminals st !! id); [|done]. destruct (createClient _ _ _); [|done].
    cbn. destruct (online _); by apply api_ids_unique_alter.
  - cbn. intros i j ti tj. rewrite pay_terminals. apply Huniq.
  - cbn. intros i j ti tj. rewrite settle_terminals. apply Huniq.
Qed.

End TerminalRegistry.

(** X24.  A ping of a known terminal with a configured adapter sets the
    terminal's status by the answer of the device alone, whatever the
    status was: ACTIVE (with the time of the ping) when the health request
    is answered, OFFLINE when it fails; no other terminal and no other
    table changes.  After a failed ping every payment request for the
    terminal is refused with 400 "Terminal is not active", and after an
    answered ping the terminal's status no longer stands in the way of a
    payment request. *)
Theorem ping_decides_whether_terminal_takes_payments
    (st : Terminals.Store) (env : Api.Env) (penv : Terminals.ProcessEnv)
    (id : Db.Id) (terminal : Terminals.Terminal) (client : Terminals.TerminalClient)
    (get : Js.Completion Errors.JsError ()) (startTime endTime : Db.Time) :
  Terminals.terminals st !! id = Some terminal →
  Terminals.createClient penv id terminal = Js.Returned client →
  let st1 := PingRoute.st' (PingRoute.POST st env penv id get startTime endTime) in
  (∃ terminal', Terminals.terminals st1 !! id = Some terminal'
                ∧ Terminals.t_status terminal'
                  = match get with Js.Returned _ => "ACTIVE" | Js.Threw _ => "OFFLINE" end
                ∧ Terminals.lastPingAt terminal'
                  = match get with
                    | Js.Returned _ => Some (Api.now env)
                    | Js.Threw _ => Terminals.lastPingAt terminal
                    end)
  ∧ (∀ j, j ≠ id → Terminals.terminals st1 !! j = Terminals.terminals st !! j)
  ∧ Terminals.db st1 = Terminals.db st
  ∧ Terminals.terminalTransactions st1 = Terminals.terminalTransactions st
  ∧ ∀ env' body,
      TerminalPayRoute.terminalId body = id →
      match get with
      | Js.Threw _ =>
          TerminalPayRoute.POST st1 env' penv body
          = TerminalPayRoute.refuse st1
              (Api.errorResponse (Errors.PlainErr "Terminal is not active") (Some 400))
      | Js.Returned _ =>
          ∀ order,
            Db.orders (Terminals.db st) !! TerminalPayRoute.orderId body = Some order →
            Db.findFirst (λ r, bool_decide (Terminals.tt_transactionId r = Api.nanoid env'))
                         (Terminals.terminalTransactions st) = None →
            ∃ task, TerminalPayRoute.spawned (TerminalPayRoute.POST st1 env' penv body)
                    = Some task
                    ∧ TerminalPayRoute.client task = client
      end.
Proof.
  intros Ht Hc. cbv zeta. unfold PingRoute.POST. rewrite Ht, Hc.
  destruct get as [u|e]; cbn [Terminals.ping Terminals.online PingRoute.st'].
  - split; [eexists; split; [cbn; by rewrite lookup_alter_eq, Ht | done]|].
    split; [intros j Hj; cbn; by rewrite lookup_alter_ne|].
    split; [done|]. split; [done|].
    intros env' body Hid order Ho Hfresh.
    unfold TerminalPayRoute.POST. cbn [Terminals.terminals Terminals.set_terminals].
    rewrite Hid, lookup_alter_eq, Ht. cbn [fmap option_fmap option_map].
    cbn [PingRoute.ping_online Terminals.t_status].
    rewrite bool_decide_eq_true_2 by done. cbn [negb Terminals.db Terminals.set_terminals].
    rewrite Ho.
    rewrite (createClient_same penv id terminal (PingRoute.ping_online (Api.now env) terminal))
      by done.
    rewrite Hc. cbn [Terminals.terminalTransactions Terminals.set_terminals].
    rewrite Hfresh. by eexists.
  - split; [eexists; split; [cbn; by rewrite lookup_alter_eq, Ht | done]|].
    split; [intros j Hj; cbn; by rewrite lookup_alter_ne|].
    split; [done|]. split; [done|].
    intros env' body Hid.
    unfold TerminalPayRoute.POST. cbn [Terminals.terminals Terminals.set_terminals].
    rewrite Hid, lookup_alter_eq, Ht. cbn [fmap option_fmap option_map].
    cbn [PingRoute.ping_offline Terminals.t_status].
    by rewrite bool_decide_eq_false_2.
Qed.

Lemma ping_decides_whether_terminal_takes_payments_witness :
  let st1 := PingRoute.st' (PingRoute.POST TerminalScenario.in_maintenance
               TerminalScenario.env_pay TerminalScenario.penv 0%nat
               (Js.Returned ()) 10 35) in
  (∃ terminal', Terminals.terminals st1 !! 0%nat = Some terminal'
                ∧ Terminals.t_status terminal' = "ACTIVE")
  ∧ ∃ task, TerminalPayRoute.spawned
              (TerminalPayRoute.POST st1 TerminalScenario.env_done TerminalScenario.penv
                 TerminalScenario.pay) = Some task.
Proof.
  intros st1.
  destruct (ping_decides_whether_terminal_takes_payments TerminalScenario.in_maintenance
              TerminalScenario.env_pay TerminalScenario.penv 0%nat
              (TerminalScenario.in_maintenance_terminal)
              (Terminals.SkyTabClient 0%nat "dev_1") (Js.Returned ()) 10 35)
    as ((terminal' & Hlook & Hstatus & _) & _ & _ & _ & Hpay);
    [reflexivity | reflexivity |].
  split; [by exists terminal'|].
  destruct (Hpay TerminalScenario.env_done TerminalScenario.pay eq_refl
              ConfirmScenario.order_draft eq_refl eq_refl) as (task & Htask & _).
  by exists task.
Defined.

(** X25.  No sequence of requests to the terminal routes (registrations,
    pings, payment requests) and of settlings of payments makes two
    terminals share a device id ([apiTerminalId]): a registration under an
    id some terminal has is refused, and no route rewrites the id. *)
Theorem api_terminal_ids_stay_unique
    (st : Terminals.Store) (evs : list TerminalMachine.Event) :
  TerminalMachine.api_ids_unique st →
  TerminalMachine.api_ids_unique (TerminalMachine.run st evs).
Proof.
  revert st. induction evs as [|ev evs IH]; intros st Huniq; [done|].
  cbn. apply IH. by apply step_api_ids_unique.
Qed.

Lemma api_terminal_ids_stay_unique_witness :
  TerminalMachine.api_ids_unique
    (TerminalMachine.run TerminalScenario.store0 TerminalScenario.busy_day).
Proof.
  apply (api_terminal_ids_stay_unique TerminalScenario.store0 TerminalScenario.busy_day).
  intros i j ti tj Hi Hj _. cbn in Hi, Hj.
  apply lookup_singleton_Some in Hi as [<- _]. by apply lookup_singleton_Some in Hj as [<- _].
Defined.

(** ** The checkout intent *)

Section Intent.
Import Js Errors Db Api Terminals.



End Intent.





(** ** Payout notifications *)

(** X28.  A payout notification for a payout that has its row creates no
    second row and rewrites nothing but the status of that row, which
    becomes PAID when the body's type is "payout.paid" and PENDING
    otherwise, whatever it was; the amount, currency, arrival date and
    description of the later notification are ignored.  A "payout.created"
    processed after "payout.paid" thus sets a PAID payout back to PENDING. *)
Theorem payout_status_follows_the_last_notification
    (eventType : string) (data : Db.Payload) (t : Db.Time) (db : Db.DB)
    (payoutId : string) (k : Db.Id) (row : Db.Payout) :
  eventType = "payout.created" ∨ eventType = "payout.paid" →
  WebhookRoute.data_id data = Some payoutId →
  Db.findFirst (λ p, bool_decide (Db.shift4PayoutId p = payoutId)) (Db.payouts db)
  = Some (k, row) →
  ∃ db1 row',
    WebhookRoute.dispatch eventType data t db = Js.Returned db1
    ∧ Db.payouts db1 !! k = Some row'
    ∧ (∀ j, j ≠ k → Db.payouts db1 !! j = Db.payouts db !! j)
    ∧ Db.po_status row'
      = (if bool_decide (Db.pl_type data = Some "payout.paid")
         then Db.PayoutStatus.PAID else Db.PayoutStatus.PENDING)
    ∧ Db.shift4PayoutId row' = payoutId
    ∧ Db.po_amount row' = Db.po_amount row
    ∧ Db.po_currency row' = Db.po_currency row
    ∧ Db.arrivalDate row' = Db.arrivalDate row
    ∧ Db.po_description row' = Db.po_description row
    ∧ WebhookScenario.business (Db.set_payouts (Db.payouts db) db1)
      = WebhookScenario.business db.
Proof.
  intros Htype Hid Hfind.
  destruct (findFirst_Some _ _ _ _ Hfind) as [Hlook Hmatch].
  apply bool_decide_eq_true_1 in Hmatch.
  assert (Hrun : WebhookRoute.dispatch eventType data t db
                 = WebhookRoute.answered (WebhookRoute.handlePayout data) db).
  { by destruct Htype as [-> | ->]. }
  rewrite Hrun. unfold WebhookRoute.answered, WebhookRoute.handlePayout. rewrite Hid.
  unfold WebhookRoute.await, WebhookRoute.payout_upsert. rewrite Hfind.
  eexists _, _. split; [reflexivity|]. cbn [Db.payouts Db.set_payouts].
  split; [by rewrite lookup_alter_eq, Hlook|].
  split; [intros j Hj; by rewrite lookup_alter_ne|].
  by repeat split.
Qed.

Lemma payout_status_follows_the_last_notification_witness :
  Db.po_status <$> Db.payouts PayoutScenario.after_paid !! 0%nat = Some Db.PayoutStatus.PAID
  ∧ ∃ db1 row',
      WebhookRoute.dispatch "payout.created" PayoutScenario.created 71
                            PayoutScenario.after_paid = Js.Returned db1
      ∧ Db.payouts db1 !! 0%nat = Some row'
      ∧ Db.po_status row' = Db.PayoutStatus.PENDING
      ∧ Db.po_amount row' = 12000.
Proof.
  split; [by vm_compute|].
  destruct (payout_status_follows_the_last_notification "payout.created"
              PayoutScenario.created 71 PayoutScenario.after_paid "po_1" 0%nat
              {| Db.shift4PayoutId := "po_1"; Db.po_amount := 12000;
                 Db.po_currency := "usd"; Db.po_status := Db.PayoutStatus.PAID;
                 Db.arrivalDate := Some 1800000000000;
                 Db.po_description := Some "Daily payout" |})
    as (db1 & row' & Hrun & Hlook & _ & Hstatus & _ & Hamount & _);
    [by left | reflexivity | by vm_compute |].
  exists db1, row'. split; [exact Hrun|]. split; [exact Hlook|].
  split; [exact Hstatus | exact Hamount].
Defined.

(** ** The UTG adapter *)

Section UTG.
Import Js Errors UTGAdapter.

Lemma digit_pretty_N_char (d : N) :
  (d < 10)%N → digit (pretty_N_char d) = Some (Z.of_N d).
Proof.
  intros Hd.
  assert (d = 0 ∨ d = 1 ∨ d = 2 ∨ d = 3 ∨ d = 4 ∨ d = 5 ∨ d = 6 ∨ d = 7 ∨ d = 8 ∨ d = 9)%N
    as Hcases by lia.
  by repeat (destruct Hcases as [-> | Hcases]; [done|]); subst.
Qed.

(** [digits] reads back what [pretty] wrote. *)
Lemma digits_pretty_N_go (x : N) (s : string) :
  (0 < x)%N → digits None (pretty_N_go x s) = digits (Some (Z.of_N x)) s.
Proof.
  revert s. induction (N.lt_wf_0 x) as [x _ IH]. intros s Hx.
  rewrite pretty_N_go_step by done.
  assert (Hd : (x `mod` 10 < 10)%N) by (apply N.mod_lt; lia).
  assert (Hx10 : Z.of_N x = 10 * Z.of_N (x `div` 10) + Z.of_N (x `mod` 10)).
  { rewrite (N.div_mod x 10) at 1 by lia. lia. }
  destruct (decide (x `div` 10 = 0)%N) as [Hzero | Hpos].
  - rewrite Hzero, pretty_N_go_0. cbn [digits].
    rewrite (digit_pretty_N_char _ Hd). cbn [default]. f_equal. f_equal.
    rewrite Hx10, Hzero. lia.
  - rewrite IH; [|apply N.div_lt; lia | lia]. cbn [digits].
    rewrite (digit_pretty_N_char _ Hd). cbn [default]. by rewrite Hx10.
Qed.

(** The text of a positive number starts with a digit. *)
Lemma pretty_N_go_head (x : N) (s : string) :
  (0 < x)%N → ∃ d r, (d < 10)%N ∧ pretty_N_go x s = String (pretty_N_char d) r.
Proof.
  revert s. induction (N.lt_wf_0 x) as [x _ IH]. intros s Hx.
  rewrite pretty_N_go_step by done.
  destruct (decide (x `div` 10 = 0)%N) as [Hzero | Hpos].
  - rewrite Hzero, pretty_N_go_0. eexists _, _. split; [|done]. apply N.mod_lt. lia.
  - apply IH; [apply N.div_lt; lia | by apply N.neq_0_lt_0].
Qed.

Lemma parseInt10_digits (d : N) (r : string) :
  (d < 10)%N →
  parseInt10 (String (pretty_N_char d) r)
  = match digits None (String (pretty_N_char d) r) with
    | None => NaN
    | Some n => if is_safe_integer n then Int n else Rounded
    end.
Proof.
  intros Hd.
  assert (d = 0 ∨ d = 1 ∨ d = 2 ∨ d = 3 ∨ d = 4 ∨ d = 5 ∨ d = 6 ∨ d = 7 ∨ d = 8 ∨ d = 9)%N
    as Hcases by lia.
  by repeat (destruct Hcases as [-> | Hcases]; [done|]); subst.
Qed.

Lemma digits_pretty_positive (p : positive) :
  digits None (pretty (Npos p)) = Some (Zpos p).
Proof.
  unfold pretty, pretty_N. rewrite decide_False by done.
  by rewrite digits_pretty_N_go by lia.
Qed.

Lemma parseInt10_positive (p : positive) :
  is_safe_integer (Zpos p) = true →
  parseInt10 (pretty (Npos p)) = Int (Zpos p).
Proof.
  intros Hsafe. pose proof (digits_pretty_positive p) as Hdigits.
  unfold pretty, pretty_N in *. rewrite decide_False in * by done.
  destruct (pretty_N_go_head (Npos p) "" ltac:(lia)) as (d & r & Hd & Hhead).
  rewrite Hhead in *. rewrite (parseInt10_digits d r Hd). by rewrite Hdigits, Hsafe.
Qed.

(** On a safe integer [formatAmount] writes the decimal digits, and
    [parseInt(n.toString(), 10)] is [n]. *)
Lemma parseInt10_formatAmount (n : Z) :
  is_safe_integer n = true →
  formatAmount n = Digits (pretty n) ∧ parseInt10 (pretty n) = Int n.
Proof.
  intros Hsafe. unfold formatAmount. rewrite Hsafe. split; [done|].
  unfold pretty, pretty_Z. destruct n as [|p|p]; [done| |].
  - by apply parseInt10_positive.
  - assert (Hp : is_safe_integer (Zpos p) = true).
    { unfold is_safe_integer in *. apply bool_decide_eq_true_1 in Hsafe.
      apply bool_decide_eq_true_2. lia. }
    change (parseInt10 ("-" +:+ pretty p))
      with (match digits None (pretty (Npos p)) with
            | None => NaN
            | Some n => if is_safe_integer n then Int (- n) else Rounded
            end).
    by rewrite digits_pretty_positive, Hp.
Qed.

End UTG.

(** X29.  The UTG adapter reads back the amount it writes: for an amount
    that is a safe integer (at most 2^53 - 1 in absolute value)
    [formatAmount] writes its decimal digits and [parseAmount] of these
    digits is the amount.  So when the gateway's answer to a sale of such
    an amount echoes the [Amount] string of the request and gives no other
    total, [startPayment] returns (it does not throw) a result whose amount
    and total amount are the requested amount; the result is approved
    exactly when the response code is "00", and carries the gateway's
    message and code as its error exactly when it is not. *)
Theorem utg_sale_reads_back_the_amount_it_sent
    (apiTerminalId terminalId nano : string) (data : UTGAdapter.UtgData)
    (request : UTGAdapter.StartPaymentRequest) (text : string) :
  let sent := (UTGAdapter.startPayment apiTerminalId terminalId nano
                 (Js.Returned data) request).1 in
  UTGAdapter.is_safe_integer (UTGAdapter.sp_amount request) = true →
  UTGAdapter.rq_Amount sent = UTGAdapter.Digits text →
  UTGAdapter.Amount data = Some (UTGAdapter.Text text) →
  Js.is_truthy UTGAdapter.truthy_amount (UTGAdapter.TotalAmount data) = false →
  ∃ r, (UTGAdapter.startPayment apiTerminalId terminalId nano (Js.Returned data) request).2
       = Js.Returned r
       ∧ UTGAdapter.amount r = Some (UTGAdapter.Int (UTGAdapter.sp_amount request))
       ∧ UTGAdapter.totalAmount r = Some (UTGAdapter.Int (UTGAdapter.sp_amount request))
       ∧ (UTGAdapter.approved r = true ↔ UTGAdapter.ResponseCode data = Some "00")
       ∧ UTGAdapter.error r
         = (if UTGAdapter.approved r then None else UTGAdapter.ResponseMessage data)
       ∧ UTGAdapter.errorCode r
         = (if UTGAdapter.approved r then None else UTGAdapter.ResponseCode data).
Proof.
  cbv zeta. cbn [UTGAdapter.startPayment fst snd UTGAdapter.sale UTGAdapter.rq_Amount].
  intros Hsafe Hsent Hecho Htotal. eexists. split; [reflexivity|].
  cbn [UTGAdapter.parsePaymentResponse UTGAdapter.amount UTGAdapter.totalAmount
       UTGAdapter.approved UTGAdapter.error UTGAdapter.errorCode].
  destruct (parseInt10_formatAmount _ Hsafe) as [Hformat Hparse].
  rewrite Hformat in Hsent. injection Hsent as <-.
  assert (Hamount : UTGAdapter.parseAmount (UTGAdapter.Amount data)
                    = Some (UTGAdapter.Int (UTGAdapter.sp_amount request))).
  { rewrite Hecho. cbn. by rewrite Hparse. }
  assert (Hor : Js.or_else UTGAdapter.truthy_amount (UTGAdapter.TotalAmount data)
                           (UTGAdapter.Amount data) = UTGAdapter.Amount data).
  { unfold Js.or_else, Js.is_truthy in *.
    destruct (UTGAdapter.TotalAmount data) as [a|]; [by rewrite Htotal | done]. }
  rewrite Hor, Hamount. do 2 (split; [done|]).
  split; [|done]. unfold UTGAdapter.UTG_APPROVED_CODE.
  split; [apply bool_decide_eq_true_1 | apply bool_decide_eq_true_2].
Qed.

Lemma utg_sale_reads_back_the_amount_it_sent_witness :
  ∃ r, (UTGAdapter.startPayment "TERM_001" "terminal-123" "tx_1"
          (Js.Returned UTGAdapter.echo_5000) UTGAdapter.sale_5000).2 = Js.Returned r
       ∧ UTGAdapter.amount r = Some (UTGAdapter.Int 5000)
       ∧ UTGAdapter.approved r = false
       ∧ UTGAdapter.error r = Some "Do not honor".
Proof.
  destruct (utg_sale_reads_back_the_amount_it_sent "TERM_001" "terminal-123" "tx_1"
              UTGAdapter.echo_5000 UTGAdapter.sale_5000 "5000")
    as (r & Hrun & Hamount & _ & Happroved & Herror & _);
    [reflexivity | reflexivity | reflexivity | reflexivity |].
  exists r. split; [exact Hrun|]. split; [exact Hamount|].
  assert (Hno : UTGAdapter.approved r = false).
  { destruct (UTGAdapter.approved r); [|done]. discriminate (proj1 Happroved eq_refl). }
  split; [exact Hno|]. by rewrite Herror, Hno.
Defined.

(** X30.  [getStatus] of the UTG adapter never throws and never reports
    "pending": an answered query is "approved" exactly for the response
    code "00" (and exactly then carries a result), "cancelled" for "CA",
    "timeout" for "TO" and "declined" for every other answer, one without
    a response code included; only a failed query is reported as "error".
    The status endpoint maps a completed transaction that stores the code
    and the approval of such an answer to the same status. *)
Theorem utg_status_is_decided_by_the_response_code
    (post : SkyTabAdapter.Http UTGAdapter.UtgData) (transactionId : string) :
  let s := UTGAdapter.getStatus post transactionId in
  UTGAdapter.ts_status s ≠ SkyTabAdapter.pending
  ∧ (UTGAdapter.ts_status s = SkyTabAdapter.error ↔ ∃ e, post = Js.Threw e)
  ∧ (UTGAdapter.ts_status s = SkyTabAdapter.approved
     ↔ ∃ data, post = Js.Returned data ∧ UTGAdapter.ResponseCode data = Some "00")
  ∧ (UTGAdapter.ts_status s = SkyTabAdapter.approved
     ↔ UTGAdapter.ts_approved s = Some true)
  ∧ (UTGAdapter.ts_status s = SkyTabAdapter.approved
     ↔ ∃ r, UTGAdapter.ts_result s = Some r)
  ∧ (∀ data, post = Js.Returned data →
             UTGAdapter.ResponseCode data ≠ Some "00" →
             UTGAdapter.ResponseCode data ≠ Some "CA" →
             UTGAdapter.ResponseCode data ≠ Some "TO" →
             UTGAdapter.ts_status s = SkyTabAdapter.declined)
  ∧ (∀ data row t,
       post = Js.Returned data →
       Terminals.completedAt row = Some t →
       Terminals.approved row = UTGAdapter.ts_approved s →
       Terminals.tt_responseCode row = UTGAdapter.ResponseCode data →
       TerminalStatusRoute.status_of row
       = SkyTabAdapter.status_string (UTGAdapter.ts_status s)).
Proof.
  cbv zeta. destruct post as [data|e]; cbn.
  - unfold UTGAdapter.mapStatus, UTGAdapter.UTG_APPROVED_CODE,
      UTGAdapter.UTG_CANCELLED_CODE, UTGAdapter.UTG_TIMEOUT_CODE.
    split; [by repeat case_decide|].
    split; [split; [by repeat case_decide | by intros [e He]]|].
    split.
    { split.
      - intros Hs. exists data. split; [done|]. by repeat case_decide.
      - intros (data' & [= <-] & ->). by rewrite decide_True. }
    split.
    { split.
      - intros Hs. f_equal. apply bool_decide_eq_true_2. by repeat case_decide.
      - intros [= Hc]. apply bool_decide_eq_true_1 in Hc. by rewrite decide_True. }
    split.
    { split.
      - intros Hs. destruct (decide (UTGAdapter.ResponseCode data = Some "00"));
          [by eexists | by repeat case_decide].
      - intros [r Hr]. by destruct (decide (UTGAdapter.ResponseCode data = Some "00")). }
    split.
    { intros data' [= <-] H00 Hca Hto. by rewrite !decide_False. }
    intros data' row t [= <-] Hdone Happroved Hcode.
    unfold TerminalStatusRoute.status_of. rewrite Hdone, Happroved, Hcode. cbn.
    case_bool_decide as H00; [by rewrite decide_True|].
    rewrite (decide_False (P := UTGAdapter.ResponseCode data = Some "00")) by done.
    by repeat case_decide.
  - split; [done|]. split; [split; [by eexists | done]|].
    split; [split; [done | by intros (? & ? & _)]|].
    split; [done|]. split; [split; [done | by intros [? ?]]|].
    split; [by intros ? [=]|]. by intros ? ? ? [=].
Qed.

Lemma utg_status_is_decided_by_the_response_code_witness :
  UTGAdapter.ts_status (UTGAdapter.getStatus (Js.Returned UTGAdapter.under_way) "tx_1")
  = SkyTabAdapter.declined
  ∧ UTGAdapter.ts_status (UTGAdapter.getStatus (Js.Returned UTGAdapter.approved_5000) "tx_1")
    = SkyTabAdapter.approved.
Proof.
  destruct (utg_status_is_decided_by_the_response_code
              (Js.Returned UTGAdapter.under_way) "tx_1")
    as (_ & _ & _ & _ & _ & Hdeclined & _).
  destruct (utg_status_is_decided_by_the_response_code
              (Js.Returned UTGAdapter.approved_5000) "tx_1")
    as (_ & _ & Happroved & _).
  split; [by apply (Hdeclined UTGAdapter.under_way)|].
  apply Happroved. by exists UTGAdapter.approved_5000.
Defined.
